(** * TimerMobile: the offline event store, the attendance tracker and the
    sync engine

    A shallow embedding of [src/services/database.ts], [checkinService.ts]
    and [src/services/syncService.ts], with the hashing of
    [src/services/cryptoService.ts] and, as far as they call the engine and
    the database, the reset, registration and update actions of the terminal
    store.

    - SQLite tables are Rocq values: [users] and [user_status] are keyed by
      their INTEGER PRIMARY KEY ([gmap Z]); [checkins] and [sync_log] are row
      lists in insertion order with an AUTOINCREMENT counter.
    - JavaScript numbers that the code uses as integers (timestamps, minutes,
      ids) are [Z]; [undefined]/[null]/NULL are [None].
    - Every method is a state transformer that either returns or throws
      ([Outcome]); a throw keeps the state reached so far, as in JavaScript.
    - The device clock, [Math.random] and [navigator.onLine] are oracles
      indexed by the number of observations made so far ([steps]).
    - [performSync] suspends on the gateway call; it is split there into
      [performSync] (up to the request) and [performSync_response] (from the
      gateway result on), the world in between carrying the attempt. The
      worlds at its earlier waits, for the sync_log insert and the queue
      read, are [beforeLogInsert] and [afterLogInsert]. *)

From Stdlib Require Import ZArith String Ascii List Sorted Permutation Lia.
From Stdlib Require QArith.
From stdpp Require Import base option gmap.
Import ListNotations.

Local Open Scope string_scope.
Local Open Scope Z_scope.

(* ================================================================== *)
(** ** JavaScript values *)
(* ================================================================== *)

Module Js.

(** [x || null] and [if (x)] on an optional number: [undefined], [null]
    and [0] are falsy. *)
Definition truthyZ (x : option Z) : bool :=
  match x with
  | Some n => negb (Z.eqb n 0)
  | None => false
  end.

Definition orNullZ (x : option Z) : option Z :=
  if truthyZ x then x else None.

(** [x || null] on an optional string: the empty string is falsy. *)
Definition truthyS (x : option string) : bool :=
  match x with
  | Some s => negb (String.eqb s "")
  | None => false
  end.

Definition orNullS (x : option string) : option string :=
  if truthyS x then x else None.

(** [x || null] on an optional coordinate. *)
Definition orNullQ (x : option QArith_base.Q) : option QArith_base.Q :=
  match x with
  | Some q => if QArith_base.Qeq_bool q (QArith_base.Qmake 0 1) then None else Some q
  | None => None
  end.

(** [b ? 1 : 0] on an optional boolean. *)
Definition flag (b : option bool) : Z :=
  match b with
  | Some true => 1
  | _ => 0
  end.

(** [Math.round(n / 60000)] for an integer [n]: round half up. *)
Definition roundMinutes (n : Z) : Z := (n + 30000) / 60000.

(** The digits of [n.toString(radix)] for [n >= 0], least significant
    first into [acc]; [fuel] bounds the number of digits. *)
Fixpoint digitsOf (fuel : nat) (radix n : Z) (acc : string) : string :=
  match fuel with
  | O => acc
  | S fuel' =>
      let d := nth (Z.to_nat (n mod radix))
                 (list_ascii_of_string "0123456789abcdefghijklmnopqrstuvwxyz")
                 "0"%char in
      if Z.eqb (n / radix) 0 then String d acc
      else digitsOf fuel' radix (n / radix) (String d acc)
  end.

(** [Number.isSafeInteger(n)]: the integers every double holds exactly.
    On them [+], [-], [*] with a safe result, [%] and [Math.floor(n / k)]
    are the arithmetic of the integers. *)
Definition isSafeInteger (n : Z) : Prop :=
  (- 9007199254740991 <= n <= 9007199254740991)%Z.

(** [n.toString(radix)] for a safe integer [n]: every digit is printed (a
    double that is no safe integer has digits the integer does not have,
    and from 10^21 on radix 10 prints an exponent). A number below [2^k]
    has at most [k] digits in any radix. *)
Definition toStringRadix (radix n : Z) : string :=
  if Z.ltb n 0
  then String "-"%char (digitsOf (S (Z.to_nat (Z.log2 (- n)))) radix (- n) "")
  else digitsOf (S (Z.to_nat (Z.log2 n))) radix n "".

(** [s.padStart(targetLength, c)] for a one-character pad string. *)
Definition padStart (targetLength : nat) (c : ascii) (s : string) : string :=
  String.append
    (string_of_list_ascii (repeat c (targetLength - String.length s)%nat)) s.

(** ToInt32 and ToUint32 of an integer: what [x & x], [x << k] and
    [x >>> 0] reduce their operand to. *)
Definition toInt32 (z : Z) : Z := (z + 2147483648) mod 4294967296 - 2147483648.

Definition toUint32 (z : Z) : Z := z mod 4294967296.

(** [a % b] on integers: the sign of the dividend. *)
Definition remainder (a b : Z) : Z := Z.rem a b.

End Js.

(* ================================================================== *)
(** ** Types of [checkinService.ts] *)
(* ================================================================== *)

Inductive CheckType := check_in | check_out | break_start | break_end.
Inductive AuthMethod := nfc | pin | manual.
Inductive SyncStatus := pending | synced | failed | conflict.
Inductive SyncType := full | incremental | heartbeat.

Record CheckinRecord := {
  id : option Z;
  localId : string;
  userId : Z;
  userName : string;
  checkType : CheckType;
  timestamp : Z;
  authMethod : AuthMethod;
  nfcCardHash : option string;
  latitude : option QArith_base.Q;
  longitude : option QArith_base.Q;
  createdOffline : bool;
  syncStatus : SyncStatus;
  syncedAt : option Z;
  syncError : option string
}.

Record UserStatus := {
  us_userId : Z;
  us_userName : string;
  isCheckedIn : bool;
  isOnBreak : bool;
  lastCheckIn : option Z;
  lastCheckOut : option Z;
  currentSessionStart : option Z;
  totalTodayMinutes : Z
}.

(** [Partial<UserStatus>] as [updateUserStatus] reads it: a property that
    is absent and one that is present with value [undefined] are both
    [None]. *)
Record UserStatusUpdates := {
  up_isCheckedIn : option bool;
  up_isOnBreak : option bool;
  up_lastCheckIn : option Z;
  up_lastCheckOut : option Z;
  up_currentSessionStart : option Z;
  up_totalTodayMinutes : option Z
}.

Definition noUpdates : UserStatusUpdates :=
  {| up_isCheckedIn := None; up_isOnBreak := None; up_lastCheckIn := None;
     up_lastCheckOut := None; up_currentSessionStart := None;
     up_totalTodayMinutes := None |}.

(* ================================================================== *)
(** ** Types of [database.ts] *)
(* ================================================================== *)

Record LocalUser := {
  lu_id : Z;
  lu_name : string;
  lu_personnelNumber : option string;
  lu_department : option string;
  lu_nfcCardHash : option string;
  lu_pinHash : option string;
  lu_profilePhotoUrl : option string;
  lu_isActive : bool;
  lu_lastSyncedAt : option Z
}.

Record TerminalConfig := {
  terminalId : string;
  tenantId : Z;
  name : string;
  location : option string;
  apiKey : string;
  serverUrl : string;
  syncIntervalSeconds : Z;
  offlineBufferHours : Z;
  nfcEnabled : bool;
  pinFallbackEnabled : bool;
  timezone : string;
  language : string;
  lastSyncAt : option Z
}.

(** *** Rows, one record per CREATE TABLE *)

Record terminal_config_row := {
  tc_terminal_id : string;
  tc_tenant_id : Z;
  tc_name : string;
  tc_location : option string;
  tc_api_key : string;
  tc_server_url : string;
  tc_sync_interval_seconds : Z;
  tc_offline_buffer_hours : Z;
  tc_nfc_enabled : Z;
  tc_pin_fallback_enabled : Z;
  tc_timezone : string;
  tc_language : string;
  last_sync_at : option Z
}.

Record users_row := {
  u_name : string;
  u_personnel_number : option string;
  u_department : option string;
  u_nfc_card_hash : option string;
  u_pin_hash : option string;
  u_profile_photo_url : option string;
  u_is_active : Z;
  u_last_synced_at : option Z
}.

Record user_status_row := {
  is_checked_in : Z;
  is_on_break : Z;
  last_check_in : option Z;
  last_check_out : option Z;
  current_session_start : option Z;
  total_today_minutes : Z;
  today_date : string
}.

Record checkins_row := {
  c_id : Z;
  local_id : string;
  c_user_id : Z;
  c_user_name : string;
  check_type : CheckType;
  c_timestamp : Z;
  auth_method : AuthMethod;
  nfc_card_hash : option string;
  c_latitude : option QArith_base.Q;
  c_longitude : option QArith_base.Q;
  created_offline : Z;
  sync_status : SyncStatus;
  synced_at : option Z;
  sync_error : option string;
  created_at : Z
}.

Inductive sync_log_status := in_progress | completed | log_failed.

Record sync_log_row := {
  sl_id : Z;
  sync_type : SyncType;
  started_at : Z;
  completed_at : option Z;
  records_sent : Z;
  records_received : Z;
  records_failed : Z;
  sl_status : sync_log_status;
  error_message : option string
}.

(** The open database. [checkins_seq] and [sync_log_seq] are the
    [sqlite_sequence] entries of the two AUTOINCREMENT tables. *)
Record Tables := {
  terminal_config : option terminal_config_row;
  users : gmap Z users_row;
  user_status : gmap Z user_status_row;
  checkins : list checkins_row;
  checkins_seq : Z;
  sync_log : list sync_log_row;
  sync_log_seq : Z
}.

(* ================================================================== *)
(** ** Types of [syncService.ts] *)
(* ================================================================== *)

Record FailedRecord := { f_localId : string; f_error : string }.

Inductive ConflictType := duplicate | time_mismatch | user_mismatch.
Inductive Resolution := use_server | use_local | manual_resolution.

Record ConflictRecord := {
  cf_localId : string;
  conflictType : ConflictType;
  resolution : Resolution
}.

Record ServerUser := {
  su_userId : Z;
  su_name : string;
  su_personnelNumber : option string;
  su_department : option string;
  su_nfcCardHash : option string;
  su_pinHash : option string;
  su_profilePhotoUrl : option string;
  su_isActive : bool
}.

Record ServerSettings := {
  ss_syncIntervalSeconds : Z;
  ss_offlineBufferHours : Z;
  ss_nfcEnabled : bool;
  ss_pinFallbackEnabled : bool;
  ss_timezone : string;
  ss_language : string;
  ss_breakReminderMinutes : Z;
  ss_autoCheckoutHours : Z
}.

Record SyncRequest := {
  rq_terminalId : string;
  lastSyncTimestamp : Z;
  rq_checkins : list CheckinRecord;
  rq_syncType : SyncType
}.

Record SyncResponse := {
  success : bool;
  serverTimestamp : Z;
  syncedRecords : Z;
  failedRecords : list FailedRecord;
  rs_users : option (list ServerUser);
  settings : option ServerSettings;
  conflicts : option (list ConflictRecord)
}.

(** What the awaited [api.post] settles with. A rejection carries the
    error's message and whether the error has a [response] (an HTTP error
    status) or not (network failure, timeout). *)
Inductive GatewayResult :=
| Fulfilled (data : SyncResponse)
| Rejected (message : string) (hasResponse : bool).

(** [axios.create({ baseURL, timeout })]. *)
Record AxiosInstance := { baseURL : string; timeout : Z }.

(** The locals of a [performSync] call that is suspended on [api.post]. *)
Record Attempt := {
  at_syncType : SyncType;
  logId : Z;
  pendingCheckins : list CheckinRecord;
  request : SyncRequest
}.

Record SyncService := {
  api : option AxiosInstance;
  config : option TerminalConfig;
  syncInterval : option Z;
  heartbeatInterval : option Z;
  isSyncing : bool;
  isOnline : bool;
  retryCount : Z
}.

Definition maxRetries : Z := 3.

(* ================================================================== *)
(** ** The world and the monad of effects *)
(* ================================================================== *)

Record World := {
  db : option Tables;           (* Database.db *)
  svc : SyncService;            (* the syncService singleton *)
  posted : option Attempt;      (* performSync awaiting api.post *)
  retryTimers : nat;            (* setTimeout(syncIncremental, 10000) armed *)
  steps : nat                   (* observations of the environment so far *)
}.

Inductive Error :=
| JsError (message : string)          (* new Error(message), AxiosError *)
| TypeError (message : string)
| SqliteConstraint (message : string).

Definition errorMessage (e : Error) : string :=
  match e with
  | JsError m | TypeError m | SqliteConstraint m => m
  end.

Inductive Outcome (A : Type) :=
| Return (a : A) (w : World)
| Throw (e : Error) (w : World).
Arguments Return {A} a w.
Arguments Throw {A} e w.

Definition M (A : Type) : Type := World -> Outcome A.

Definition ret {A} (a : A) : M A := fun w => Return a w.

Definition bind {A B} (m : M A) (k : A -> M B) : M B :=
  fun w =>
    match m w with
    | Return a w' => k a w'
    | Throw e w' => Throw e w'
    end.

Definition throw {A} (e : Error) : M A := fun w => Throw e w.

(** [try { m } catch (error) { h error }] *)
Definition try_catch {A} (m : M A) (h : Error -> M A) : M A :=
  fun w =>
    match m w with
    | Return a w' => Return a w'
    | Throw e w' => h e w'
    end.

(** [try { m } finally { w := f w }] *)
Definition finally {A} (m : M A) (f : World -> World) : M A :=
  fun w =>
    match m w with
    | Return a w' => Return a (f w')
    | Throw e w' => Throw e (f w')
    end.

Definition modify (f : World -> World) : M unit := fun w => Return tt (f w).
Definition gets {A} (f : World -> A) : M A := fun w => Return (f w) w.

Notation "x <- m ;; k" := (bind m (fun x => k))
  (at level 100, m at next level, right associativity).
Notation "m ;;; k" := (bind m (fun _ => k))
  (at level 100, right associativity).

(** [for (const x of xs) { await body x }] *)
Fixpoint for_of {A} (xs : list A) (body : A -> M unit) : M unit :=
  match xs with
  | [] => ret tt
  | x :: rest => body x ;;; for_of rest body
  end.

(** [xs.map(f)] when [f] observes the environment. *)
Fixpoint map_M {A B} (f : A -> M B) (xs : list A) : M (list B) :=
  match xs with
  | [] => ret []
  | x :: rest => y <- f x ;; ys <- map_M f rest ;; ret (y :: ys)
  end.

(** How a call of an async method stands when control comes back to the
    event loop: settled with a value, or suspended on the gateway. *)
Inductive Promise (A : Type) :=
| Resolved (a : A)
| AwaitingGateway.
Arguments Resolved {A} a.
Arguments AwaitingGateway {A}.

(** [Partial<TerminalConfig>], the argument of the store's [updateConfig]:
    a property that is absent is [None]. *)
Record ConfigUpdates := {
  cu_terminalId : option string;
  cu_tenantId : option Z;
  cu_name : option string;
  cu_location : option string;
  cu_apiKey : option string;
  cu_serverUrl : option string;
  cu_syncIntervalSeconds : option Z;
  cu_offlineBufferHours : option Z;
  cu_nfcEnabled : option bool;
  cu_pinFallbackEnabled : option bool;
  cu_timezone : option string;
  cu_language : option string;
  cu_lastSyncAt : option Z
}.

(** What [Database.getStats] returns. *)
Record DatabaseStats := {
  st_totalUsers : Z;
  st_pendingCheckins : Z;
  st_todayCheckins : Z;
  st_lastSyncAt : option Z
}.

(** What [SyncService.getStats] returns. *)
Record SyncStats := {
  sy_isOnline : bool;
  sy_isSyncing : bool;
  sy_lastSyncAt : option Z;
  sy_pendingCount : Z;
  sy_syncInterval : Z
}.

(** How the gateway call of a heartbeat settles; the body of the answer
    is not read. *)
Inductive HeartbeatResult :=
| Acknowledged
| Unanswered (hasResponse : bool).

(** *** Field updates *)

Definition set_db (t : option Tables) (w : World) : World :=
  {| db := t; svc := svc w; posted := posted w;
     retryTimers := retryTimers w; steps := steps w |}.

Definition set_svc (s : SyncService) (w : World) : World :=
  {| db := db w; svc := s; posted := posted w;
     retryTimers := retryTimers w; steps := steps w |}.

Definition set_posted (a : option Attempt) (w : World) : World :=
  {| db := db w; svc := svc w; posted := a;
     retryTimers := retryTimers w; steps := steps w |}.

Definition set_retryTimers (n : nat) (w : World) : World :=
  {| db := db w; svc := svc w; posted := posted w;
     retryTimers := n; steps := steps w |}.

Definition set_steps (n : nat) (w : World) : World :=
  {| db := db w; svc := svc w; posted := posted w;
     retryTimers := retryTimers w; steps := n |}.

Definition set_config (c : option TerminalConfig) (s : SyncService) : SyncService :=
  {| api := api s; config := c; syncInterval := syncInterval s;
     heartbeatInterval := heartbeatInterval s; isSyncing := isSyncing s;
     isOnline := isOnline s; retryCount := retryCount s |}.

Definition set_timers (si hi : option Z) (s : SyncService) : SyncService :=
  {| api := api s; config := config s; syncInterval := si;
     heartbeatInterval := hi; isSyncing := isSyncing s;
     isOnline := isOnline s; retryCount := retryCount s |}.

Definition set_isSyncing (b : bool) (s : SyncService) : SyncService :=
  {| api := api s; config := config s; syncInterval := syncInterval s;
     heartbeatInterval := heartbeatInterval s; isSyncing := b;
     isOnline := isOnline s; retryCount := retryCount s |}.

Definition set_isOnline (b : bool) (s : SyncService) : SyncService :=
  {| api := api s; config := config s; syncInterval := syncInterval s;
     heartbeatInterval := heartbeatInterval s; isSyncing := isSyncing s;
     isOnline := b; retryCount := retryCount s |}.

Definition set_retryCount (n : Z) (s : SyncService) : SyncService :=
  {| api := api s; config := config s; syncInterval := syncInterval s;
     heartbeatInterval := heartbeatInterval s; isSyncing := isSyncing s;
     isOnline := isOnline s; retryCount := n |}.

Definition set_api (a : option AxiosInstance) (s : SyncService) : SyncService :=
  {| api := a; config := config s; syncInterval := syncInterval s;
     heartbeatInterval := heartbeatInterval s; isSyncing := isSyncing s;
     isOnline := isOnline s; retryCount := retryCount s |}.

Definition set_syncIntervalSeconds (n : Z) (c : TerminalConfig) : TerminalConfig :=
  {| terminalId := terminalId c; tenantId := tenantId c; name := name c;
     location := location c; apiKey := apiKey c; serverUrl := serverUrl c;
     syncIntervalSeconds := n;
     offlineBufferHours := offlineBufferHours c; nfcEnabled := nfcEnabled c;
     pinFallbackEnabled := pinFallbackEnabled c; timezone := timezone c;
     language := language c; lastSyncAt := lastSyncAt c |}.

Definition set_lastSyncAt (t : option Z) (c : TerminalConfig) : TerminalConfig :=
  {| terminalId := terminalId c; tenantId := tenantId c; name := name c;
     location := location c; apiKey := apiKey c; serverUrl := serverUrl c;
     syncIntervalSeconds := syncIntervalSeconds c;
     offlineBufferHours := offlineBufferHours c; nfcEnabled := nfcEnabled c;
     pinFallbackEnabled := pinFallbackEnabled c; timezone := timezone c;
     language := language c; lastSyncAt := t |}.

Definition set_terminal_config (r : option terminal_config_row) (t : Tables) : Tables :=
  {| terminal_config := r; users := users t; user_status := user_status t;
     checkins := checkins t; checkins_seq := checkins_seq t;
     sync_log := sync_log t; sync_log_seq := sync_log_seq t |}.

Definition set_users (m : gmap Z users_row) (t : Tables) : Tables :=
  {| terminal_config := terminal_config t; users := m;
     user_status := user_status t;
     checkins := checkins t; checkins_seq := checkins_seq t;
     sync_log := sync_log t; sync_log_seq := sync_log_seq t |}.

Definition set_user_status (m : gmap Z user_status_row) (t : Tables) : Tables :=
  {| terminal_config := terminal_config t; users := users t; user_status := m;
     checkins := checkins t; checkins_seq := checkins_seq t;
     sync_log := sync_log t; sync_log_seq := sync_log_seq t |}.

Definition set_checkins (rows : list checkins_row) (seq : Z) (t : Tables) : Tables :=
  {| terminal_config := terminal_config t; users := users t;
     user_status := user_status t;
     checkins := rows; checkins_seq := seq;
     sync_log := sync_log t; sync_log_seq := sync_log_seq t |}.

Definition set_sync_log (rows : list sync_log_row) (seq : Z) (t : Tables) : Tables :=
  {| terminal_config := terminal_config t; users := users t;
     user_status := user_status t;
     checkins := checkins t; checkins_seq := checkins_seq t;
     sync_log := rows; sync_log_seq := seq |}.

(* ================================================================== *)
(** ** SQL statements of [database.ts], as functions on the tables *)
(* ================================================================== *)

Module Sql.

(** The rowid an AUTOINCREMENT table gives its next row: one more than
    the largest rowid the table has ever held. *)
Definition next_rowid (seq : Z) (ids : list Z) : Z :=
  Z.max seq (fold_right Z.max 0 ids) + 1.

(** ORDER BY timestamp ASC. SQL leaves the order of rows with equal
    timestamps open; here they keep their rowid order, which is one of the
    orders SQLite may return. What is proved about the result (membership,
    being sorted, being a permutation) holds for every such order. *)
Fixpoint insert_by_timestamp (r : checkins_row) (l : list checkins_row)
  : list checkins_row :=
  match l with
  | [] => [r]
  | x :: l' =>
      if c_timestamp r <=? c_timestamp x then r :: l
      else x :: insert_by_timestamp r l'
  end.

Definition order_by_timestamp (l : list checkins_row) : list checkins_row :=
  fold_right insert_by_timestamp [] l.

(** WHERE sync_status IN ('pending', 'failed') *)
Definition in_queue (r : checkins_row) : bool :=
  match sync_status r with
  | pending | failed => true
  | synced | conflict => false
  end.

(** UPDATE checkins SET sync_status = ?, synced_at = ?, sync_error = ? *)
Definition set_sync (status : SyncStatus) (at_ : option Z)
    (err : option string) (r : checkins_row) : checkins_row :=
  {| c_id := c_id r; local_id := local_id r; c_user_id := c_user_id r;
     c_user_name := c_user_name r; check_type := check_type r;
     c_timestamp := c_timestamp r; auth_method := auth_method r;
     nfc_card_hash := nfc_card_hash r; c_latitude := c_latitude r;
     c_longitude := c_longitude r; created_offline := created_offline r;
     sync_status := status; synced_at := at_; sync_error := err;
     created_at := created_at r |}.

(** ... WHERE local_id = ? *)
Definition update_sync (l : string) (status : SyncStatus) (at_ : option Z)
    (err : option string) (rows : list checkins_row) : list checkins_row :=
  map (fun r => if String.eqb (local_id r) l
                then set_sync status at_ err r else r) rows.

(** UPDATE user_status SET is_checked_in = 0, is_on_break = 0,
    current_session_start = NULL, total_today_minutes = 0, today_date = ? *)
Definition reset_row (today : string) (r : user_status_row) : user_status_row :=
  {| is_checked_in := 0; is_on_break := 0;
     last_check_in := last_check_in r; last_check_out := last_check_out r;
     current_session_start := None; total_today_minutes := 0;
     today_date := today |}.

(** The row of the INSERT branch of [updateUserStatus]. *)
Definition new_status_row (u : UserStatusUpdates) (today : string)
  : user_status_row :=
  {| is_checked_in := Js.flag (up_isCheckedIn u);
     is_on_break := Js.flag (up_isOnBreak u);
     last_check_in := Js.orNullZ (up_lastCheckIn u);
     last_check_out := Js.orNullZ (up_lastCheckOut u);
     current_session_start := Js.orNullZ (up_currentSessionStart u);
     total_today_minutes := default 0 (up_totalTodayMinutes u);
     today_date := today |}.

(** The SET clauses the UPDATE branch of [updateUserStatus] collects: one
    per property that [!== undefined], then today_date. *)
Definition apply_updates (u : UserStatusUpdates) (today : string)
    (r : user_status_row) : user_status_row :=
  {| is_checked_in :=
       match up_isCheckedIn u with
       | Some b => Js.flag (Some b)
       | None => is_checked_in r
       end;
     is_on_break :=
       match up_isOnBreak u with
       | Some b => Js.flag (Some b)
       | None => is_on_break r
       end;
     last_check_in :=
       match up_lastCheckIn u with
       | Some v => Some v
       | None => last_check_in r
       end;
     last_check_out :=
       match up_lastCheckOut u with
       | Some v => Some v
       | None => last_check_out r
       end;
     current_session_start :=
       match up_currentSessionStart u with
       | Some v => Js.orNullZ (Some v)
       | None => current_session_start r
       end;
     total_today_minutes :=
       match up_totalTodayMinutes u with
       | Some v => v
       | None => total_today_minutes r
       end;
     today_date := today |}.

(** The row [saveCheckin] inserts; synced_at and sync_error are not in
    its column list, created_at takes its DEFAULT. *)
Definition checkin_row (rowid : Z) (sqlite_now : Z) (c : CheckinRecord)
  : checkins_row :=
  {| c_id := rowid; local_id := localId c; c_user_id := userId c;
     c_user_name := userName c; check_type := checkType c;
     c_timestamp := timestamp c; auth_method := authMethod c;
     nfc_card_hash := Js.orNullS (nfcCardHash c);
     c_latitude := Js.orNullQ (latitude c);
     c_longitude := Js.orNullQ (longitude c);
     created_offline := if createdOffline c then 1 else 0;
     sync_status := syncStatus c; synced_at := None; sync_error := None;
     created_at := sqlite_now / 1000 * 1000 |}.

(** local_id TEXT UNIQUE *)
Definition local_id_taken (l : string) (rows : list checkins_row) : bool :=
  existsb (fun r => String.eqb (local_id r) l) rows.

Definition insert_checkin (sqlite_now : Z) (c : CheckinRecord) (t : Tables)
  : Tables :=
  let rowid := next_rowid (checkins_seq t) (map c_id (checkins t)) in
  set_checkins (checkins t ++ [checkin_row rowid sqlite_now c]) rowid t.

Definition insert_sync_log (ty : SyncType) (started : Z) (t : Tables)
  : Z * Tables :=
  let rowid := next_rowid (sync_log_seq t) (map sl_id (sync_log t)) in
  (rowid,
   set_sync_log
     (sync_log t ++
        [{| sl_id := rowid; sync_type := ty; started_at := started;
            completed_at := None; records_sent := 0; records_received := 0;
            records_failed := 0; sl_status := in_progress;
            error_message := None |}])
     rowid t).

Definition complete_log (at_ sent received nfailed : Z) (r : sync_log_row)
  : sync_log_row :=
  {| sl_id := sl_id r; sync_type := sync_type r; started_at := started_at r;
     completed_at := Some at_; records_sent := sent;
     records_received := received; records_failed := nfailed;
     sl_status := completed; error_message := error_message r |}.

Definition fail_log (at_ : Z) (msg : string) (r : sync_log_row)
  : sync_log_row :=
  {| sl_id := sl_id r; sync_type := sync_type r; started_at := started_at r;
     completed_at := Some at_; records_sent := records_sent r;
     records_received := records_received r;
     records_failed := records_failed r;
     sl_status := log_failed; error_message := Some msg |}.

(** UPDATE sync_log SET ... WHERE id = ? *)
Definition update_log (f : sync_log_row -> sync_log_row) (rowid : Z)
    (rows : list sync_log_row) : list sync_log_row :=
  map (fun r => if sl_id r =? rowid then f r else r) rows.

(** DELETE FROM checkins WHERE sync_status = 'synced' AND timestamp < ? *)
Definition old_synced (cutoff : Z) (r : checkins_row) : bool :=
  match sync_status r with
  | synced => c_timestamp r <? cutoff
  | _ => false
  end.

(** ORDER BY timestamp DESC. Rows with equal timestamps, whose order
    SQL leaves open, keep their rowid order here; what is proved about the
    result holds for every such order. *)
Fixpoint insert_by_timestamp_desc (r : checkins_row) (l : list checkins_row)
  : list checkins_row :=
  match l with
  | [] => [r]
  | x :: l' =>
      if c_timestamp x <=? c_timestamp r then r :: l
      else x :: insert_by_timestamp_desc r l'
  end.

Definition order_by_timestamp_desc (l : list checkins_row) : list checkins_row :=
  fold_right insert_by_timestamp_desc [] l.

(** WHERE timestamp >= ? *)
Definition since (ts : Z) (r : checkins_row) : bool := ts <=? c_timestamp r.

(** WHERE sync_status = 'pending' *)
Definition is_pending (r : checkins_row) : bool :=
  match sync_status r with
  | pending => true
  | _ => false
  end.

(** WHERE is_active = 1 *)
Definition is_active (u : Z * users_row) : bool := u_is_active (snd u) =? 1.

(** WHERE nfc_card_hash = ? AND is_active = 1; a NULL column matches
    nothing. *)
Definition has_card (h : string) (u : Z * users_row) : bool :=
  match u_nfc_card_hash (snd u) with
  | Some x => String.eqb x h
  | None => false
  end && is_active u.

(** WHERE pin_hash = ? AND is_active = 1 *)
Definition has_pin (h : string) (u : Z * users_row) : bool :=
  match u_pin_hash (snd u) with
  | Some x => String.eqb x h
  | None => false
  end && is_active u.

(** The first row of a SELECT on users: the selected row of least id. *)
Definition first_user (p : Z * users_row -> bool) (m : gmap Z users_row)
  : option (Z * users_row) :=
  fold_right
    (fun u best =>
       if p u then
         match best with
         | Some b => if fst u <? fst b then Some u else best
         | None => Some u
         end
       else best)
    None (map_to_list m).

(** ORDER BY name, in the BINARY collation. Rows with equal names, whose
    order SQL leaves open, keep the order of the list given; what is
    proved about the result holds for every such order. *)
Fixpoint insert_by_name (u : Z * users_row) (l : list (Z * users_row))
  : list (Z * users_row) :=
  match l with
  | [] => [u]
  | x :: l' =>
      if String.leb (u_name (snd u)) (u_name (snd x)) then u :: l
      else x :: insert_by_name u l'
  end.

Definition order_by_name (l : list (Z * users_row)) : list (Z * users_row) :=
  fold_right insert_by_name [] l.

(** SELECT COUNT( * ) *)
Definition count {A} (p : A -> bool) (l : list A) : Z :=
  Z.of_nat (length (List.filter p l)).

End Sql.

(* ================================================================== *)
(** ** [cryptoService.ts] *)
(* ================================================================== *)

Module Crypto.

(** The UTF-16 code units of a string, as [charCodeAt] reads them. *)
Definition charCodes (s : string) : list Z :=
  map (fun c => Z.of_nat (nat_of_ascii c)) (list_ascii_of_string s).

(** One round of the loop of [createHash]:
    [hash = ((hash << 5) - hash) + char; hash = hash & hash]. *)
Definition mix (hash char : Z) : Z :=
  Js.toInt32 (Js.toInt32 (hash * 32) - hash + char).

(** [(hash * (i + 1) * 31) >>> 0], as eight hexadecimal digits. *)
Definition segment (hash i : Z) : string :=
  Js.padStart 8 "0"%char (Js.toStringRadix 16 (Js.toUint32 (hash * (i + 1) * 31))).

(** [createHash] of a string given by its code units. *)
Definition createHash (input : list Z) : string :=
  let str := (input ++ charCodes "timer-mobile-salt")%list in
  let hash := fold_left mix str 0 in
  let fullHash :=
    fold_left (fun acc i => String.append acc (segment hash i))
      [0; 1; 2; 3; 4; 5; 6; 7] "" in
  substring 0 64 fullHash.

Definition createPinHash (pin : list Z) : string :=
  createHash (charCodes "pin:" ++ pin)%list.

Definition createApiSignature (terminalId_ : list Z) (timestamp_ : Z)
    (secret : list Z) : string :=
  createHash
    (terminalId_ ++ charCodes ":" ++ charCodes (Js.toStringRadix 10 timestamp_)
     ++ secret)%list.

End Crypto.


(* ================================================================== *)
(** ** A concrete terminal, used to run the program on examples *)
(* ================================================================== *)

Module Sample.

(** [n.toString(base)] for a non-negative integer, most significant
    digit first. *)
Fixpoint digits (fuel : nat) (base n : Z) (acc : string) : string :=
  match fuel with
  | O => acc
  | S fuel' =>
      let d := nth (Z.to_nat (n mod base))
                 (list_ascii_of_string "0123456789abcdefghijklmnopqrstuvwxyz")
                 "0"%char in
      if n / base =? 0 then String d acc
      else digits fuel' base (n / base) (String d acc)
  end.

Definition toString36 (n : Z) : string := digits 64 36 n "".

Definition pad2 (n : Z) : string :=
  if n <? 10 then String.append "0" (digits 2 10 n "") else digits 2 10 n "".

(** Year, month and day of the [days]-th day after 1970-01-01. *)
Definition civil (days : Z) : Z * Z * Z :=
  let z := days + 719468 in
  let era := z / 146097 in
  let doe := z - era * 146097 in
  let yoe := (doe - doe / 1460 + doe / 36524 - doe / 146096) / 365 in
  let doy := doe - (365 * yoe + yoe / 4 - yoe / 100) in
  let mp := (5 * doy + 2) / 153 in
  let d := doy - (153 * mp + 2) / 5 + 1 in
  let m := if mp <? 10 then mp + 3 else mp - 9 in
  (if m <=? 2 then yoe + era * 400 + 1 else yoe + era * 400, m, d).

(** [new Date(ms).toISOString().split('T')[0]] for years 1000 to 9999. *)
Definition toISODate (ms : Z) : string :=
  let '(y, m, d) := civil (ms / 86400000) in
  String.append (digits 4 10 y "")
    (String.append "-" (String.append (pad2 m) (String.append "-" (pad2 d)))).

(** A clock that shows 2023-11-14T22:13:20Z at the start and advances
    ten seconds per observation. *)
Definition clock (n : nat) : Z := 1700000000000 + 10000 * Z.of_nat n.

Definition random36 (n : nat) : string :=
  String.append "r" (digits 8 36 (Z.of_nat n * 7919 + 104729) "").

Definition onLine (_ : nat) : bool := true.

Definition cfg : TerminalConfig :=
  {| terminalId := "a1b2-c3d4-e5f6-0789"; tenantId := 7;
     name := "Gate"; location := None; apiKey := "secret";
     serverUrl := "https://timer.example"; syncIntervalSeconds := 60;
     offlineBufferHours := 72; nfcEnabled := true;
     pinFallbackEnabled := true; timezone := "Europe/Berlin";
     language := "de"; lastSyncAt := Some 1699999000000 |}.

Definition cfg_row : terminal_config_row :=
  {| tc_terminal_id := "a1b2-c3d4-e5f6-0789"; tc_tenant_id := 7;
     tc_name := "Gate"; tc_location := None; tc_api_key := "secret";
     tc_server_url := "https://timer.example";
     tc_sync_interval_seconds := 60; tc_offline_buffer_hours := 72;
     tc_nfc_enabled := 1; tc_pin_fallback_enabled := 1;
     tc_timezone := "Europe/Berlin"; tc_language := "de";
     last_sync_at := Some 1699999000000 |}.

Definition engine : SyncService :=
  {| api := Some {| baseURL := "https://timer.example"; timeout := 30000 |};
     config := Some cfg; syncInterval := Some 60000;
     heartbeatInterval := Some 30000; isSyncing := false;
     isOnline := true; retryCount := 0 |}.

(** An event row as [checkIn]/[checkOut] leave it. *)
Definition event (rowid : Z) (l : string) (uid : Z) (kind : CheckType)
    (ts : Z) (st : SyncStatus) : checkins_row :=
  {| c_id := rowid; local_id := l; c_user_id := uid; c_user_name := "Ada";
     check_type := kind; c_timestamp := ts; auth_method := nfc;
     nfc_card_hash := Some "5f2c"; c_latitude := None; c_longitude := None;
     created_offline := 1; sync_status := st; synced_at := None;
     sync_error := None; created_at := ts / 1000 * 1000 |}.

Definition no_tables : Tables :=
  {| terminal_config := Some cfg_row; users := ∅; user_status := ∅;
     checkins := []; checkins_seq := 0; sync_log := []; sync_log_seq := 0 |}.

(** Three events wait in the queue. *)
Definition three_pending : Tables :=
  set_checkins
    [event 1 "e1" 11 check_in 1699999100000 pending;
     event 2 "e2" 12 check_in 1699999200000 pending;
     event 3 "e3" 11 check_out 1699999300000 failed]
    3 no_tables.

(** User 11 was left checked in yesterday with 120 minutes; user 12 is
    checked in today and on break. *)
Definition stale_status : user_status_row :=
  {| is_checked_in := 1; is_on_break := 0;
     last_check_in := Some 1699913600000; last_check_out := None;
     current_session_start := Some 1699913600000;
     total_today_minutes := 120; today_date := "2023-11-13" |}.

Definition on_break_status : user_status_row :=
  {| is_checked_in := 1; is_on_break := 1;
     last_check_in := Some 1699994600000; last_check_out := None;
     current_session_start := Some 1699994600000;
     total_today_minutes := 0; today_date := "2023-11-14" |}.

Definition with_status : Tables :=
  set_user_status (<[ 11 := stale_status ]> (<[ 12 := on_break_status ]> ∅))
    three_pending.

(** The same three events as [getPendingCheckins] returns them. *)
Definition record (rowid : Z) (l : string) (uid : Z) (kind : CheckType)
    (ts : Z) (st : SyncStatus) : CheckinRecord :=
  {| id := Some rowid; localId := l; userId := uid; userName := "Ada";
     checkType := kind; timestamp := ts; authMethod := nfc;
     nfcCardHash := Some "5f2c"; latitude := None; longitude := None;
     createdOffline := true; syncStatus := st; syncedAt := None;
     syncError := None |}.

Definition batch : list CheckinRecord :=
  [record 1 "e1" 11 check_in 1699999100000 pending;
   record 2 "e2" 12 check_in 1699999200000 pending;
   record 3 "e3" 11 check_out 1699999300000 failed].

Definition world (t : Tables) : World :=
  {| db := Some t; svc := engine; posted := None; retryTimers := O;
     steps := O |}.

(** The world after [syncIncremental] on [world three_pending]: a log row
    is open, the batch is posted, the lock is held. *)
Definition the_attempt : Attempt :=
  {| at_syncType := incremental; logId := 1; pendingCheckins := batch;
     request :=
       {| rq_terminalId := "a1b2-c3d4-e5f6-0789";
          lastSyncTimestamp := 1699999000000;
          rq_checkins := batch; rq_syncType := incremental |} |}.

Definition sent_tables : Tables :=
  set_sync_log
    [{| sl_id := 1; sync_type := incremental; started_at := 1700000000000;
        completed_at := None; records_sent := 0; records_received := 0;
        records_failed := 0; sl_status := in_progress;
        error_message := None |}]
    1 three_pending.

Definition in_flight : World :=
  {| db := Some sent_tables; svc := set_isSyncing true engine;
     posted := Some the_attempt; retryTimers := O; steps := 2%nat |}.

(** A clock for two stampings ninety minutes apart: the first seven
    observations fall into the first. *)
Definition two_stamps (n : nat) : Z :=
  if (n <? 7)%nat then 1700000000000 else 1700000000000 + 90 * 60000.

(** A response that accepts the batch but rejects "e2". *)
Definition partial : SyncResponse :=
  {| success := true; serverTimestamp := 1700000005000; syncedRecords := 2;
     failedRecords := [{| f_localId := "e2"; f_error := "unknown user" |}];
     rs_users := None; settings := None; conflicts := None |}.

(** A response whose server clock is behind the stored checkpoint. *)
Definition earlier : SyncResponse :=
  {| success := true; serverTimestamp := 1699990000000; syncedRecords := 3;
     failedRecords := []; rs_users := None; settings := None;
     conflicts := None |}.

(** A response that accepts the batch and sends a directive for "e1". *)
Definition contested : SyncResponse :=
  {| success := true; serverTimestamp := 1700000005000; syncedRecords := 3;
     failedRecords := []; rs_users := None; settings := None;
     conflicts := Some [{| cf_localId := "e1"; conflictType := duplicate;
                           resolution := use_server |}] |}.

(** An event that arrives already marked synced. *)
Definition imported : CheckinRecord :=
  {| id := None; localId := "m1"; userId := 11; userName := "Ada";
     checkType := check_in; timestamp := 1699999400000; authMethod := manual;
     nfcCardHash := None; latitude := None; longitude := None;
     createdOffline := false; syncStatus := synced; syncedAt := None;
     syncError := None |}.

(** Three users: Ada and Bob are active, Cy has left. *)
Definition ada_row : users_row :=
  {| u_name := "Ada"; u_personnel_number := Some "P-11";
     u_department := Some "Gate"; u_nfc_card_hash := Some "5f2c";
     u_pin_hash := Some "9a1b"; u_profile_photo_url := None;
     u_is_active := 1; u_last_synced_at := Some 1699999000000 |}.

Definition bob_row : users_row :=
  {| u_name := "Bob"; u_personnel_number := Some "P-12";
     u_department := Some "Yard"; u_nfc_card_hash := Some "77aa";
     u_pin_hash := Some "c3d4"; u_profile_photo_url := None;
     u_is_active := 1; u_last_synced_at := Some 1699999000000 |}.

Definition cy_row : users_row :=
  {| u_name := "Cy"; u_personnel_number := None;
     u_department := None; u_nfc_card_hash := Some "0c0c";
     u_pin_hash := None; u_profile_photo_url := None;
     u_is_active := 0; u_last_synced_at := Some 1699000000000 |}.

Definition staff : gmap Z users_row :=
  <[ 11 := ada_row ]> (<[ 12 := bob_row ]> (<[ 13 := cy_row ]> ∅)).

Definition with_staff : Tables := set_users staff with_status.

(** Ada as the server's registration form hands her over: no
    lastSyncedAt yet. *)
Definition ada : LocalUser :=
  {| lu_id := 11; lu_name := "Ada"; lu_personnelNumber := Some "P-11";
     lu_department := Some "Gate"; lu_nfcCardHash := Some "5f2c";
     lu_pinHash := Some "9a1b"; lu_profilePhotoUrl := Some "";
     lu_isActive := true; lu_lastSyncedAt := None |}.

(** A roster that deactivates Bob and brings Dee. *)
Definition roster : list ServerUser :=
  [{| su_userId := 12; su_name := "Bob"; su_personnelNumber := Some "P-12";
      su_department := Some "Yard"; su_nfcCardHash := Some "77aa";
      su_pinHash := Some "c3d4"; su_profilePhotoUrl := None;
      su_isActive := false |};
   {| su_userId := 14; su_name := "Dee"; su_personnelNumber := None;
      su_department := None; su_nfcCardHash := Some "d00d";
      su_pinHash := None; su_profilePhotoUrl := None;
      su_isActive := true |}].

Definition new_settings : ServerSettings :=
  {| ss_syncIntervalSeconds := 120; ss_offlineBufferHours := 48;
     ss_nfcEnabled := true; ss_pinFallbackEnabled := false;
     ss_timezone := "Europe/Vienna"; ss_language := "en";
     ss_breakReminderMinutes := 240; ss_autoCheckoutHours := 12 |}.

(** A response by which the server refuses the batch. *)
Definition refused : SyncResponse :=
  {| success := false; serverTimestamp := 1700000005000; syncedRecords := 0;
     failedRecords := []; rs_users := None; settings := None;
     conflicts := None |}.

(** Midnight for a device on UTC. *)
Definition midnight (ms : Z) : Z := ms / 86400000 * 86400000.

(** An old synced event, an old pending one and a fresh synced one. *)
Definition archive : Tables :=
  set_checkins
    [event 1 "a1" 11 check_in 1690000000000 synced;
     event 2 "a2" 11 check_out 1690000030000 pending;
     event 3 "a3" 12 check_in 1699999100000 synced]
    3 no_tables.

(** The settings screen switches NFC off. *)
Definition nfc_off : ConfigUpdates :=
  {| cu_terminalId := None; cu_tenantId := None; cu_name := None;
     cu_location := None; cu_apiKey := None; cu_serverUrl := None;
     cu_syncIntervalSeconds := None; cu_offlineBufferHours := None;
     cu_nfcEnabled := Some false; cu_pinFallbackEnabled := None;
     cu_timezone := None; cu_language := None; cu_lastSyncAt := None |}.





End Sample.

(* ================================================================== *)
(** ** The program, over an arbitrary environment *)
(* ================================================================== *)

Section Program.

(** The device clock in milliseconds at the n-th observation
    ([Date.now()], [new Date()], SQLite's ['now']). *)
Variable Date_now : nat -> Z.
(** [Math.random().toString(36).substring(2, 15)] at the n-th observation. *)
Variable Math_random36 : nat -> string.
(** [navigator.onLine] at the n-th observation. *)
Variable navigator_onLine : nat -> bool.
(** [new Date(ms).toISOString().split('T')[0]] *)
Variable toISODate : Z -> string.
(** [ms.toString(36)] *)
Variable toString36 : Z -> string.

Definition observe {A} (oracle : nat -> A) : M A :=
  fun w => Return (oracle (steps w)) (set_steps (S (steps w)) w).

Definition now : M Z := observe Date_now.

Definition todayDate : M string := t <- now ;; ret (toISODate t).

(* ---------------------------------------------------------------- *)
(** *** class Database *)
(* ---------------------------------------------------------------- *)

(** [if (!this.db) throw new Error('Database not initialized')] *)
Definition guard : M unit :=
  fun w =>
    match db w with
    | Some _ => Return tt w
    | None => Throw (JsError "Database not initialized") w
    end.

(** [this.db.getFirstAsync] / [getAllAsync] *)
Definition query {A} (q : Tables -> A) : M A :=
  fun w =>
    match db w with
    | Some t => Return (q t) w
    | None => Throw (TypeError "Cannot read properties of null") w
    end.

(** [this.db.runAsync] / [execAsync] *)
Definition exec (f : Tables -> Tables) : M unit :=
  fun w =>
    match db w with
    | Some t => Return tt (set_db (Some (f t)) w)
    | None => Throw (TypeError "Cannot read properties of null") w
    end.

Definition saveTerminalConfig (c : TerminalConfig) : M unit :=
  guard ;;;
  exec (set_terminal_config
          (Some {| tc_terminal_id := terminalId c;
                   tc_tenant_id := tenantId c;
                   tc_name := name c;
                   tc_location := Js.orNullS (location c);
                   tc_api_key := apiKey c;
                   tc_server_url := serverUrl c;
                   tc_sync_interval_seconds := syncIntervalSeconds c;
                   tc_offline_buffer_hours := offlineBufferHours c;
                   tc_nfc_enabled := if nfcEnabled c then 1 else 0;
                   tc_pin_fallback_enabled :=
                     if pinFallbackEnabled c then 1 else 0;
                   tc_timezone := timezone c;
                   tc_language := language c;
                   last_sync_at := Js.orNullZ (lastSyncAt c) |})).

Definition getTerminalConfig : M (option TerminalConfig) :=
  guard ;;;
  result <- query terminal_config ;;
  ret (match result with
       | None => None
       | Some r =>
           Some {| terminalId := tc_terminal_id r;
                   tenantId := tc_tenant_id r;
                   name := tc_name r;
                   location := tc_location r;
                   apiKey := tc_api_key r;
                   serverUrl := tc_server_url r;
                   syncIntervalSeconds := tc_sync_interval_seconds r;
                   offlineBufferHours := tc_offline_buffer_hours r;
                   nfcEnabled := tc_nfc_enabled r =? 1;
                   pinFallbackEnabled := tc_pin_fallback_enabled r =? 1;
                   timezone := tc_timezone r;
                   language := tc_language r;
                   lastSyncAt := last_sync_at r |}
       end).

Definition saveUser (u : LocalUser) : M unit :=
  guard ;;;
  syncedAt_ <- (if Js.truthyZ (lu_lastSyncedAt u)
                then ret (lu_lastSyncedAt u)
                else t <- now ;; ret (Some t)) ;;
  exec (fun t =>
          set_users
            (<[ lu_id u :=
                  {| u_name := lu_name u;
                     u_personnel_number := Js.orNullS (lu_personnelNumber u);
                     u_department := Js.orNullS (lu_department u);
                     u_nfc_card_hash := Js.orNullS (lu_nfcCardHash u);
                     u_pin_hash := Js.orNullS (lu_pinHash u);
                     u_profile_photo_url := Js.orNullS (lu_profilePhotoUrl u);
                     u_is_active := if lu_isActive u then 1 else 0;
                     u_last_synced_at := syncedAt_ |} ]> (users t)) t).

Definition saveUsers (us : list LocalUser) : M unit := for_of us saveUser.

Definition mapUserRow (uid : Z) (row : users_row) : LocalUser :=
  {| lu_id := uid; lu_name := u_name row;
     lu_personnelNumber := u_personnel_number row;
     lu_department := u_department row;
     lu_nfcCardHash := u_nfc_card_hash row;
     lu_pinHash := u_pin_hash row;
     lu_profilePhotoUrl := u_profile_photo_url row;
     lu_isActive := u_is_active row =? 1;
     lu_lastSyncedAt := u_last_synced_at row |}.

Definition getUserById (uid : Z) : M (option LocalUser) :=
  guard ;;;
  result <- query (fun t => users t !! uid) ;;
  ret (mapUserRow uid <$> result).

Definition resetDailyStatus (uid : Z) (today : string) : M unit :=
  guard ;;;
  exec (fun t => set_user_status (alter (Sql.reset_row today) uid (user_status t)) t).

Definition getUserStatus (uid : Z) : M (option UserStatus) :=
  guard ;;;
  today <- todayDate ;;
  result <- query (fun t => user_status t !! uid) ;;
  match result with
  | None => ret None
  | Some r =>
      if negb (String.eqb (today_date r) today) then
        resetDailyStatus uid today ;;;
        ret (Some {| us_userId := uid; us_userName := "";
                     isCheckedIn := false; isOnBreak := false;
                     lastCheckIn := None; lastCheckOut := None;
                     currentSessionStart := None;
                     totalTodayMinutes := 0 |})
      else
        user <- getUserById uid ;;
        ret (Some {| us_userId := uid;
                     us_userName :=
                       match user with
                       | Some u => lu_name u
                       | None => ""
                       end;
                     isCheckedIn := is_checked_in r =? 1;
                     isOnBreak := is_on_break r =? 1;
                     lastCheckIn := last_check_in r;
                     lastCheckOut := last_check_out r;
                     currentSessionStart := current_session_start r;
                     totalTodayMinutes := total_today_minutes r |})
  end.

Definition updateUserStatus (uid : Z) (updates : UserStatusUpdates) : M unit :=
  guard ;;;
  today <- todayDate ;;
  existing <- query (fun t => user_status t !! uid) ;;
  match existing with
  | None =>
      exec (fun t =>
              set_user_status
                (<[ uid := Sql.new_status_row updates today ]> (user_status t)) t)
  | Some _ =>
      exec (fun t =>
              set_user_status
                (alter (Sql.apply_updates updates today) uid (user_status t)) t)
  end.

Definition saveCheckin (checkin : CheckinRecord) : M unit :=
  guard ;;;
  sqlite_now <- now ;;
  taken <- query (fun t => Sql.local_id_taken (localId checkin) (checkins t)) ;;
  if taken
  then throw (SqliteConstraint "UNIQUE constraint failed: checkins.local_id")
  else exec (Sql.insert_checkin sqlite_now checkin).

Definition mapCheckinRow (row : checkins_row) : CheckinRecord :=
  {| id := Some (c_id row); localId := local_id row;
     userId := c_user_id row; userName := c_user_name row;
     checkType := check_type row; timestamp := c_timestamp row;
     authMethod := auth_method row; nfcCardHash := nfc_card_hash row;
     latitude := c_latitude row; longitude := c_longitude row;
     createdOffline := created_offline row =? 1;
     syncStatus := sync_status row; syncedAt := synced_at row;
     syncError := sync_error row |}.

Definition getPendingCheckins : M (list CheckinRecord) :=
  guard ;;;
  query (fun t =>
           map mapCheckinRow
             (Sql.order_by_timestamp (List.filter Sql.in_queue (checkins t)))).

Definition updateCheckinSyncStatus (l : string) (status : SyncStatus)
    (syncedAt_ : option Z) (syncError_ : option string) : M unit :=
  guard ;;;
  exec (fun t =>
          set_checkins
            (Sql.update_sync l status (Js.orNullZ syncedAt_)
               (Js.orNullS syncError_) (checkins t))
            (checkins_seq t) t).

Definition deleteOldSyncedCheckins (olderThanDays : Z) : M Z :=
  guard ;;;
  t0 <- now ;;
  let cutoff := t0 - olderThanDays * 24 * 60 * 60 * 1000 in
  changes <- query (fun t =>
               Z.of_nat (length (List.filter (Sql.old_synced cutoff) (checkins t)))) ;;
  exec (fun t =>
          set_checkins
            (List.filter (fun r => negb (Sql.old_synced cutoff r)) (checkins t))
            (checkins_seq t) t) ;;;
  ret changes.

Definition logSyncStart (ty : SyncType) : M Z :=
  guard ;;;
  started <- now ;;
  rowid <- query (fun t => fst (Sql.insert_sync_log ty started t)) ;;
  exec (fun t => snd (Sql.insert_sync_log ty started t)) ;;;
  ret rowid.

Definition logSyncComplete (log : Z) (recordsSent recordsReceived recordsFailed : Z)
  : M unit :=
  guard ;;;
  t0 <- now ;;
  exec (fun t =>
          set_sync_log
            (Sql.update_log
               (Sql.complete_log t0 recordsSent recordsReceived recordsFailed)
               log (sync_log t))
            (sync_log_seq t) t).

Definition logSyncFailed (log : Z) (msg : string) : M unit :=
  guard ;;;
  t0 <- now ;;
  exec (fun t =>
          set_sync_log (Sql.update_log (Sql.fail_log t0 msg) log (sync_log t))
            (sync_log_seq t) t).

Definition clearAllData : M unit :=
  guard ;;;
  exec (fun t =>
          {| terminal_config := None; users := ∅; user_status := ∅;
             checkins := []; checkins_seq := checkins_seq t;
             sync_log := []; sync_log_seq := sync_log_seq t |}).

(** [results.map(this.mapUserRow)] on rows carrying their id column. *)
Definition mapUser (u : Z * users_row) : LocalUser := mapUserRow (fst u) (snd u).

Definition getUserByNfcHash (nfcCardHash_ : string) : M (option LocalUser) :=
  guard ;;;
  result <- query (fun t => Sql.first_user (Sql.has_card nfcCardHash_) (users t)) ;;
  ret (mapUser <$> result).

Definition getUserByPinHash (pinHash_ : string) : M (option LocalUser) :=
  guard ;;;
  result <- query (fun t => Sql.first_user (Sql.has_pin pinHash_) (users t)) ;;
  ret (mapUser <$> result).

Definition getAllUsers : M (list LocalUser) :=
  guard ;;;
  results <- query (fun t =>
               Sql.order_by_name
                 (List.filter Sql.is_active (map_to_list (users t)))) ;;
  ret (map mapUser results).

Definition getCheckinsSince (ts : Z) : M (list CheckinRecord) :=
  guard ;;;
  results <- query (fun t =>
               Sql.order_by_timestamp_desc
                 (List.filter (Sql.since ts) (checkins t))) ;;
  ret (map mapCheckinRow results).

(** [getStats]. [localMidnight] is [d.setHours(0, 0, 0, 0); d.getTime()]
    for the Date read from the clock; it depends on the time zone of the
    device, so it is taken as a function of the clock reading. *)
Definition getStats (localMidnight : Z -> Z) : M DatabaseStats :=
  guard ;;;
  t0 <- now ;;
  let startOfDay := localMidnight t0 in
  users_ <- query (fun t => Sql.count Sql.is_active (map_to_list (users t))) ;;
  pending_ <- query (fun t => Sql.count Sql.is_pending (checkins t)) ;;
  today_ <- query (fun t => Sql.count (Sql.since startOfDay) (checkins t)) ;;
  config_ <- getTerminalConfig ;;
  ret {| st_totalUsers := users_;
         st_pendingCheckins := pending_;
         st_todayCheckins := today_;
         st_lastSyncAt := Js.orNullZ (config_ ≫= lastSyncAt) |}.

(* ---------------------------------------------------------------- *)
(** *** class CheckinService *)
(* ---------------------------------------------------------------- *)

(** [cryptoService.generateLocalId] *)
Definition generateLocalId : M string :=
  t <- now ;;
  r <- observe Math_random36 ;;
  ret (String.append (toString36 t) (String.append "-" r)).

(** The record literal the four stamping methods build. *)
Definition newRecord (uid : Z) (uname : string) (kind : CheckType)
    (auth : AuthMethod) (card : option string) : M CheckinRecord :=
  lid <- generateLocalId ;;
  ts <- now ;;
  online <- observe navigator_onLine ;;
  ret {| id := None; localId := lid; userId := uid; userName := uname;
         checkType := kind; timestamp := ts; authMethod := auth;
         nfcCardHash := card; latitude := None; longitude := None;
         createdOffline := negb online; syncStatus := pending;
         syncedAt := None; syncError := None |}.

Definition checkIn (uid : Z) (uname : string) (auth : AuthMethod)
    (card : option string) : M CheckinRecord :=
  record <- newRecord uid uname check_in auth card ;;
  saveCheckin record ;;;
  updateUserStatus uid
    {| up_isCheckedIn := Some true; up_isOnBreak := None;
       up_lastCheckIn := Some (timestamp record); up_lastCheckOut := None;
       up_currentSessionStart := Some (timestamp record);
       up_totalTodayMinutes := None |} ;;;
  ret record.

Definition checkOut (uid : Z) (uname : string) (auth : AuthMethod)
    (card : option string) : M CheckinRecord :=
  record <- newRecord uid uname check_out auth card ;;
  saveCheckin record ;;;
  userStatus <- getUserStatus uid ;;
  let sessionStart := userStatus ≫= currentSessionStart in
  let sessionMinutes :=
    match sessionStart with
    | Some start =>
        if Js.truthyZ sessionStart
        then Js.roundMinutes (timestamp record - start)
        else 0
    | None => 0
    end in
  updateUserStatus uid
    {| up_isCheckedIn := Some false; up_isOnBreak := Some false;
       up_lastCheckIn := None; up_lastCheckOut := Some (timestamp record);
       up_currentSessionStart := None;
       up_totalTodayMinutes :=
         Some (match userStatus with
               | Some s => totalTodayMinutes s
               | None => 0
               end + sessionMinutes) |} ;;;
  ret record.

Definition startBreak (uid : Z) (uname : string) (auth : AuthMethod)
  : M CheckinRecord :=
  record <- newRecord uid uname break_start auth None ;;
  saveCheckin record ;;;
  updateUserStatus uid
    {| up_isCheckedIn := None; up_isOnBreak := Some true;
       up_lastCheckIn := None; up_lastCheckOut := None;
       up_currentSessionStart := None; up_totalTodayMinutes := None |} ;;;
  ret record.

Definition endBreak (uid : Z) (uname : string) (auth : AuthMethod)
  : M CheckinRecord :=
  record <- newRecord uid uname break_end auth None ;;
  saveCheckin record ;;;
  updateUserStatus uid
    {| up_isCheckedIn := None; up_isOnBreak := Some false;
       up_lastCheckIn := None; up_lastCheckOut := None;
       up_currentSessionStart := None; up_totalTodayMinutes := None |} ;;;
  ret record.

Definition toggleCheckin (uid : Z) (uname : string) (auth : AuthMethod)
    (card : option string) : M (CheckType * CheckinRecord) :=
  userStatus <- getUserStatus uid ;;
  if negb (match userStatus with
           | Some s => isCheckedIn s
           | None => false
           end)
  then record <- checkIn uid uname auth card ;; ret (check_in, record)
  else record <- checkOut uid uname auth card ;; ret (check_out, record).

Definition getTodayCheckins (localMidnight : Z -> Z) : M (list CheckinRecord) :=
  t0 <- now ;;
  getCheckinsSince (localMidnight t0).

Definition markAsSynced (localIds_ : list string) : M unit :=
  for_of localIds_ (fun l =>
    t <- now ;; updateCheckinSyncStatus l synced (Some t) None).

Definition markAsFailed (l : string) (error : string) : M unit :=
  updateCheckinSyncStatus l failed None (Some error).

(** [minutes] is a whole number of minutes that is a safe integer: there
    [Math.floor(minutes / 60)] is the floor of the exact quotient. *)
Definition formatWorkTime (minutes : Z) : string :=
  let hours := minutes / 60 in
  let mins := Js.remainder minutes 60 in
  String.append (Js.toStringRadix 10 hours)
    (String.append ":" (Js.padStart 2 "0"%char (Js.toStringRadix 10 mins))).

Definition calculateSessionDuration (sessionStart : Z) : M Z :=
  t <- now ;;
  ret (Js.roundMinutes (t - sessionStart)).

(* ---------------------------------------------------------------- *)
(** *** class SyncService *)
(* ---------------------------------------------------------------- *)

Definition update_svc (f : SyncService -> SyncService) : M unit :=
  modify (fun w => set_svc (f (svc w)) w).

(** [this.config.x]: a TypeError when [this.config] is null. *)
Definition this_config : M TerminalConfig :=
  fun w =>
    match config (svc w) with
    | Some c => Return c w
    | None => Throw (TypeError "Cannot read properties of null") w
    end.

Definition stopAutoSync : M unit := update_svc (set_timers None None).

(** The [catch] block of [performSync]. *)
Definition performSync_catch (log : Z) (error : Error)
  : M (option SyncResponse) :=
  logSyncFailed log (errorMessage error) ;;;
  s <- gets svc ;;
  (if retryCount s <? maxRetries
   then update_svc (set_retryCount (retryCount s + 1)) ;;;
        modify (fun w => set_retryTimers (S (retryTimers w)) w)
   else ret tt) ;;;
  ret None.

(** The [finally] block of [performSync]. *)
Definition unlock (w : World) : World := set_svc (set_isSyncing false (svc w)) w.

(** The [try] block of [performSync] up to [await this.api.post]: the
    queue is read, the request is built and the request interceptor
    stamps it (it reads the clock for the signed header). *)
Definition performSync_request (ty : SyncType) (log : Z) : M Attempt :=
  pendingCheckins_ <- getPendingCheckins ;;
  cfg <- this_config ;;
  _ <- now ;;
  ret {| at_syncType := ty; logId := log;
         pendingCheckins := pendingCheckins_;
         request :=
           {| rq_terminalId := terminalId cfg;
              lastSyncTimestamp := default 0 (Js.orNullZ (lastSyncAt cfg));
              rq_checkins := pendingCheckins_;
              rq_syncType := ty |} |}.

(** [performSync] from the call to the point where it either settles or
    suspends on the gateway. *)
Definition performSync (ty : SyncType) : M (Promise (option SyncResponse)) :=
  s <- gets svc ;;
  match api s, config s with
  | Some _, Some _ =>
      if isSyncing s then ret (Resolved None)
      else
        update_svc (set_isSyncing true) ;;;
        log <- logSyncStart ty ;;
        fun w =>
          match performSync_request ty log w with
          | Return a w1 => Return AwaitingGateway (set_posted (Some a) w1)
          | Throw e w1 =>
              match finally (performSync_catch log e) unlock w1 with
              | Return r w2 => Return (Resolved r) w2
              | Throw e' w2 => Throw e' w2
              end
          end
  | _, _ => ret (Resolved None)
  end.

Definition syncFull : M (Promise (option SyncResponse)) := performSync full.

Definition syncIncremental : M (Promise (option SyncResponse)) :=
  performSync incremental.

Definition forceSync : M (Promise (option SyncResponse)) :=
  update_svc (set_retryCount 0) ;;; syncFull.

(** A call whose promise nobody awaits: a rejection is dropped, the
    effects stay. *)
Definition fire_and_forget {A} (m : M A) : M unit :=
  fun w =>
    match m w with
    | Return _ w' | Throw _ w' => Return tt w'
    end.

Definition startAutoSync : M unit :=
  s <- gets svc ;;
  match config s with
  | None => ret tt
  | Some cfg =>
      stopAutoSync ;;;
      update_svc (set_timers (Some (syncIntervalSeconds cfg * 1000)) (Some 30000)) ;;;
      fire_and_forget syncIncremental
  end.

(** The object literal of the [map] callback in [updateLocalUsers]. *)
Definition toLocalUser (u : ServerUser) (t : Z) : LocalUser :=
  {| lu_id := su_userId u; lu_name := su_name u;
     lu_personnelNumber := su_personnelNumber u;
     lu_department := su_department u;
     lu_nfcCardHash := Js.orNullS (su_nfcCardHash u);
     lu_pinHash := Js.orNullS (su_pinHash u);
     lu_profilePhotoUrl := su_profilePhotoUrl u;
     lu_isActive := su_isActive u;
     lu_lastSyncedAt := Some t |}.

Definition updateLocalUsers (serverUsers : list ServerUser) : M unit :=
  localUsers <- map_M (fun u => t <- now ;; ret (toLocalUser u t)) serverUsers ;;
  saveUsers localUsers.

Definition apply_settings (s : ServerSettings) (c : TerminalConfig)
  : TerminalConfig :=
  {| terminalId := terminalId c; tenantId := tenantId c; name := name c;
     location := location c; apiKey := apiKey c; serverUrl := serverUrl c;
     syncIntervalSeconds := ss_syncIntervalSeconds s;
     offlineBufferHours := ss_offlineBufferHours s;
     nfcEnabled := ss_nfcEnabled s;
     pinFallbackEnabled := ss_pinFallbackEnabled s;
     timezone := ss_timezone s; language := ss_language s;
     lastSyncAt := lastSyncAt c |}.

Definition updateSettings (s : ServerSettings) : M unit :=
  sv <- gets svc ;;
  match config sv with
  | None => ret tt
  | Some c =>
      let c' := apply_settings s c in
      update_svc (set_config (Some c')) ;;;
      saveTerminalConfig c' ;;;
      timer <- gets (fun w => syncInterval (svc w)) ;;
      match timer with
      | Some _ => startAutoSync
      | None => ret tt
      end
  end.

Definition conflictTypeName (k : ConflictType) : string :=
  match k with
  | duplicate => "duplicate"
  | time_mismatch => "time_mismatch"
  | user_mismatch => "user_mismatch"
  end.

(** The body of the loop of [handleConflicts]. *)
Definition handleConflict (c : ConflictRecord) : M unit :=
  match resolution c with
  | use_server =>
      updateCheckinSyncStatus (cf_localId c) conflict None
        (Some (String.append "Resolved: " (conflictTypeName (conflictType c))))
  | use_local =>
      updateCheckinSyncStatus (cf_localId c) pending None None
  | manual_resolution =>
      updateCheckinSyncStatus (cf_localId c) conflict None
        (Some (String.append "Manual resolution required: "
                 (conflictTypeName (conflictType c))))
  end.

Definition handleConflicts (cs : list ConflictRecord) : M unit :=
  for_of cs handleConflict.

(** [pendingCheckins.filter(c => !failedRecords.find(f => f.localId ===
    c.localId)).map(c => c.localId)] *)
Definition syncedLocalIds (sent : list CheckinRecord) (fs : list FailedRecord)
  : list string :=
  map localId
    (List.filter
       (fun c => negb (existsb (fun f => String.eqb (f_localId f) (localId c)) fs))
       sent).

(** The [if (data.success)] branch. *)
Definition performSync_success (a : Attempt) (data : SyncResponse)
  : M (option SyncResponse) :=
  let ids := syncedLocalIds (pendingCheckins a) (failedRecords data) in
  for_of ids (fun l =>
    t <- now ;; updateCheckinSyncStatus l synced (Some t) None) ;;;
  for_of (failedRecords data) (fun f =>
    updateCheckinSyncStatus (f_localId f) failed None (Some (f_error f))) ;;;
  match rs_users data with
  | Some (u :: us) => updateLocalUsers (u :: us)
  | _ => ret tt
  end ;;;
  match settings data with
  | Some s => updateSettings s
  | None => ret tt
  end ;;;
  match conflicts data with
  | Some (c :: cs) => handleConflicts (c :: cs)
  | _ => ret tt
  end ;;;
  cfg <- this_config ;;
  let cfg' := set_lastSyncAt (Some (serverTimestamp data)) cfg in
  update_svc (set_config (Some cfg')) ;;;
  saveTerminalConfig cfg' ;;;
  logSyncComplete (logId a) (Z.of_nat (length ids))
    (match rs_users data with
     | Some us => Z.of_nat (length us)
     | None => 0
     end)
    (Z.of_nat (length (failedRecords data))) ;;;
  ret (Some data).

(** The [try] block of [performSync] from the settled [api.post] on; the
    response interceptors run first. *)
Definition performSync_try (a : Attempt) (r : GatewayResult)
  : M (option SyncResponse) :=
  match r with
  | Rejected msg hasResponse =>
      (if hasResponse then ret tt else update_svc (set_isOnline false)) ;;;
      throw (JsError msg)
  | Fulfilled data =>
      update_svc (fun s => set_retryCount 0 (set_isOnline true s)) ;;;
      if success data
      then performSync_success a data
      else throw (JsError "Sync failed: server returned success=false")
  end.

(** [performSync] resumed with what the gateway call settled with. When no
    call is waiting there is nothing to resume. *)
Definition performSync_response (r : GatewayResult) : M (option SyncResponse) :=
  waiting <- gets posted ;;
  match waiting with
  | None => ret None
  | Some a =>
      modify (set_posted None) ;;;
      finally (try_catch (performSync_try a r) (performSync_catch (logId a)))
        unlock
  end.

Definition initialize : M bool :=
  try_catch
    (c <- getTerminalConfig ;;
     update_svc (set_config c) ;;;
     match c with
     | None => ret false
     | Some cfg =>
         update_svc (set_api (Some {| baseURL := serverUrl cfg;
                                      timeout := 30000 |})) ;;;
         ret true
     end)
    (fun _ => ret false).

Definition setSyncInterval (seconds : Z) : M unit :=
  s <- gets svc ;;
  match config s with
  | None => ret tt
  | Some c =>
      let c' := set_syncIntervalSeconds seconds c in
      update_svc (set_config (Some c')) ;;;
      saveTerminalConfig c' ;;;
      timer <- gets (fun w => syncInterval (svc w)) ;;
      match timer with
      | Some _ => startAutoSync
      | None => ret tt
      end
  end.

(** [sendHeartbeat] from the call to the point where it either settles or
    suspends on the gateway; the request interceptor reads the clock. *)
Definition sendHeartbeat (localMidnight : Z -> Z) : M (Promise bool) :=
  s <- gets svc ;;
  match api s, config s with
  | Some _, Some _ =>
      fun w =>
        match (stats <- getStats localMidnight ;; _ <- now ;; ret stats) w with
        | Return _ w1 => Return AwaitingGateway w1
        | Throw _ w1 =>
            Return (Resolved false) (set_svc (set_isOnline false (svc w1)) w1)
        end
  | _, _ => ret (Resolved false)
  end.

(** [sendHeartbeat] resumed with what the gateway call settled with; the
    response interceptors run first. *)
Definition sendHeartbeat_response (g : HeartbeatResult) : M bool :=
  match g with
  | Acknowledged =>
      update_svc (fun s => set_retryCount 0 (set_isOnline true s)) ;;;
      update_svc (set_isOnline true) ;;;
      ret true
  | Unanswered hasResponse =>
      (if hasResponse then ret tt else update_svc (set_isOnline false)) ;;;
      update_svc (set_isOnline false) ;;;
      ret false
  end.

Definition getOnlineStatus : M bool := gets (fun w => isOnline (svc w)).

(** [SyncService.getStats] *)
Definition syncStats (localMidnight : Z -> Z) : M SyncStats :=
  dbStats <- getStats localMidnight ;;
  s <- gets svc ;;
  ret {| sy_isOnline := isOnline s;
         sy_isSyncing := isSyncing s;
         sy_lastSyncAt := Js.orNullZ (config s ≫= lastSyncAt);
         sy_pendingCount := st_pendingCheckins dbStats;
         sy_syncInterval :=
           match config s with
           | Some c =>
               if syncIntervalSeconds c =? 0 then 60 else syncIntervalSeconds c
           | None => 60
           end |}.

Definition cleanup (olderThanDays : option Z) : M Z :=
  deleteOldSyncedCheckins (default 30 olderThanDays).

(* ---------------------------------------------------------------- *)
(** *** Views of the world used in the statements *)
(* ---------------------------------------------------------------- *)

Definition checkinsOf (w : World) : list checkins_row :=
  match db w with
  | Some t => checkins t
  | None => []
  end.

Definition syncLogOf (w : World) : list sync_log_row :=
  match db w with
  | Some t => sync_log t
  | None => []
  end.

Definition statusRowOf (w : World) (uid : Z) : option user_status_row :=
  db w ≫= fun t => user_status t !! uid.

(** The checkpoint as stored in terminal_config.last_sync_at. *)
Definition storedCheckpoint (w : World) : option Z :=
  db w ≫= fun t => terminal_config t ≫= last_sync_at.

(** The checkpoint the engine holds in [this.config.lastSyncAt]. *)
Definition heldCheckpoint (w : World) : option Z :=
  config (svc w) ≫= lastSyncAt.

Definition localIds (rows : list checkins_row) : list string :=
  map local_id rows.

(** Two rows that differ at most in sync_status, synced_at, sync_error. *)
Definition same_event (r r' : checkins_row) : Prop :=
  c_id r' = c_id r /\ local_id r' = local_id r /\
  c_user_id r' = c_user_id r /\ c_user_name r' = c_user_name r /\
  check_type r' = check_type r /\ c_timestamp r' = c_timestamp r /\
  auth_method r' = auth_method r /\ nfc_card_hash r' = nfc_card_hash r /\
  c_latitude r' = c_latitude r /\ c_longitude r' = c_longitude r /\
  created_offline r' = created_offline r /\ created_at r' = created_at r.

(** The id [generateLocalId] produces when called at observation [n]. *)
Definition localIdAt (n : nat) : string :=
  String.append (toString36 (Date_now n))
    (String.append "-" (Math_random36 (S n))).

(** The calendar day the code takes as today when it reads the clock at
    observation [n]. *)
Definition todayAt (n : nat) : string := toISODate (Date_now n).

(** An attempt is in flight: [performSync] holds the lock and waits for
    the gateway. *)
Definition InFlight (w : World) (a : Attempt) : Prop :=
  posted w = Some a /\ isSyncing (svc w) = true.

(** The engine is initialised and no attempt runs. *)
Definition Idle (w : World) : Prop :=
  is_Some (api (svc w)) /\ is_Some (config (svc w)) /\
  isSyncing (svc w) = false.

(* ---------------------------------------------------------------- *)
(** *** What one sync response makes of a single row *)
(* ---------------------------------------------------------------- *)

(** The row after the loop that marks [ids] synced, the loop starting at
    observation [n] and reading the clock once per id. *)
Fixpoint synced_row (n : nat) (ids : list string) (r : checkins_row)
  : checkins_row :=
  match ids with
  | [] => r
  | l :: ids' =>
      synced_row (S n) ids'
        (if String.eqb (local_id r) l
         then Sql.set_sync synced (Js.orNullZ (Some (Date_now n))) None r
         else r)
  end.

(** The row after the loop over [failedRecords]. *)
Definition failed_row (fs : list FailedRecord) (r : checkins_row)
  : checkins_row :=
  fold_left
    (fun r f =>
       if String.eqb (local_id r) (f_localId f)
       then Sql.set_sync failed None (Js.orNullS (Some (f_error f))) r
       else r)
    fs r.

(** The status and annotation a directive writes. *)
Definition verdict (c : ConflictRecord) : SyncStatus * option string :=
  match resolution c with
  | use_server =>
      (conflict,
       Some (String.append "Resolved: " (conflictTypeName (conflictType c))))
  | use_local => (pending, None)
  | manual_resolution =>
      (conflict,
       Some (String.append "Manual resolution required: "
               (conflictTypeName (conflictType c))))
  end.

Definition resolve_row (c : ConflictRecord) (r : checkins_row) : checkins_row :=
  if String.eqb (local_id r) (cf_localId c)
  then Sql.set_sync (fst (verdict c)) None (Js.orNullS (snd (verdict c))) r
  else r.

(** The row after [handleConflicts cs]. *)
Definition resolved_row (cs : list ConflictRecord) (r : checkins_row)
  : checkins_row :=
  fold_left (fun r c => resolve_row c r) cs r.

(** The conflicts [performSync] hands to [handleConflicts]. *)
Definition directives (data : SyncResponse) : list ConflictRecord :=
  default [] (conflicts data).

(** The row after the whole success branch, entered at observation [n]. *)
Definition row_after_success (n : nat) (a : Attempt) (data : SyncResponse)
    (r : checkins_row) : checkins_row :=
  resolved_row (directives data)
    (failed_row (failedRecords data)
       (synced_row n (syncedLocalIds (pendingCheckins a) (failedRecords data)) r)).

(** The queue [getPendingCheckins] reads from a list of rows. *)
Definition queueOf (rows : list checkins_row) : list CheckinRecord :=
  map mapCheckinRow (Sql.order_by_timestamp (List.filter Sql.in_queue rows)).

(** The row [saveTerminalConfig] writes for a config object. *)
Definition config_row (c : TerminalConfig) : terminal_config_row :=
  {| tc_terminal_id := terminalId c;
     tc_tenant_id := tenantId c;
     tc_name := name c;
     tc_location := Js.orNullS (location c);
     tc_api_key := apiKey c;
     tc_server_url := serverUrl c;
     tc_sync_interval_seconds := syncIntervalSeconds c;
     tc_offline_buffer_hours := offlineBufferHours c;
     tc_nfc_enabled := if nfcEnabled c then 1 else 0;
     tc_pin_fallback_enabled := if pinFallbackEnabled c then 1 else 0;
     tc_timezone := timezone c;
     tc_language := language c;
     last_sync_at := Js.orNullZ (lastSyncAt c) |}.


(* ---------------------------------------------------------------- *)
(** *** Whole runs *)
(* ---------------------------------------------------------------- *)

(** The world a call leaves behind, whether it returned or threw. *)
Definition final {A} (o : Outcome A) : World :=
  match o with
  | Return _ w | Throw _ w => w
  end.






(** One attempt from trigger to settled promise with nothing running in
    between: the trigger, then the gateway result. *)
Definition attempt (ty : SyncType) (g : GatewayResult)
  : M (option SyncResponse) :=
  started <- performSync ty ;;
  match started with
  | Resolved r => ret r
  | AwaitingGateway => performSync_response g
  end.

(** The public methods of [Database] that write, as calls. *)
Inductive DatabaseCall :=
| SaveTerminalConfig (c : TerminalConfig)
| SaveUser (u : LocalUser)
| SaveUsers (us : list LocalUser)
| GetUserStatus (uid : Z)
| UpdateUserStatus (uid : Z) (updates : UserStatusUpdates)
| SaveCheckin (c : CheckinRecord)
| UpdateCheckinSyncStatus (l : string) (status : SyncStatus)
    (syncedAt_ : option Z) (syncError_ : option string)
| DeleteOldSyncedCheckins (olderThanDays : Z)
| LogSyncStart (ty : SyncType)
| LogSyncComplete (log sent received nfailed : Z)
| LogSyncFailed (log : Z) (msg : string)
| ClearAllData.

Definition discard {A} (m : M A) : M unit := _ <- m ;; ret tt.

Definition call (c : DatabaseCall) : M unit :=
  match c with
  | SaveTerminalConfig c => saveTerminalConfig c
  | SaveUser u => saveUser u
  | SaveUsers us => saveUsers us
  | GetUserStatus uid => discard (getUserStatus uid)
  | UpdateUserStatus uid u => updateUserStatus uid u
  | SaveCheckin c => saveCheckin c
  | UpdateCheckinSyncStatus l st a e => updateCheckinSyncStatus l st a e
  | DeleteOldSyncedCheckins d => discard (deleteOldSyncedCheckins d)
  | LogSyncStart ty => discard (logSyncStart ty)
  | LogSyncComplete log a b c => logSyncComplete log a b c
  | LogSyncFailed log msg => logSyncFailed log msg
  | ClearAllData => clearAllData
  end.

Definition is_update (c : DatabaseCall) : bool :=
  match c with
  | UpdateCheckinSyncStatus _ _ _ _ => true
  | _ => false
  end.

(** Whether [toggleCheckin] finds the user checked in: a status row of
    today with is_checked_in = 1. is_on_break is not consulted. *)
Definition foundCheckedIn (t : Tables) (uid : Z) (today : string) : bool :=
  match user_status t !! uid with
  | Some row => String.eqb (today_date row) today && (is_checked_in row =? 1)
  | None => false
  end.

(** [{ action: kind, record }] around an awaited stamping call: a throw
    passes through. *)
Definition tagged (kind : CheckType) (o : Outcome CheckinRecord)
  : Outcome (CheckType * CheckinRecord) :=
  match o with
  | Return rec w' => Return (kind, rec) w'
  | Throw e w' => Throw e w'
  end.

(** The text a directive is expected to leave in sync_error, written out
    for each resolution and each conflict kind; none for use_local. *)
Definition annotation (c : ConflictRecord) : option string :=
  match resolution c, conflictType c with
  | use_local, _ => None
  | use_server, duplicate => Some "Resolved: duplicate"
  | use_server, time_mismatch => Some "Resolved: time_mismatch"
  | use_server, user_mismatch => Some "Resolved: user_mismatch"
  | manual_resolution, duplicate =>
      Some "Manual resolution required: duplicate"
  | manual_resolution, time_mismatch =>
      Some "Manual resolution required: time_mismatch"
  | manual_resolution, user_mismatch =>
      Some "Manual resolution required: user_mismatch"
  end.

(** The sync columns of an event whose last word was directive [c]. *)
Definition stands_as (c : ConflictRecord) (r : checkins_row) : Prop :=
  sync_status r =
    match resolution c with
    | use_local => pending
    | use_server | manual_resolution => conflict
    end /\
  synced_at r = None /\
  sync_error r = annotation c.

(** What a directive leaves of the event it names, in world [w]: the
    columns above, and after use_local a queue read returns the event. *)
Definition resolved_as (c : ConflictRecord) (w : World) (r : checkins_row) : Prop :=
  stands_as c r /\
  (resolution c = use_local ->
   exists queue w',
     getPendingCheckins w = Return queue w' /\
     In (mapCheckinRow r) queue).

(** The record [checkIn]/[checkOut] build when called at observation [n]. *)
Definition recordAt (n : nat) (uid : Z) (uname : string) (kind : CheckType)
    (auth : AuthMethod) (card : option string) : CheckinRecord :=
  {| id := None; localId := localIdAt n; userId := uid;
     userName := uname; checkType := kind;
     timestamp := Date_now (S (S n)); authMethod := auth;
     nfcCardHash := card; latitude := None; longitude := None;
     createdOffline := negb (navigator_onLine (S (S (S n))));
     syncStatus := pending; syncedAt := None; syncError := None |}.


(** The row [saveUser] writes for a user; [n] is the observation at which
    it reads the clock when the user carries no [lastSyncedAt]. *)
Definition user_row (u : LocalUser) (n : nat) : users_row :=
  {| u_name := lu_name u;
     u_personnel_number := Js.orNullS (lu_personnelNumber u);
     u_department := Js.orNullS (lu_department u);
     u_nfc_card_hash := Js.orNullS (lu_nfcCardHash u);
     u_pin_hash := Js.orNullS (lu_pinHash u);
     u_profile_photo_url := Js.orNullS (lu_profilePhotoUrl u);
     u_is_active := if lu_isActive u then 1 else 0;
     u_last_synced_at :=
       if Js.truthyZ (lu_lastSyncedAt u) then lu_lastSyncedAt u
       else Some (Date_now n) |}.

Definition usersOf (w : World) : gmap Z users_row :=
  match db w with
  | Some t => users t
  | None => ∅
  end.

(** What a roster entry of the server says about a stored user. *)
Definition row_of_server_user (u : ServerUser) (row : users_row) : Prop :=
  u_name row = su_name u /\
  u_personnel_number row = Js.orNullS (su_personnelNumber u) /\
  u_department row = Js.orNullS (su_department u) /\
  u_nfc_card_hash row = Js.orNullS (su_nfcCardHash u) /\
  u_pin_hash row = Js.orNullS (su_pinHash u) /\
  u_profile_photo_url row = Js.orNullS (su_profilePhotoUrl u) /\
  u_is_active row = (if su_isActive u then 1 else 0).

(** A character of [0-9a-f]. *)
Definition isHexDigit (c : ascii) : bool :=
  existsb (Ascii.eqb c) (list_ascii_of_string "0123456789abcdef").

(** WHERE sync_status = 'failed' *)
Definition is_failed (r : checkins_row) : bool :=
  match sync_status r with
  | failed => true
  | _ => false
  end.

(** Incremental attempts one after the other, each settled by the gateway
    before the next is triggered. *)
Definition attempts (gs : list GatewayResult) : M unit :=
  for_of gs (fun g => discard (attempt incremental g)).

Definition is_rejection (g : GatewayResult) : bool :=
  match g with
  | Rejected _ _ => true
  | Fulfilled _ => false
  end.

Definition is_refusal (g : GatewayResult) : bool :=
  match g with
  | Fulfilled data => negb (success data)
  | Rejected _ _ => false
  end.

(** [terminalStore.resetTerminal], as far as the engine and the database
    go: the fields of the store itself are not part of the world, and its
    [catch] rethrows. *)
Definition resetTerminal : M unit :=
  stopAutoSync ;;;
  clearAllData.

(** [{ ...config, ...updates }] *)
Definition spread (c : TerminalConfig) (u : ConfigUpdates) : TerminalConfig :=
  {| terminalId := default (terminalId c) (cu_terminalId u);
     tenantId := default (tenantId c) (cu_tenantId u);
     name := default (name c) (cu_name u);
     location :=
       match cu_location u with
       | Some l => Some l
       | None => location c
       end;
     apiKey := default (apiKey c) (cu_apiKey u);
     serverUrl := default (serverUrl c) (cu_serverUrl u);
     syncIntervalSeconds :=
       default (syncIntervalSeconds c) (cu_syncIntervalSeconds u);
     offlineBufferHours :=
       default (offlineBufferHours c) (cu_offlineBufferHours u);
     nfcEnabled := default (nfcEnabled c) (cu_nfcEnabled u);
     pinFallbackEnabled :=
       default (pinFallbackEnabled c) (cu_pinFallbackEnabled u);
     timezone := default (timezone c) (cu_timezone u);
     language := default (language c) (cu_language u);
     lastSyncAt :=
       match cu_lastSyncAt u with
       | Some t => Some t
       | None => lastSyncAt c
       end |}.

(** [terminalStore.updateConfig]. [held] is the [config] field of the
    store when the action runs; the result is its value afterwards. The
    engine is not called. *)
Definition updateConfig (held : option TerminalConfig) (updates : ConfigUpdates)
  : M (option TerminalConfig) :=
  match held with
  | None => throw (JsError "No config to update")
  | Some c =>
      let newConfig := spread c updates in
      saveTerminalConfig newConfig ;;;
      ret (Some newConfig)
  end.

(** [terminalStore.registerTerminal] up to the promise of [syncFull], as
    far as the engine and the database go. *)
Definition registerTerminal (c : TerminalConfig)
  : M (Promise (option SyncResponse)) :=
  saveTerminalConfig c ;;;
  _ <- initialize ;;
  startAutoSync ;;;
  syncFull.

(** Calls on the database one after the other; a call that throws
    leaves the world it threw in and the next call runs from there. *)
Fixpoint run_calls (cs : list DatabaseCall) (w : World) : World :=
  match cs with
  | [] => w
  | c :: cs' => run_calls cs' (final (call c w))
  end.

(** The keys of the schema: checkins.local_id is UNIQUE, checkins.id and
    sync_log.id are PRIMARY KEYs. *)
Definition keys_unique (t : Tables) : Prop :=
  List.NoDup (localIds (checkins t)) /\
  List.NoDup (map c_id (checkins t)) /\
  List.NoDup (map sl_id (sync_log t)).

(* ---------------------------------------------------------------- *)
(** *** Proof steps used throughout *)
(* ---------------------------------------------------------------- *)

(** Bring updated worlds and tables back to constructor form. *)
Ltac norm :=
  unfold set_db, set_svc, set_posted, set_retryTimers, set_steps;
  cbn [db svc posted retryTimers steps].

Ltac tables :=
  cbn [terminal_config users user_status checkins checkins_seq sync_log
       sync_log_seq set_terminal_config set_users set_user_status
       set_checkins set_sync_log Sql.insert_checkin].

Ltac open_db w H :=
  destruct w as [? ? ? ? ?]; cbn [db svc posted retryTimers steps] in *;
  subst.

(* ---------------------------------------------------------------- *)
(** *** Basic facts *)
(* ---------------------------------------------------------------- *)

Lemma local_id_taken_In l rows :
  Sql.local_id_taken l rows = true <-> In l (localIds rows).
Proof.
  unfold Sql.local_id_taken, localIds. rewrite existsb_exists, in_map_iff.
  split; intros [r [H1 H2]]; exists r.
  - apply String.eqb_eq in H2. auto.
  - split; [assumption|]. now apply String.eqb_eq.
Qed.

Lemma local_id_taken_not_In l rows :
  Sql.local_id_taken l rows = false <-> ~ In l (localIds rows).
Proof.
  rewrite <- local_id_taken_In. destruct (Sql.local_id_taken l rows); intuition congruence.
Qed.

Lemma same_event_refl r : same_event r r.
Proof. unfold same_event; tauto. Qed.

Lemma same_event_set_sync st a e r : same_event r (Sql.set_sync st a e r).
Proof. unfold same_event; cbn; tauto. Qed.

Lemma same_event_trans r1 r2 r3 :
  same_event r1 r2 -> same_event r2 r3 -> same_event r1 r3.
Proof. unfold same_event; intuition congruence. Qed.

Lemma update_sync_absent l st a e rows :
  ~ In l (localIds rows) -> Sql.update_sync l st a e rows = rows.
Proof.
  unfold Sql.update_sync, localIds. induction rows as [|r rows IH]; cbn; intros H.
  - reflexivity.
  - destruct (String.eqb_spec (local_id r) l) as [E|_].
    + exfalso; apply H; now left.
    + f_equal. apply IH. intros Hin; apply H; now right.
Qed.

Lemma update_sync_localIds l st a e rows :
  localIds (Sql.update_sync l st a e rows) = localIds rows.
Proof.
  unfold Sql.update_sync, localIds. rewrite map_map. apply map_ext.
  intros r. now destruct (String.eqb (local_id r) l).
Qed.

Lemma set_checkins_same t : set_checkins (checkins t) (checkins_seq t) t = t.
Proof. now destruct t. Qed.

(** ORDER BY keeps exactly the selected rows. *)
Lemma insert_by_timestamp_In x r l :
  In x (Sql.insert_by_timestamp r l) <-> x = r \/ In x l.
Proof.
  induction l as [|y l IH]; cbn.
  - intuition.
  - destruct (c_timestamp r <=? c_timestamp y); cbn; rewrite ?IH; intuition.
Qed.

Lemma order_by_timestamp_In x l :
  In x (Sql.order_by_timestamp l) <-> In x l.
Proof.
  unfold Sql.order_by_timestamp. induction l as [|y l IH]; cbn.
  - tauto.
  - rewrite insert_by_timestamp_In, IH. intuition.
Qed.

(* ---------------------------------------------------------------- *)
(** *** What each Database method does on an open database *)
(* ---------------------------------------------------------------- *)

Lemma saveCheckin_run c t s p r n :
  saveCheckin c (Build_World (Some t) s p r n) =
  if Sql.local_id_taken (localId c) (checkins t)
  then Throw (SqliteConstraint "UNIQUE constraint failed: checkins.local_id")
         (Build_World (Some t) s p r (S n))
  else Return tt
         (Build_World (Some (Sql.insert_checkin (Date_now n) c t)) s p r (S n)).
Proof.
  unfold saveCheckin, bind, guard, now, observe, query, exec, throw; cbn.
  now destruct (Sql.local_id_taken (localId c) (checkins t)).
Qed.

Lemma updateCheckinSyncStatus_run l st a e t s p r n :
  updateCheckinSyncStatus l st a e (Build_World (Some t) s p r n) =
  Return tt
    (Build_World
       (Some (set_checkins
                (Sql.update_sync l st (Js.orNullZ a) (Js.orNullS e) (checkins t))
                (checkins_seq t) t)) s p r n).
Proof. reflexivity. Qed.

Lemma getUserStatus_run uid t s p r n :
  getUserStatus uid (Build_World (Some t) s p r n) =
  match user_status t !! uid with
  | None => Return None (Build_World (Some t) s p r (S n))
  | Some row =>
      if negb (String.eqb (today_date row) (todayAt n)) then
        Return (Some {| us_userId := uid; us_userName := "";
                        isCheckedIn := false; isOnBreak := false;
                        lastCheckIn := None; lastCheckOut := None;
                        currentSessionStart := None; totalTodayMinutes := 0 |})
          (Build_World
             (Some (set_user_status
                      (alter (Sql.reset_row (todayAt n)) uid (user_status t)) t))
             s p r (S n))
      else
        Return (Some {| us_userId := uid;
                        us_userName :=
                          match users t !! uid with
                          | Some u => u_name u
                          | None => ""
                          end;
                        isCheckedIn := is_checked_in row =? 1;
                        isOnBreak := is_on_break row =? 1;
                        lastCheckIn := last_check_in row;
                        lastCheckOut := last_check_out row;
                        currentSessionStart := current_session_start row;
                        totalTodayMinutes := total_today_minutes row |})
          (Build_World (Some t) s p r (S n))
  end.
Proof.
  unfold getUserStatus, bind, guard, todayDate, now, observe, query, ret; cbn.
  destruct (user_status t !! uid) as [row|]; [|reflexivity].
  unfold todayAt.
  destruct (String.eqb (today_date row) (toISODate (Date_now n))); cbn.
  - unfold getUserById, bind, guard, query, ret; cbn.
    now destruct (users t !! uid).
  - reflexivity.
Qed.

Lemma updateUserStatus_run uid u t s p r n :
  updateUserStatus uid u (Build_World (Some t) s p r n) =
  Return tt
    (Build_World
       (Some (set_user_status
                (match user_status t !! uid with
                 | None => <[ uid := Sql.new_status_row u (todayAt n) ]> (user_status t)
                 | Some _ => alter (Sql.apply_updates u (todayAt n)) uid (user_status t)
                 end) t))
       s p r (S n)).
Proof.
  unfold updateUserStatus, bind, guard, todayDate, now, observe, query, ret; cbn.
  now destruct (user_status t !! uid).
Qed.

Lemma newRecord_run uid uname kind auth card d s p r n :
  newRecord uid uname kind auth card (Build_World d s p r n) =
  Return {| id := None; localId := localIdAt n; userId := uid;
            userName := uname; checkType := kind;
            timestamp := Date_now (S (S n)); authMethod := auth;
            nfcCardHash := card; latitude := None; longitude := None;
            createdOffline := negb (navigator_onLine (S (S (S n))));
            syncStatus := pending; syncedAt := None; syncError := None |}
    (Build_World d s p r (S (S (S (S n))))).
Proof. reflexivity. Qed.

(* ---------------------------------------------------------------- *)
(** *** What each step of a sync attempt does on an open database *)
(* ---------------------------------------------------------------- *)

Lemma bind_Return {A B} (m : M A) (k : A -> M B) w a w' :
  m w = Return a w' -> bind m k w = k a w'.
Proof. unfold bind. now intros ->. Qed.

Lemma bind_Throw {A B} (m : M A) (k : A -> M B) w e w' :
  m w = Throw e w' -> bind m k w = Throw e w'.
Proof. unfold bind. now intros ->. Qed.

Lemma mark_synced_run ids : forall t s p r n,
  for_of ids (fun l => t0 <- now ;; updateCheckinSyncStatus l synced (Some t0) None)
    (Build_World (Some t) s p r n) =
  Return tt
    (Build_World
       (Some (set_checkins (map (synced_row n ids) (checkins t))
                (checkins_seq t) t))
       s p r (length ids + n)%nat).
Proof.
  induction ids as [|l ids IH]; intros t s p r n.
  - cbn. now rewrite map_id, set_checkins_same.
  - cbn [for_of]. unfold bind at 1. unfold bind at 1.
    unfold now at 1, observe at 1. norm.
    rewrite updateCheckinSyncStatus_run, IH. cbn [checkins checkins_seq set_checkins].
    unfold Sql.update_sync. rewrite map_map. cbn [length synced_row].
    replace (length ids + S n)%nat with (S (length ids) + n)%nat by lia.
    reflexivity.
Qed.

Lemma mark_failed_run fs : forall t s p r n,
  for_of fs (fun f => updateCheckinSyncStatus (f_localId f) failed None
                        (Some (f_error f)))
    (Build_World (Some t) s p r n) =
  Return tt
    (Build_World
       (Some (set_checkins (map (failed_row fs) (checkins t))
                (checkins_seq t) t))
       s p r n).
Proof.
  induction fs as [|f fs IH]; intros t s p r n.
  - cbn. now rewrite map_id, set_checkins_same.
  - cbn [for_of]. unfold bind at 1.
    rewrite updateCheckinSyncStatus_run, IH. cbn [checkins checkins_seq set_checkins].
    unfold Sql.update_sync. rewrite map_map. reflexivity.
Qed.

Lemma handleConflict_run c t s p r n :
  handleConflict c (Build_World (Some t) s p r n) =
  Return tt
    (Build_World
       (Some (set_checkins (map (resolve_row c) (checkins t))
                (checkins_seq t) t))
       s p r n).
Proof.
  unfold handleConflict, resolve_row, verdict.
  destruct (resolution c); rewrite updateCheckinSyncStatus_run; reflexivity.
Qed.

Lemma handleConflicts_run cs : forall t s p r n,
  handleConflicts cs (Build_World (Some t) s p r n) =
  Return tt
    (Build_World
       (Some (set_checkins (map (resolved_row cs) (checkins t))
                (checkins_seq t) t))
       s p r n).
Proof.
  unfold handleConflicts.
  induction cs as [|c cs IH]; intros t s p r n.
  - cbn. now rewrite map_id, set_checkins_same.
  - cbn [for_of]. unfold bind at 1.
    rewrite handleConflict_run, IH. cbn [checkins checkins_seq set_checkins].
    rewrite map_map. reflexivity.
Qed.

Lemma saveUser_run u t s p r n :
  exists m k,
    saveUser u (Build_World (Some t) s p r n) =
    Return tt (Build_World (Some (set_users m t)) s p r k).
Proof.
  unfold saveUser, bind, guard, now, observe, exec, ret; cbn.
  destruct (Js.truthyZ (lu_lastSyncedAt u)); cbn; eauto.
Qed.

Lemma saveUsers_run us : forall t s p r n,
  exists m k,
    saveUsers us (Build_World (Some t) s p r n) =
    Return tt (Build_World (Some (set_users m t)) s p r k).
Proof.
  unfold saveUsers.
  induction us as [|u us IH]; intros t s p r n.
  - exists (users t), n. cbn. now destruct t.
  - cbn [for_of].
    destruct (saveUser_run u t s p r n) as (m & k & E).
    rewrite (bind_Return _ _ _ _ _ E).
    destruct (IH (set_users m t) s p r k) as (m' & k' & ->).
    exists m', k'. reflexivity.
Qed.

Lemma map_M_observing {A B} (f : A -> M B) (g : nat -> A -> B) d s p r :
  (forall x n, f x (Build_World d s p r n) =
               Return (g n x) (Build_World d s p r (S n))) ->
  forall xs n, exists ys k,
    map_M f xs (Build_World d s p r n) = Return ys (Build_World d s p r k).
Proof.
  intros Hf. induction xs as [|x xs IH]; intros n.
  - exists [], n. reflexivity.
  - destruct (IH (S n)) as (ys & k & E).
    exists (g n x :: ys), k. cbn [map_M].
    rewrite (bind_Return _ _ _ _ _ (Hf x n)).
    now rewrite (bind_Return _ _ _ _ _ E).
Qed.

Lemma updateLocalUsers_run us t s p r n :
  exists m k,
    updateLocalUsers us (Build_World (Some t) s p r n) =
    Return tt (Build_World (Some (set_users m t)) s p r k).
Proof.
  unfold updateLocalUsers.
  destruct (map_M_observing
              (fun u : ServerUser => t0 <- now ;; ret (toLocalUser u t0))
              (fun k u => toLocalUser u (Date_now k)) (Some t) s p r
              (fun u k => eq_refl) us n)
    as (ls & k & E).
  rewrite (bind_Return _ _ _ _ _ E).
  apply saveUsers_run.
Qed.

Lemma performSync_locked ty w :
  isSyncing (svc w) = true -> performSync ty w = Return (Resolved None) w.
Proof.
  intros H. unfold performSync, bind, gets.
  destruct (api (svc w)), (config (svc w)); try reflexivity.
  now rewrite H.
Qed.

Lemma startAutoSync_locked c t s p r n :
  config s = Some c -> isSyncing s = true ->
  startAutoSync (Build_World (Some t) s p r n) =
  Return tt
    (Build_World (Some t)
       (set_timers (Some (syncIntervalSeconds c * 1000)) (Some 30000)
          (set_timers None None s)) p r n).
Proof.
  intros Hc Hs. unfold startAutoSync, bind at 1, gets at 1. cbn [svc]. rewrite Hc.
  unfold stopAutoSync, update_svc, modify, bind, fire_and_forget, syncIncremental.
  norm. rewrite performSync_locked by exact Hs. reflexivity.
Qed.

Lemma saveTerminalConfig_run c t s p r n :
  saveTerminalConfig c (Build_World (Some t) s p r n) =
  Return tt
    (Build_World (Some (set_terminal_config (Some (config_row c)) t)) s p r n).
Proof. reflexivity. Qed.

Lemma updateSettings_run st c t s p r n :
  config s = Some c -> isSyncing s = true ->
  exists s',
    updateSettings st (Build_World (Some t) s p r n) =
    Return tt
      (Build_World
         (Some (set_terminal_config (Some (config_row (apply_settings st c))) t))
         s' p r n) /\
    config s' = Some (apply_settings st c) /\ isSyncing s' = true /\
    lastSyncAt (apply_settings st c) = lastSyncAt c.
Proof.
  intros Hc Hs. unfold updateSettings, bind at 1, gets at 1. cbn [svc]. rewrite Hc.
  unfold bind at 1, update_svc at 1, modify at 1. norm.
  unfold bind at 1. rewrite saveTerminalConfig_run.
  unfold bind at 1, gets at 1. cbn [svc syncInterval set_config].
  destruct (syncInterval s).
  - erewrite startAutoSync_locked by (cbn; eauto). eexists; repeat split; cbn; auto.
  - eexists; repeat split; cbn; auto.
Qed.

Lemma set_users_same t : set_users (users t) t = t.
Proof. now destruct t. Qed.

Lemma set_terminal_config_same t :
  set_terminal_config (terminal_config t) t = t.
Proof. now destruct t. Qed.

Lemma logSyncStart_run ty t s p r n :
  logSyncStart ty (Build_World (Some t) s p r n) =
  Return (fst (Sql.insert_sync_log ty (Date_now n) t))
    (Build_World (Some (snd (Sql.insert_sync_log ty (Date_now n) t))) s p r (S n)).
Proof. reflexivity. Qed.

Lemma logSyncComplete_run log a b c t s p r n :
  logSyncComplete log a b c (Build_World (Some t) s p r n) =
  Return tt
    (Build_World
       (Some (set_sync_log
                (Sql.update_log (Sql.complete_log (Date_now n) a b c) log (sync_log t))
                (sync_log_seq t) t)) s p r (S n)).
Proof. reflexivity. Qed.

Lemma logSyncFailed_run log msg t s p r n :
  logSyncFailed log msg (Build_World (Some t) s p r n) =
  Return tt
    (Build_World
       (Some (set_sync_log
                (Sql.update_log (Sql.fail_log (Date_now n) msg) log (sync_log t))
                (sync_log_seq t) t)) s p r (S n)).
Proof. reflexivity. Qed.

Lemma getPendingCheckins_run t s p r n :
  getPendingCheckins (Build_World (Some t) s p r n) =
  Return (queueOf (checkins t)) (Build_World (Some t) s p r n).
Proof. reflexivity. Qed.

(** The [catch] block: the log row is closed as failed; a retry is armed
    while fewer than [maxRetries] have been. *)
Lemma performSync_catch_run log e t s p r n :
  performSync_catch log e (Build_World (Some t) s p r n) =
  Return None
    (Build_World
       (Some (set_sync_log
                (Sql.update_log (Sql.fail_log (Date_now n) (errorMessage e))
                   log (sync_log t))
                (sync_log_seq t) t))
       (if retryCount s <? maxRetries
        then set_retryCount (retryCount s + 1) s else s)
       p
       (if retryCount s <? maxRetries then S r else r)
       (S n)).
Proof.
  unfold performSync_catch.
  rewrite (bind_Return _ _ _ _ _ (logSyncFailed_run _ _ _ _ _ _ _)).
  unfold bind, gets, update_svc, modify, ret. norm.
  now destruct (retryCount s <? maxRetries).
Qed.

(** A trigger on an idle engine opens a log row, reads the queue and
    suspends on the gateway. *)
Lemma performSync_idle ty ax c t s p r n :
  api s = Some ax -> config s = Some c -> isSyncing s = false ->
  performSync ty (Build_World (Some t) s p r n) =
  Return AwaitingGateway
    (Build_World
       (Some (snd (Sql.insert_sync_log ty (Date_now n) t)))
       (set_isSyncing true s)
       (Some {| at_syncType := ty;
                logId := fst (Sql.insert_sync_log ty (Date_now n) t);
                pendingCheckins := queueOf (checkins t);
                request :=
                  {| rq_terminalId := terminalId c;
                     lastSyncTimestamp := default 0 (Js.orNullZ (lastSyncAt c));
                     rq_checkins := queueOf (checkins t);
                     rq_syncType := ty |} |})
       r (S (S n))).
Proof.
  intros Ha Hc Hs. unfold performSync, bind at 1, gets at 1. cbn [svc].
  rewrite Ha, Hc, Hs.
  unfold bind at 1, update_svc at 1, modify at 1. norm.
  rewrite (bind_Return _ _ _ _ _ (logSyncStart_run _ _ _ _ _ _)).
  unfold performSync_request.
  rewrite (bind_Return _ _ _ _ _ (getPendingCheckins_run _ _ _ _ _)).
  unfold bind, this_config, now, observe, ret. norm. cbn [config set_isSyncing].
  rewrite Hc. norm. reflexivity.
Qed.

Lemma users_branch_run (us : option (list ServerUser)) t s p r n :
  exists m k,
    match us with
    | Some (u :: us') => updateLocalUsers (u :: us')
    | _ => ret tt
    end (Build_World (Some t) s p r n) =
    Return tt (Build_World (Some (set_users m t)) s p r k).
Proof.
  destruct us as [[|u us']|]; try apply updateLocalUsers_run;
    exists (users t), n; now rewrite set_users_same.
Qed.

Lemma settings_branch_run (st : option ServerSettings) c t s p r n :
  config s = Some c -> isSyncing s = true ->
  exists row s' c',
    match st with
    | Some x => updateSettings x
    | None => ret tt
    end (Build_World (Some t) s p r n) =
    Return tt (Build_World (Some (set_terminal_config row t)) s' p r n) /\
    config s' = Some c' /\ isSyncing s' = true.
Proof.
  intros Hc Hs. destruct st as [x|].
  - destruct (updateSettings_run x c t s p r n Hc Hs) as (s' & E & Hc' & Hs' & _).
    eauto 10.
  - exists (terminal_config t), s, c. now rewrite set_terminal_config_same.
Qed.

Lemma conflicts_branch_run (cs : option (list ConflictRecord)) t s p r n :
  match cs with
  | Some (c :: cs') => handleConflicts (c :: cs')
  | _ => ret tt
  end (Build_World (Some t) s p r n) =
  Return tt
    (Build_World
       (Some (set_checkins (map (resolved_row (default [] cs)) (checkins t))
                (checkins_seq t) t)) s p r n).
Proof.
  destruct cs as [[|c cs']|]; try apply handleConflicts_run;
    cbn; now rewrite map_id, set_checkins_same.
Qed.

(** The success branch brought into one equation: every row goes through
    [row_after_success], the checkpoint becomes the response's
    [serverTimestamp] in the engine and in the store, the log row of the
    attempt is closed as completed. *)
Lemma performSync_success_run a data c t s p r n :
  config s = Some c -> isSyncing s = true ->
  exists t' s' c' k tc,
    performSync_success a data (Build_World (Some t) s p r n) =
    Return (Some data) (Build_World (Some t') s' p r k) /\
    checkins t' = map (row_after_success n a data) (checkins t) /\
    checkins_seq t' = checkins_seq t /\
    user_status t' = user_status t /\
    terminal_config t' = Some (config_row c') /\
    config s' = Some c' /\
    lastSyncAt c' = Some (serverTimestamp data) /\
    isSyncing s' = true /\
    sync_log t' =
      Sql.update_log
        (Sql.complete_log tc
           (Z.of_nat (length (syncedLocalIds (pendingCheckins a) (failedRecords data))))
           (match rs_users data with
            | Some us => Z.of_nat (length us)
            | None => 0
            end)
           (Z.of_nat (length (failedRecords data))))
        (logId a) (sync_log t).
Proof.
  intros Hc Hs. unfold performSync_success. cbv zeta.
  rewrite (bind_Return _ _ _ _ _ (mark_synced_run _ _ _ _ _ _)).
  rewrite (bind_Return _ _ _ _ _ (mark_failed_run _ _ _ _ _ _)).
  match goal with
  | |- context [Build_World (Some ?t1) s p r ?n1] =>
      destruct (users_branch_run (rs_users data) t1 s p r n1) as (m & k1 & E1)
  end.
  rewrite (bind_Return _ _ _ _ _ E1). clear E1.
  match goal with
  | |- context [Build_World (Some ?t2) s p r k1] =>
      destruct (settings_branch_run (settings data) c t2 s p r k1 Hc Hs)
        as (row & s2 & c2 & E2 & Hc2 & Hs2)
  end.
  rewrite (bind_Return _ _ _ _ _ E2). clear E2.
  rewrite (bind_Return _ _ _ _ _ (conflicts_branch_run _ _ _ _ _ _)).
  unfold bind at 1, this_config at 1. cbn [svc]. rewrite Hc2.
  unfold bind at 1, update_svc at 1, modify at 1. norm.
  rewrite (bind_Return _ _ _ _ _ (saveTerminalConfig_run _ _ _ _ _ _)).
  rewrite (bind_Return _ _ _ _ _ (logSyncComplete_run _ _ _ _ _ _ _ _ _)).
  unfold ret.
  eexists _, _, (set_lastSyncAt (Some (serverTimestamp data)) c2), _, _.
  split; [reflexivity|].
  cbn [checkins checkins_seq user_status terminal_config sync_log
       set_checkins set_users set_terminal_config set_sync_log
       config set_config lastSyncAt set_lastSyncAt isSyncing].
  repeat split; try assumption.
  unfold row_after_success, directives. now rewrite !map_map.
Qed.

(** The response to an attempt in flight, when it reports success. *)
Lemma performSync_response_success a data c t s r n :
  config s = Some c -> isSyncing s = true -> success data = true ->
  exists t' s' c' k tc,
    performSync_response (Fulfilled data)
      (Build_World (Some t) s (Some a) r n) =
    Return (Some data) (Build_World (Some t') s' None r k) /\
    checkins t' = map (row_after_success n a data) (checkins t) /\
    checkins_seq t' = checkins_seq t /\
    user_status t' = user_status t /\
    terminal_config t' = Some (config_row c') /\
    config s' = Some c' /\
    lastSyncAt c' = Some (serverTimestamp data) /\
    isSyncing s' = false /\
    sync_log t' =
      Sql.update_log
        (Sql.complete_log tc
           (Z.of_nat (length (syncedLocalIds (pendingCheckins a) (failedRecords data))))
           (match rs_users data with
            | Some us => Z.of_nat (length us)
            | None => 0
            end)
           (Z.of_nat (length (failedRecords data))))
        (logId a) (sync_log t).
Proof.
  intros Hc Hs Hok.
  destruct (performSync_success_run a data c t
              (set_retryCount 0 (set_isOnline true s)) None r n Hc Hs)
    as (t' & s' & c' & k & tc & E & H1 & H2 & H3 & H4 & H5 & H6 & H7 & H8).
  exists t', (set_isSyncing false s'), c', k, tc.
  split; [|repeat split; assumption].
  unfold performSync_response, bind at 1, gets at 1. cbn [posted].
  unfold bind at 1, modify at 1. norm.
  unfold finally, try_catch, performSync_try.
  unfold bind at 1, update_svc at 1, modify at 1. norm.
  rewrite Hok, E. reflexivity.
Qed.

(** The response to an attempt in flight, when the call was rejected or
    the server answered [success = false]: only the log row of the
    attempt, the retry bookkeeping, the online flag and the lock change. *)
Lemma performSync_response_failure a g t s r n :
  match g with
  | Fulfilled data => success data = false
  | Rejected _ _ => True
  end ->
  exists s' r' msg,
    performSync_response g (Build_World (Some t) s (Some a) r n) =
    Return None
      (Build_World
         (Some (set_sync_log
                  (Sql.update_log (Sql.fail_log (Date_now n) msg)
                     (logId a) (sync_log t))
                  (sync_log_seq t) t))
         s' None r' (S n)) /\
    config s' = config s /\ isSyncing s' = false /\
    msg = match g with
          | Fulfilled _ => "Sync failed: server returned success=false"
          | Rejected m _ => m
          end /\
    isOnline s' = match g with
                  | Fulfilled _ => true
                  | Rejected _ hasResponse =>
                      if hasResponse then isOnline s else false
                  end.
Proof.
  intros Hg.
  unfold performSync_response, bind at 1, gets at 1. cbn [posted].
  unfold bind at 1, modify at 1. norm.
  unfold finally, try_catch, performSync_try.
  destruct g as [data|m hasResponse].
  - unfold bind at 1, update_svc at 1, modify at 1. norm.
    rewrite Hg. unfold throw. rewrite performSync_catch_run.
    unfold unlock. norm. eexists _, _, _. split; [reflexivity|].
    cbn. destruct (0 <? maxRetries); cbn; auto.
  - destruct hasResponse;
      unfold bind at 1, update_svc, modify, ret, throw; norm;
      rewrite performSync_catch_run; unfold unlock; norm;
      (eexists _, _, _; split; [reflexivity|]); cbn;
      destruct (retryCount s <? maxRetries); cbn; auto.
Qed.

(* ---------------------------------------------------------------- *)
(** *** Rows under the loops of a sync response *)
(* ---------------------------------------------------------------- *)

Lemma synced_row_absent ids : forall n r,
  ~ In (local_id r) ids -> synced_row n ids r = r.
Proof.
  induction ids as [|l ids IH]; intros n r H; cbn [synced_row].
  - reflexivity.
  - destruct (String.eqb_spec (local_id r) l) as [E|_].
    + exfalso. apply H. now left.
    + apply IH. intros Hin. apply H. now right.
Qed.

Lemma synced_row_same ids : forall n r, same_event r (synced_row n ids r).
Proof.
  induction ids as [|l ids IH]; intros n r; cbn [synced_row].
  - apply same_event_refl.
  - destruct (String.eqb (local_id r) l).
    + eapply same_event_trans; [apply same_event_set_sync|apply IH].
    + apply IH.
Qed.

Lemma synced_row_present ids : forall n r,
  In (local_id r) ids ->
  sync_status (synced_row n ids r) = synced /\
  sync_error (synced_row n ids r) = None /\
  exists k, (n <= k < n + length ids)%nat /\
            synced_at (synced_row n ids r) = Js.orNullZ (Some (Date_now k)).
Proof.
  induction ids as [|l ids IH]; intros n r H; [destruct H|].
  cbn [synced_row length].
  destruct (in_dec string_dec (local_id r) ids) as [Hin|Hout].
  - assert (forall r0, local_id r0 = local_id r ->
              sync_status (synced_row (S n) ids r0) = synced /\
              sync_error (synced_row (S n) ids r0) = None /\
              exists k, (n <= k < n + S (length ids))%nat /\
                synced_at (synced_row (S n) ids r0) = Js.orNullZ (Some (Date_now k)))
      as Hr.
    { intros r0 E. destruct (IH (S n) r0) as (H1 & H2 & k & Hk & H3).
      - now rewrite E.
      - repeat split; auto. exists k. split; [lia|assumption]. }
    destruct (String.eqb (local_id r) l); apply Hr; reflexivity.
  - destruct H as [E|H]; [|contradiction]. subst l.
    rewrite String.eqb_refl, synced_row_absent by exact Hout.
    cbn. repeat split. exists n. split; [lia|reflexivity].
Qed.

Lemma failed_row_absent fs : forall r,
  ~ In (local_id r) (map f_localId fs) -> failed_row fs r = r.
Proof.
  unfold failed_row.
  induction fs as [|f fs IH]; intros r H; cbn [fold_left].
  - reflexivity.
  - destruct (String.eqb_spec (local_id r) (f_localId f)) as [E|_].
    + exfalso. apply H. left. now symmetry.
    + apply IH. intros Hin. apply H. now right.
Qed.

Lemma failed_row_same fs : forall r, same_event r (failed_row fs r).
Proof.
  unfold failed_row.
  induction fs as [|f fs IH]; intros r; cbn [fold_left].
  - apply same_event_refl.
  - destruct (String.eqb (local_id r) (f_localId f)).
    + eapply same_event_trans; [apply same_event_set_sync|apply IH].
    + apply IH.
Qed.

Lemma failed_row_present fs : forall r,
  In (local_id r) (map f_localId fs) ->
  sync_status (failed_row fs r) = failed /\
  synced_at (failed_row fs r) = None /\
  exists f, In f fs /\ f_localId f = local_id r /\
            sync_error (failed_row fs r) = Js.orNullS (Some (f_error f)).
Proof.
  induction fs as [|f fs IH]; intros r H; [destruct H|].
  change (failed_row (f :: fs) r) with
    (failed_row fs (if String.eqb (local_id r) (f_localId f)
                    then Sql.set_sync failed None (Js.orNullS (Some (f_error f))) r
                    else r)).
  destruct (in_dec string_dec (local_id r) (map f_localId fs)) as [Hin|Hout].
  - assert (forall r0, local_id r0 = local_id r ->
              sync_status (failed_row fs r0) = failed /\
              synced_at (failed_row fs r0) = None /\
              exists f0, In f0 (f :: fs) /\ f_localId f0 = local_id r /\
                sync_error (failed_row fs r0) = Js.orNullS (Some (f_error f0)))
      as Hr.
    { intros r0 E. destruct (IH r0) as (H1 & H2 & f0 & Hf & Hl & H3).
      - now rewrite E.
      - repeat split; auto. exists f0. repeat split; [now right|congruence|assumption]. }
    destruct (String.eqb (local_id r) (f_localId f)); apply Hr; reflexivity.
  - destruct H as [E|H]; [|contradiction].
    rewrite (proj2 (String.eqb_eq _ _) (eq_sym E)).
    rewrite failed_row_absent by exact Hout.
    cbn. repeat split. exists f. repeat split; [now left|assumption].
Qed.

Lemma resolve_row_same c r : same_event r (resolve_row c r).
Proof.
  unfold resolve_row. destruct (String.eqb (local_id r) (cf_localId c)).
  - apply same_event_set_sync.
  - apply same_event_refl.
Qed.

Lemma resolved_row_same cs : forall r, same_event r (resolved_row cs r).
Proof.
  unfold resolved_row.
  induction cs as [|c cs IH]; intros r; cbn [fold_left].
  - apply same_event_refl.
  - eapply same_event_trans; [apply resolve_row_same|apply IH].
Qed.

Lemma resolved_row_absent cs : forall r,
  ~ In (local_id r) (map cf_localId cs) -> resolved_row cs r = r.
Proof.
  unfold resolved_row.
  induction cs as [|c cs IH]; intros r H; cbn [fold_left].
  - reflexivity.
  - unfold resolve_row at 2.
    destruct (String.eqb_spec (local_id r) (cf_localId c)) as [E|_].
    + exfalso. apply H. left. now symmetry.
    + apply IH. intros Hin. apply H. now right.
Qed.

Lemma resolved_row_app cs1 cs2 r :
  resolved_row (cs1 ++ cs2) r = resolved_row cs2 (resolved_row cs1 r).
Proof. unfold resolved_row. apply fold_left_app. Qed.

(** The last directive that names an event decides. *)
Lemma resolved_row_last before c after r :
  ~ In (cf_localId c) (map cf_localId after) ->
  local_id r = cf_localId c ->
  resolved_row (before ++ c :: after) r =
  Sql.set_sync (fst (verdict c)) None (Js.orNullS (snd (verdict c)))
    (resolved_row before r).
Proof.
  intros Hafter E.
  rewrite resolved_row_app.
  change (resolved_row (c :: after) ?x) with (resolved_row after (resolve_row c x)).
  assert (local_id (resolved_row before r) = cf_localId c) as E'.
  { destruct (resolved_row_same before r) as (_ & -> & _). exact E. }
  unfold resolve_row. rewrite E', String.eqb_refl.
  apply resolved_row_absent. cbn. now rewrite E'.
Qed.

Lemma resolved_row_stands before c after r :
  ~ In (cf_localId c) (map cf_localId after) ->
  local_id r = cf_localId c ->
  stands_as c (resolved_row (before ++ c :: after) r).
Proof.
  intros Hafter E. rewrite resolved_row_last by assumption.
  unfold stands_as, annotation, verdict.
  destruct (resolution c), (conflictType c); repeat split.
Qed.

(** Among the directives that name an event there is a last one. *)
Lemma last_directive (l : string) (cs : list ConflictRecord) :
  In l (map cf_localId cs) ->
  exists before c after,
    cs = (before ++ c :: after)%list /\ cf_localId c = l /\
    ~ In l (map cf_localId after).
Proof.
  induction cs as [|c cs IH]; intros H; [destruct H|].
  destruct (in_dec string_dec l (map cf_localId cs)) as [Hin|Hout].
  - destruct (IH Hin) as (before & c0 & after & -> & E & Hafter).
    exists (c :: before), c0, after. repeat split; assumption.
  - destruct H as [H|H]; [|contradiction].
    exists [], c, cs. repeat split; assumption.
Qed.

(** The annotation tells the resolution and the conflict kind. *)
Lemma annotation_names_kind (c c' : ConflictRecord) :
  resolution c <> use_local ->
  annotation c' = annotation c ->
  resolution c' = resolution c /\ conflictType c' = conflictType c.
Proof.
  unfold annotation. intros Hres.
  destruct (resolution c), (conflictType c), (resolution c'), (conflictType c');
    intros H; try discriminate H; try (now elim Hres); split; reflexivity.
Qed.

Lemma same_event_localIds (f : checkins_row -> checkins_row) rows :
  (forall r, same_event r (f r)) -> localIds (map f rows) = localIds rows.
Proof.
  intros H. unfold localIds. rewrite map_map. apply map_ext.
  intros r. now destruct (H r) as (_ & -> & _).
Qed.

Lemma syncedLocalIds_In l sent fs :
  In l (syncedLocalIds sent fs) <->
  In l (map localId sent) /\ ~ In l (map f_localId fs).
Proof.
  unfold syncedLocalIds. rewrite !in_map_iff. split.
  - intros (c & <- & Hc). apply filter_In in Hc as [Hc Hf]. split; [eauto|].
    intros (f & Ef & Hin).
    apply negb_true_iff in Hf.
    assert (existsb (fun f0 => String.eqb (f_localId f0) (localId c)) fs = true)
      as Hex; [|congruence].
    apply existsb_exists. exists f. split; [assumption|]. now apply String.eqb_eq.
  - intros [(c & <- & Hc) Hf]. exists c. split; [reflexivity|].
    apply filter_In. split; [assumption|].
    apply negb_true_iff. apply not_true_iff_false. intros Hex.
    apply existsb_exists in Hex as (f & Hin & Ef). apply String.eqb_eq in Ef.
    apply Hf. exists f. auto.
Qed.

Lemma row_after_success_same n a data r :
  same_event r (row_after_success n a data r).
Proof.
  unfold row_after_success.
  eapply same_event_trans; [apply synced_row_same|].
  eapply same_event_trans; [apply failed_row_same|apply resolved_row_same].
Qed.

Lemma queueOf_In r rows :
  In r rows -> Sql.in_queue r = true -> In (mapCheckinRow r) (queueOf rows).
Proof.
  intros Hin Hq. unfold queueOf. apply in_map.
  apply order_by_timestamp_In. apply filter_In. auto.
Qed.

(* ================================================================ *)
(** ** The event store *)
(* ================================================================ *)

(** C2 (as amended). On an open database, [saveCheckin] of an event whose
    localId is already stored throws the UNIQUE-constraint error and
    leaves every table as it was; an event whose localId is new is
    appended as one row that carries the event's own [syncStatus] (and
    no other table changes). Every record the tracker builds for
    check-in, check-out and breaks carries [pending]. *)
Theorem saveCheckin_unique_or_appended (w : World) (t : Tables) (c : CheckinRecord) :
  db w = Some t ->
  (In (localId c) (localIds (checkins t)) ->
   exists w',
     saveCheckin c w =
     Throw (SqliteConstraint "UNIQUE constraint failed: checkins.local_id") w' /\
     db w' = db w) /\
  (~ In (localId c) (localIds (checkins t)) ->
   exists w' row,
     saveCheckin c w = Return tt w' /\
     db w' = Some (set_checkins (checkins t ++ [row]) (c_id row) t) /\
     local_id row = localId c /\
     sync_status row = syncStatus c /\
     mapCheckinRow row =
       {| id := Some (c_id row); localId := localId c; userId := userId c;
          userName := userName c; checkType := checkType c;
          timestamp := timestamp c; authMethod := authMethod c;
          nfcCardHash := Js.orNullS (nfcCardHash c);
          latitude := Js.orNullQ (latitude c);
          longitude := Js.orNullQ (longitude c);
          createdOffline := createdOffline c; syncStatus := syncStatus c;
          syncedAt := None; syncError := None |}) /\
  (forall uid uname kind auth card w0,
     exists rec w1,
       newRecord uid uname kind auth card w0 = Return rec w1 /\
       syncStatus rec = pending).
Proof.
  intros Hdb. open_db w Hdb. rewrite saveCheckin_run. repeat split.
  - intros Hin. apply local_id_taken_In in Hin. rewrite Hin. eauto.
  - intros Hout. apply local_id_taken_not_In in Hout. rewrite Hout.
    exists (Build_World (Some (Sql.insert_checkin (Date_now steps0) c t))
              svc0 posted0 retryTimers0 (S steps0)),
      (Sql.checkin_row
         (Sql.next_rowid (checkins_seq t) (map c_id (checkins t)))
         (Date_now steps0) c).
    split; [reflexivity|]. unfold mapCheckinRow. cbn.
    repeat split. now destruct (createdOffline c).
  - intros uid uname kind auth card [d s0 p0 r0 n0].
    rewrite newRecord_run. eauto.
Qed.

Lemma Forall2_map_r {A B} (P : A -> B -> Prop) (f : A -> B) l :
  (forall x, In x l -> P x (f x)) -> Forall2 P l (map f l).
Proof.
  induction l as [|x l IH]; cbn; intros H; constructor; auto.
Qed.

(** Every writer of [Database] other than [updateCheckinSyncStatus]
    leaves each stored event as it is, deletes it, or adds a new one. *)
Lemma call_keeps_rows c w :
  is_update c = false ->
  forall r', In r' (checkinsOf (final (call c w))) ->
             In r' (checkinsOf w) \/ ~ In (local_id r') (localIds (checkinsOf w)).
Proof.
  intros Hc r'. destruct w as [[t|] s p r n].
  - unfold checkinsOf at 2 3. cbn [db].
    destruct c; try discriminate Hc; cbn [call discard].
    + rewrite saveTerminalConfig_run. cbn. auto.
    + destruct (saveUser_run u t s p r n) as (m & k & ->). cbn. auto.
    + destruct (saveUsers_run us t s p r n) as (m & k & ->). cbn. auto.
    + unfold discard, bind at 1. rewrite getUserStatus_run.
      destruct (user_status t !! uid) as [row|]; [|cbn; auto].
      destruct (negb _); cbn; auto.
    + rewrite updateUserStatus_run. cbn. auto.
    + rewrite saveCheckin_run.
      destruct (Sql.local_id_taken (localId c) (checkins t)) eqn:Ht; cbn; auto.
      intros Hin. apply in_app_or in Hin as [Hin|[<-|[]]]; auto.
      right. cbn. now apply local_id_taken_not_In.
    + unfold discard, deleteOldSyncedCheckins, bind, guard, now, observe, query, exec, ret.
      cbn. intros Hin. apply filter_In in Hin. tauto.
    + unfold discard, bind at 1. rewrite logSyncStart_run. cbn. auto.
    + rewrite logSyncComplete_run. cbn. auto.
    + rewrite logSyncFailed_run. cbn. auto.
    + cbn. tauto.
  - assert (checkinsOf (final (call c (Build_World None s p r n))) = []) as ->;
      [|intros []].
    destruct c; try reflexivity.
    destruct us; reflexivity.
Qed.

(** C9 (as amended). On an open database [updateCheckinSyncStatus] never
    fails: for a localId that is not stored it returns and leaves the
    world as it was; for a stored one it rewrites sync_status, synced_at
    and sync_error of the rows with that localId and nothing else. No
    other writer of [Database] modifies a stored event: after any of them
    each row is an old row unchanged or a row of a new event. *)
Theorem updateCheckinSyncStatus_total (w : World) (t : Tables) (l : string)
    (st : SyncStatus) (a : option Z) (e : option string) :
  db w = Some t ->
  exists w' rows',
    updateCheckinSyncStatus l st a e w = Return tt w' /\
    w' = set_db (Some (set_checkins rows' (checkins_seq t) t)) w /\
    (~ In l (localIds (checkins t)) -> w' = w) /\
    Forall2
      (fun r r' =>
         same_event r r' /\
         (local_id r <> l -> r' = r) /\
         (local_id r = l ->
          sync_status r' = st /\ synced_at r' = Js.orNullZ a /\
          sync_error r' = Js.orNullS e))
      (checkins t) rows' /\
    (forall c w0 r',
       is_update c = false ->
       In r' (checkinsOf (final (call c w0))) ->
       In r' (checkinsOf w0) \/ ~ In (local_id r') (localIds (checkinsOf w0))).
Proof.
  intros Hdb. open_db w Hdb. rewrite updateCheckinSyncStatus_run.
  eexists _, _. split; [reflexivity|]. split; [reflexivity|]. split; [|split].
  - intros Hout. rewrite update_sync_absent by exact Hout.
    now rewrite set_checkins_same.
  - apply Forall2_map_r. intros r0 _.
    destruct (String.eqb_spec (local_id r0) l) as [E|E].
    + repeat split; intros; contradiction.
    + repeat split; intros; contradiction.
  - intros c w0 r' Hc. now apply call_keeps_rows.
Qed.

(* ================================================================ *)
(** ** The daily status *)
(* ================================================================ *)


(* ================================================================ *)
(** ** The attendance tracker *)
(* ================================================================ *)

Lemma checkIn_run uid uname auth card t s p r n :
  ~ In (localIdAt n) (localIds (checkins t)) ->
  checkIn uid uname auth card (Build_World (Some t) s p r n) =
  Return (recordAt n uid uname check_in auth card)
    (Build_World
       (Some (set_user_status
                (match user_status t !! uid with
                 | None =>
                     <[ uid := Sql.new_status_row
                                 {| up_isCheckedIn := Some true;
                                    up_isOnBreak := None;
                                    up_lastCheckIn := Some (Date_now (S (S n)));
                                    up_lastCheckOut := None;
                                    up_currentSessionStart := Some (Date_now (S (S n)));
                                    up_totalTodayMinutes := None |}
                                 (todayAt (5 + n)) ]> (user_status t)
                 | Some _ =>
                     alter (Sql.apply_updates
                              {| up_isCheckedIn := Some true;
                                 up_isOnBreak := None;
                                 up_lastCheckIn := Some (Date_now (S (S n)));
                                 up_lastCheckOut := None;
                                 up_currentSessionStart := Some (Date_now (S (S n)));
                                 up_totalTodayMinutes := None |}
                              (todayAt (5 + n))) uid (user_status t)
                 end)
                (Sql.insert_checkin (Date_now (4 + n))
                   (recordAt n uid uname check_in auth card) t)))
       s p r (6 + n)).
Proof.
  intros Hfresh. apply local_id_taken_not_In in Hfresh.
  unfold checkIn.
  rewrite (bind_Return _ _ _ _ _ (newRecord_run _ _ _ _ _ _ _ _ _ _)).
  fold (recordAt n uid uname check_in auth card).
  unfold bind at 1. rewrite saveCheckin_run.
  cbn [localId recordAt]. rewrite Hfresh.
  unfold bind at 1. rewrite updateUserStatus_run. reflexivity.
Qed.

Lemma checkOut_run uid uname auth card t s p r n :
  ~ In (localIdAt n) (localIds (checkins t)) ->
  exists t' k,
    checkOut uid uname auth card (Build_World (Some t) s p r n) =
    Return (recordAt n uid uname check_out auth card)
      (Build_World (Some t') s p r k) /\
    checkins t' =
      (checkins t ++
         [Sql.checkin_row (Sql.next_rowid (checkins_seq t) (map c_id (checkins t)))
            (Date_now (4 + n)) (recordAt n uid uname check_out auth card)])%list /\
    exists row',
      user_status t' !! uid = Some row' /\
      is_checked_in row' = 0 /\ is_on_break row' = 0.
Proof.
  intros Hfresh. apply local_id_taken_not_In in Hfresh.
  unfold checkOut.
  rewrite (bind_Return _ _ _ _ _ (newRecord_run _ _ _ _ _ _ _ _ _ _)).
  fold (recordAt n uid uname check_out auth card).
  unfold bind at 1. rewrite saveCheckin_run.
  cbn [localId recordAt]. rewrite Hfresh.
  unfold bind at 1. rewrite getUserStatus_run.
  tables. destruct (user_status t !! uid) as [row|] eqn:Hrow.
  - destruct (negb _).
    + unfold bind at 1. rewrite updateUserStatus_run.
      tables. rewrite lookup_alter_eq, Hrow.
      cbn [fmap option_fmap option_map].
      eexists _, _. split; [reflexivity|]. split; [reflexivity|].
      eexists. split; [tables; now rewrite !lookup_alter_eq, Hrow|].
      cbn. repeat split.
    + unfold bind at 1. rewrite updateUserStatus_run.
      tables. rewrite Hrow.
      eexists _, _. split; [reflexivity|]. split; [reflexivity|].
      eexists. split; [tables; now rewrite lookup_alter_eq, Hrow|].
      cbn. repeat split.
  - unfold bind at 1. rewrite updateUserStatus_run.
    tables. rewrite Hrow.
    eexists _, _. split; [reflexivity|]. split; [reflexivity|].
    eexists. split; [tables; now rewrite lookup_insert_eq|].
    cbn. repeat split.
Qed.

(** C10. [checkIn] called directly on a user whose status row is dated
    before today writes the row without reading it first: the row is
    re-dated to today, is_checked_in becomes 1, and total_today_minutes
    stays what it was. When [getUserStatus] runs first, the same
    [checkIn] finds the row reset and the total is 0. *)
Theorem checkIn_carries_minutes (w : World) (t : Tables) (uid : Z)
    (uname : string) (auth : AuthMethod) (card : option string)
    (row : user_status_row) (m : Z) :
  db w = Some t ->
  user_status t !! uid = Some row ->
  total_today_minutes row = m ->
  today_date row <> todayAt (5 + steps w) ->
  ~ In (localIdAt (steps w)) (localIds (checkins t)) ->
  (exists rec w' row',
     checkIn uid uname auth card w = Return rec w' /\
     statusRowOf w' uid = Some row' /\
     today_date row' = todayAt (5 + steps w) /\
     is_checked_in row' = 1 /\
     total_today_minutes row' = m) /\
  (today_date row <> todayAt (steps w) ->
   ~ In (localIdAt (S (steps w))) (localIds (checkins t)) ->
   exists st w1 rec w2 row2,
     getUserStatus uid w = Return st w1 /\
     checkIn uid uname auth card w1 = Return rec w2 /\
     statusRowOf w2 uid = Some row2 /\
     is_checked_in row2 = 1 /\
     total_today_minutes row2 = 0).
Proof.
  intros Hdb Hrow Hm Hdate Hfresh. open_db w Hdb. split.
  - rewrite checkIn_run by exact Hfresh. rewrite Hrow.
    eexists _, _, _. split; [reflexivity|].
    unfold statusRowOf. cbn [db mbind option_bind]. tables.
    rewrite lookup_alter_eq, Hrow.
    cbn. auto.
  - intros Hstale Hfresh1.
    rewrite getUserStatus_run, Hrow.
    apply String.eqb_neq in Hstale. rewrite Hstale. cbn [negb].
    eexists _, _, _, _, _. split; [reflexivity|].
    rewrite checkIn_run by exact Hfresh1.
    tables. rewrite lookup_alter_eq, Hrow.
    cbn [fmap option_fmap option_map].
    split; [reflexivity|].
    unfold statusRowOf. cbn [db mbind option_bind]. tables.
    rewrite !lookup_alter_eq, Hrow. cbn. auto.
Qed.

Lemma checkIn_effect uid uname auth card t s p r n :
  ~ In (localIdAt n) (localIds (checkins t)) ->
  exists t' k,
    checkIn uid uname auth card (Build_World (Some t) s p r n) =
    Return (recordAt n uid uname check_in auth card)
      (Build_World (Some t') s p r k) /\
    checkins t' =
      (checkins t ++
         [Sql.checkin_row (Sql.next_rowid (checkins_seq t) (map c_id (checkins t)))
            (Date_now (4 + n)) (recordAt n uid uname check_in auth card)])%list /\
    exists row', user_status t' !! uid = Some row' /\ is_checked_in row' = 1.
Proof.
  intros Hfresh. rewrite checkIn_run by exact Hfresh.
  eexists _, _. split; [reflexivity|]. split; [reflexivity|]. tables.
  destruct (user_status t !! uid) as [row|] eqn:Hrow.
  - eexists. rewrite lookup_alter_eq, Hrow. split; [reflexivity|]. reflexivity.
  - eexists. rewrite lookup_insert_eq. split; [reflexivity|]. reflexivity.
Qed.

Lemma toggleCheckin_after_read uid uname auth card w st w1 :
  getUserStatus uid w = Return st w1 ->
  toggleCheckin uid uname auth card w =
  if match st with
     | Some s => isCheckedIn s
     | None => false
     end
  then tagged check_out (checkOut uid uname auth card w1)
  else tagged check_in (checkIn uid uname auth card w1).
Proof.
  intros H. unfold toggleCheckin. rewrite (bind_Return _ _ _ _ _ H).
  destruct (match st with Some s => isCheckedIn s | None => false end);
    reflexivity.
Qed.

(** The status read of [toggleCheckin]: what it finds, and that it leaves
    the events alone. *)
Lemma toggle_read uid t s p r n :
  exists st t1,
    getUserStatus uid (Build_World (Some t) s p r n) =
    Return st (Build_World (Some t1) s p r (S n)) /\
    match st with
    | Some u => isCheckedIn u
    | None => false
    end = foundCheckedIn t uid (todayAt n) /\
    checkins t1 = checkins t /\ checkins_seq t1 = checkins_seq t.
Proof.
  rewrite getUserStatus_run. unfold foundCheckedIn.
  destruct (user_status t !! uid) as [row|].
  - destruct (String.eqb (today_date row) (todayAt n)); cbn [negb andb];
      eexists _, _; (split; [reflexivity|]); repeat split.
  - eexists _, _. split; [reflexivity|]. repeat split.
Qed.

(** C8. [toggleCheckin] first reads the status with the rollover applied.
    When that read finds the user checked in (a row of today with
    is_checked_in = 1, whatever is_on_break holds) it runs [checkOut] and
    answers [check_out]; in every other case (no row, a row of another
    day, is_checked_in not 1) it runs [checkIn] and answers [check_in].
    When the generated localId is new to the store the call returns: the
    event is stored as pending, and the status row ends with
    is_checked_in = 0 and is_on_break = 0 after a check-out, with
    is_checked_in = 1 after a check-in. *)
Theorem toggleCheckin_decides (w : World) (t : Tables) (uid : Z)
    (uname : string) (auth : AuthMethod) (card : option string) :
  db w = Some t ->
  exists st w1,
    getUserStatus uid w = Return st w1 /\
    match st with
    | Some s => isCheckedIn s
    | None => false
    end = foundCheckedIn t uid (todayAt (steps w)) /\
    toggleCheckin uid uname auth card w =
      (if foundCheckedIn t uid (todayAt (steps w))
       then tagged check_out (checkOut uid uname auth card w1)
       else tagged check_in (checkIn uid uname auth card w1)) /\
    (~ In (localIdAt (S (steps w))) (localIds (checkins t)) ->
     exists rec w' row',
       toggleCheckin uid uname auth card w =
         Return (if foundCheckedIn t uid (todayAt (steps w))
                 then check_out else check_in, rec) w' /\
       checkType rec =
         (if foundCheckedIn t uid (todayAt (steps w))
          then check_out else check_in) /\
       syncStatus rec = pending /\
       In (localId rec) (localIds (checkinsOf w')) /\
       statusRowOf w' uid = Some row' /\
       is_checked_in row' =
         (if foundCheckedIn t uid (todayAt (steps w)) then 0 else 1) /\
       (foundCheckedIn t uid (todayAt (steps w)) = true -> is_on_break row' = 0)).
Proof.
  intros Hdb. open_db w Hdb.
  destruct (toggle_read uid t svc0 posted0 retryTimers0 steps0)
    as (st & t1 & Hst & Hfound & Hrows & _).
  pose proof (toggleCheckin_after_read uid uname auth card _ _ _ Hst) as Htoggle.
  rewrite Hfound in Htoggle.
  eexists _, _. split; [exact Hst|]. split; [exact Hfound|].
  split; [exact Htoggle|].
  intros Hfresh. rewrite <- Hrows in Hfresh. rewrite Htoggle.
  destruct (foundCheckedIn t uid (todayAt steps0)).
  - destruct (checkOut_run uid uname auth card t1 svc0 posted0 retryTimers0
                (S steps0) Hfresh)
      as (t' & k & E & Hrows' & row' & Hr & H0 & H1).
    rewrite E. eexists _, _, row'. split; [reflexivity|].
    repeat split; auto.
    unfold checkinsOf, localIds. cbn [db]. rewrite Hrows', map_app.
    apply in_or_app. right. now left.
  - destruct (checkIn_effect uid uname auth card t1 svc0 posted0 retryTimers0
                (S steps0) Hfresh)
      as (t' & k & E & Hrows' & row' & Hr & H1).
    rewrite E. eexists _, _, row'. split; [reflexivity|].
    repeat split; auto; try discriminate.
    unfold checkinsOf, localIds. cbn [db]. rewrite Hrows', map_app.
    apply in_or_app. right. now left.
Qed.

(* ================================================================ *)
(** ** The sync engine *)
(* ================================================================ *)

Lemma next_rowid_fresh seq ids i : In i ids -> i < Sql.next_rowid seq ids.
Proof.
  unfold Sql.next_rowid. induction ids as [|j ids IH]; cbn; intros H.
  - destruct H.
  - destruct H as [->|H]; [lia|]. specialize (IH H). lia.
Qed.

Lemma update_log_In f log rows row :
  In row (Sql.update_log f log rows) ->
  (exists r, In r rows /\ sl_id r = log /\ row = f r) \/
  (In row rows /\ sl_id row <> log).
Proof.
  unfold Sql.update_log. rewrite in_map_iff. intros (r & E & Hin).
  destruct (Z.eqb_spec (sl_id r) log) as [Hid|Hid]; subst row; eauto.
Qed.

Lemma idle_open w :
  Idle w ->
  exists ax c,
    api (svc w) = Some ax /\ config (svc w) = Some c /\
    isSyncing (svc w) = false.
Proof.
  intros ([ax Ha] & [c Hc] & Hs). eauto.
Qed.




(** [forceSync] resets the retry counter before it reaches the guard: while
    an attempt is in progress it still opens no log row and posts nothing,
    and the counter is all it changes. *)
Lemma forceSync_locked w :
  isSyncing (svc w) = true ->
  forceSync w = Return (Resolved None) (set_svc (set_retryCount 0 (svc w)) w).
Proof.
  intros H. unfold forceSync, syncFull.
  rewrite (bind_Return _ _ _ _ _ (eq_refl : update_svc _ w = Return tt _)).
  now apply performSync_locked.
Qed.

(** C3. When the gateway call of an attempt settles without a response,
    the attempt returns [null]; every checkins row, the stored checkpoint
    and the checkpoint held by the engine are what they were before the
    attempt; the sync_log row opened for the attempt is closed with status
    'failed' and the error's message; the engine is offline and
    unlocked. The events and the checkpoints are equally untouched when
    the rejection reaches any world with a posted attempt, whatever ran
    since the trigger, and every log row with the attempt's id is then
    'failed'. *)
Theorem transport_failure_touches_nothing (w : World) (t : Tables)
    (ty : SyncType) (msg : string) :
  db w = Some t ->
  Idle w ->
  exists w1 a w2 row,
    performSync ty w = Return AwaitingGateway w1 /\
    InFlight w1 a /\
    performSync_response (Rejected msg false) w1 = Return None w2 /\
    checkinsOf w2 = checkins t /\
    storedCheckpoint w2 = storedCheckpoint w /\
    heldCheckpoint w2 = heldCheckpoint w /\
    ~ In (logId a) (map sl_id (sync_log t)) /\
    In row (syncLogOf w2) /\
    sl_id row = logId a /\
    (forall row', In row' (syncLogOf w2) -> sl_id row' = logId a -> row' = row) /\
    sl_status row = log_failed /\
    error_message row = Some msg /\
    is_Some (completed_at row) /\
    isOnline (svc w2) = false /\
    isSyncing (svc w2) = false /\
    posted w2 = None /\
    (forall (v : World) (tv : Tables) (b : Attempt),
       db v = Some tv -> posted v = Some b ->
       exists v2,
         performSync_response (Rejected msg false) v = Return None v2 /\
         checkinsOf v2 = checkins tv /\
         storedCheckpoint v2 = storedCheckpoint v /\
         heldCheckpoint v2 = heldCheckpoint v /\
         forall row',
           In row' (syncLogOf v2) -> sl_id row' = logId b ->
           sl_status row' = log_failed /\ error_message row' = Some msg).
Proof.
  intros Hdb Hidle. destruct (idle_open w Hidle) as (ax & c & Ha & Hc & Hs).
  assert (forall (v : World) (tv : Tables) (b : Attempt),
            db v = Some tv -> posted v = Some b ->
            exists v2,
              performSync_response (Rejected msg false) v = Return None v2 /\
              checkinsOf v2 = checkins tv /\
              storedCheckpoint v2 = storedCheckpoint v /\
              heldCheckpoint v2 = heldCheckpoint v /\
              forall row',
                In row' (syncLogOf v2) -> sl_id row' = logId b ->
                sl_status row' = log_failed /\ error_message row' = Some msg)
    as Hany.
  { intros v tv b Hv Hb. open_db v Hv.
    destruct (performSync_response_failure b (Rejected msg false) tv svc0
                retryTimers0 steps0 I)
      as (s' & r' & m & E & Hcfg & _ & -> & _).
    eexists. split; [exact E|].
    unfold checkinsOf, storedCheckpoint, heldCheckpoint, syncLogOf.
    cbn [db svc mbind option_bind]. tables. rewrite Hcfg.
    repeat split; apply update_log_In in H as [(r0 & _ & _ & ->)|[_ Hne]];
      try contradiction; reflexivity. }
  open_db w Hdb.
  rewrite (performSync_idle ty ax c) by assumption.
  match goal with
  | |- context [Build_World (Some ?t1) ?s1 (Some ?a) ?r1 ?n1] =>
      destruct (performSync_response_failure a (Rejected msg false) t1 s1 r1 n1 I)
        as (s' & r' & m & E & Hcfg & Hlock & -> & Hon)
  end.
  eexists _, _, _, _. split; [reflexivity|].
  split; [split; reflexivity|].
  split; [exact E|].
  unfold checkinsOf, storedCheckpoint, heldCheckpoint, syncLogOf.
  cbn [db svc posted mbind option_bind]. tables.
  cbn [Sql.insert_sync_log fst snd logId]. tables.
  rewrite Hcfg. cbn [config set_isSyncing].
  split; [reflexivity|]. split; [reflexivity|]. split; [reflexivity|].
  assert (forall i, In i (map sl_id (sync_log t)) ->
            i <> Sql.next_rowid (sync_log_seq t) (map sl_id (sync_log t)))
    as Hfresh.
  { intros i Hi. apply (next_rowid_fresh (sync_log_seq t)) in Hi. lia. }
  split; [intros Hin; now apply (Hfresh _ Hin)|].
  unfold Sql.update_log at 1. rewrite map_app. cbn [map sl_id].
  rewrite Z.eqb_refl.
  split; [apply in_or_app; right; now left|].
  split; [reflexivity|].
  split.
  { intros row' Hin Hid.
    apply update_log_In in Hin as [(r0 & Hin & Hr0 & ->)|[_ Hne]]; [|contradiction].
    apply in_app_or in Hin as [Hin|[<-|[]]]; [|reflexivity].
    exfalso. apply (Hfresh (sl_id r0)); [now apply in_map|exact Hr0]. }
  cbn. repeat split; eauto.
Qed.

(** C6. [handleConflicts] always returns, and never removes or adds an
    event: the rows after it are the rows before it, changed at most in
    sync_status, synced_at and sync_error. Once a directive has been
    handled, the event it names stands as follows: use_local has made it
    pending with no annotation, so a queue read returns it; use_server has
    made it conflict with the annotation "Resolved: duplicate", "Resolved:
    time_mismatch" or "Resolved: user_mismatch", by the directive's
    conflict kind; manual has made it conflict with "Manual resolution
    required: duplicate", "Manual resolution required: time_mismatch" or
    "Manual resolution required: user_mismatch". It still stands so at the
    end of the list unless a later directive names the same event. The
    annotation names the kind: a directive whose annotation is that of a
    use_server or manual directive has the same resolution and the same
    conflict kind. *)
Theorem handleConflicts_resolution (w : World) (t : Tables)
    (before after : list ConflictRecord) (c : ConflictRecord) :
  db w = Some t ->
  exists w1 w',
    handleConflicts (before ++ [c]) w = Return tt w1 /\
    handleConflicts after w1 = Return tt w' /\
    handleConflicts (before ++ c :: after) w = Return tt w' /\
    Forall2 same_event (checkins t) (checkinsOf w1) /\
    Forall2 same_event (checkins t) (checkinsOf w') /\
    localIds (checkinsOf w1) = localIds (checkins t) /\
    localIds (checkinsOf w') = localIds (checkins t) /\
    (forall r',
       In r' (checkinsOf w1) -> local_id r' = cf_localId c ->
       resolved_as c w1 r') /\
    (~ In (cf_localId c) (map cf_localId after) ->
     forall r',
       In r' (checkinsOf w') -> local_id r' = cf_localId c ->
       resolved_as c w' r') /\
    (resolution c <> use_local ->
     forall c',
       annotation c' = annotation c ->
       resolution c' = resolution c /\ conflictType c' = conflictType c).
Proof.
  intros Hdb. open_db w Hdb.
  assert (forall cs1 cs2 r',
            ~ In (cf_localId c) (map cf_localId cs2) ->
            In r' (map (resolved_row (cs1 ++ c :: cs2)) (checkins t)) ->
            local_id r' = cf_localId c ->
            forall s p r n seq,
              resolved_as c
                (Build_World
                   (Some (set_checkins
                            (map (resolved_row (cs1 ++ c :: cs2)) (checkins t))
                            seq t)) s p r n) r') as Hres.
  { intros cs1 cs2 r' Hafter Hin Hid s p r n seq. pose proof Hin as Hin'.
    apply in_map_iff in Hin as (r0 & <- & Hin0).
    assert (local_id r0 = cf_localId c) as Hid0.
    { destruct (resolved_row_same (cs1 ++ c :: cs2) r0) as (_ & <- & _).
      exact Hid. }
    pose proof (resolved_row_stands cs1 c cs2 r0 Hafter Hid0) as Hst.
    split; [exact Hst|]. intros Hloc.
    rewrite getPendingCheckins_run. eexists _, _. split; [reflexivity|].
    tables. apply queueOf_In; [exact Hin'|].
    destruct Hst as (Hst & _). unfold Sql.in_queue.
    rewrite Hst, Hloc. reflexivity. }
  exists (Build_World
            (Some (set_checkins (map (resolved_row (before ++ [c])) (checkins t))
                     (checkins_seq t) t))
            svc0 posted0 retryTimers0 steps0),
    (Build_World
       (Some (set_checkins (map (resolved_row (before ++ c :: after)) (checkins t))
                (checkins_seq t) t))
       svc0 posted0 retryTimers0 steps0).
  rewrite !handleConflicts_run. split; [reflexivity|].
  split.
  { tables. rewrite map_map.
    replace (map (fun x => resolved_row after (resolved_row (before ++ [c]) x))
               (checkins t))
      with (map (resolved_row (before ++ c :: after)) (checkins t));
      [reflexivity|].
    apply map_ext. intros r0.
    change (before ++ c :: after)%list with (before ++ [c] ++ after)%list.
    now rewrite app_assoc, resolved_row_app. }
  split; [reflexivity|].
  unfold checkinsOf. cbn [db]. tables.
  split; [apply Forall2_map_r; intros; apply resolved_row_same|].
  split; [apply Forall2_map_r; intros; apply resolved_row_same|].
  split; [apply same_event_localIds, resolved_row_same|].
  split; [apply same_event_localIds, resolved_row_same|].
  split; [intros r' Hin Hid; apply (Hres before []); auto|].
  split; [intros Hafter r' Hin Hid; now apply Hres|].
  intros Hres' c'. now apply annotation_names_kind.
Qed.

Lemma resolved_row_present cs : forall r,
  In (local_id r) (map cf_localId cs) ->
  sync_status (resolved_row cs r) = pending \/
  sync_status (resolved_row cs r) = conflict.
Proof.
  induction cs as [|c cs IH]; intros r H; [destruct H|].
  change (resolved_row (c :: cs) r) with (resolved_row cs (resolve_row c r)).
  assert (local_id (resolve_row c r) = local_id r) as E.
  { now destruct (resolve_row_same c r) as (_ & -> & _). }
  destruct (in_dec string_dec (local_id r) (map cf_localId cs)) as [Hin|Hout].
  - apply IH. now rewrite E.
  - destruct H as [H|H]; [|contradiction].
    rewrite resolved_row_absent by now rewrite E.
    unfold resolve_row. rewrite <- H, String.eqb_refl.
    unfold verdict. destruct (resolution c); cbn; auto.
Qed.

(** C1 (as amended). An attempt in flight always settles. When the
    response reports success with serverTimestamp [ts], the checkpoint
    becomes [ts] itself, in the engine and in terminal_config (where 0 is
    stored as NULL), whatever it was before; so it does not decrease when
    [ts] is at least the old checkpoint. When the call is rejected or the
    response reports success = false, both checkpoints stay as they
    were. *)
Theorem checkpoint_follows_response (w : World) (t : Tables) (a : Attempt)
    (c : TerminalConfig) (g : GatewayResult) :
  db w = Some t ->
  InFlight w a ->
  config (svc w) = Some c ->
  exists res w',
    performSync_response g w = Return res w' /\
    match g with
    | Fulfilled data =>
        if success data
        then res = Some data /\
             storedCheckpoint w' = Js.orNullZ (Some (serverTimestamp data)) /\
             heldCheckpoint w' = Some (serverTimestamp data) /\
             (forall old,
                storedCheckpoint w = Some old ->
                old <= serverTimestamp data -> serverTimestamp data <> 0 ->
                exists new, storedCheckpoint w' = Some new /\ old <= new)
        else res = None /\
             storedCheckpoint w' = storedCheckpoint w /\
             heldCheckpoint w' = heldCheckpoint w
    | Rejected _ _ =>
        res = None /\
        storedCheckpoint w' = storedCheckpoint w /\
        heldCheckpoint w' = heldCheckpoint w
    end.
Proof.
  intros Hdb [Hp Hs] Hc. open_db w Hdb.
  assert (forall g0,
            match g0 with
            | Fulfilled data => success data = false
            | Rejected _ _ => True
            end ->
            exists w',
              performSync_response g0
                (Build_World (Some t) svc0 (Some a) retryTimers0 steps0) =
              Return None w' /\
              storedCheckpoint w' =
                storedCheckpoint
                  (Build_World (Some t) svc0 (Some a) retryTimers0 steps0) /\
              heldCheckpoint w' =
                heldCheckpoint
                  (Build_World (Some t) svc0 (Some a) retryTimers0 steps0))
    as Hfail.
  { intros g0 Hg0.
    destruct (performSync_response_failure a g0 t svc0 retryTimers0 steps0 Hg0)
      as (s' & r' & m & E & Hcfg & _).
    eexists. split; [exact E|].
    unfold storedCheckpoint, heldCheckpoint. cbn [db svc mbind option_bind].
    tables. now rewrite Hcfg. }
  destruct g as [data|m hasResponse].
  - destruct (success data) eqn:Hok.
    + destruct (performSync_response_success a data c t svc0 retryTimers0 steps0
                  Hc Hs Hok)
        as (t' & s' & c' & k & tc & E & _ & _ & _ & Hrow & Hcfg & Hts & _).
      eexists _, _. split; [exact E|]. split; [reflexivity|].
      unfold storedCheckpoint, heldCheckpoint. cbn [db svc mbind option_bind].
      rewrite Hrow, Hcfg. cbn [mbind option_bind last_sync_at config_row].
      rewrite Hts. repeat split.
      intros old _ Hle Hnz. exists (serverTimestamp data). split; [|exact Hle].
      unfold Js.orNullZ, Js.truthyZ.
      destruct (Z.eqb_spec (serverTimestamp data) 0); [contradiction|reflexivity].
    + destruct (Hfail (Fulfilled data) Hok) as (w' & E & H1 & H2). eauto 10.
  - destruct (Hfail (Rejected m hasResponse) I) as (w' & E & H1 & H2). eauto 10.
Qed.

(** C4 (as amended). When the response to an attempt in flight reports
    success, the attempt returns it, the checkpoint becomes the response's
    serverTimestamp (held by the engine; stored with 0 as NULL), and each
    stored event keeps its identity and data. An event that no conflict
    directive of the response names ends as follows: sent and not listed
    in failedRecords, it is synced with no error, and synced_at is a
    reading of the terminal's clock (0 stored as NULL) taken while
    marking, that is one of the readings the marking loop takes, one per
    acknowledged event, starting when the response arrives; listed in
    failedRecords, it is failed with the error of an entry that names it;
    neither sent nor listed, it is left as it was. An event named by a
    directive ends as the last directive naming it says: synced_at is
    NULL, and use_local leaves it pending with no error, use_server and
    manual leave it conflict with the annotation of that directive. *)
Theorem success_marks_batch (w : World) (t : Tables) (a : Attempt)
    (c : TerminalConfig) (data : SyncResponse) :
  db w = Some t ->
  InFlight w a ->
  config (svc w) = Some c ->
  success data = true ->
  exists w',
    performSync_response (Fulfilled data) w = Return (Some data) w' /\
    heldCheckpoint w' = Some (serverTimestamp data) /\
    storedCheckpoint w' = Js.orNullZ (Some (serverTimestamp data)) /\
    Forall2
      (fun r r' =>
         same_event r r' /\
         (~ In (local_id r) (map cf_localId (directives data)) ->
          (In (local_id r) (map localId (pendingCheckins a)) ->
           ~ In (local_id r) (map f_localId (failedRecords data)) ->
           sync_status r' = synced /\ sync_error r' = None /\
           exists k,
             (steps w <= k <
              steps w +
              length (syncedLocalIds (pendingCheckins a) (failedRecords data)))%nat /\
             synced_at r' = Js.orNullZ (Some (Date_now k))) /\
          (In (local_id r) (map f_localId (failedRecords data)) ->
           sync_status r' = failed /\ synced_at r' = None /\
           exists f,
             In f (failedRecords data) /\ f_localId f = local_id r /\
             sync_error r' = Js.orNullS (Some (f_error f))) /\
          (~ In (local_id r) (map localId (pendingCheckins a)) ->
           ~ In (local_id r) (map f_localId (failedRecords data)) ->
           r' = r)) /\
         (In (local_id r) (map cf_localId (directives data)) ->
          exists before c' after,
            directives data = (before ++ c' :: after)%list /\
            cf_localId c' = local_id r /\
            ~ In (local_id r) (map cf_localId after) /\
            stands_as c' r'))
      (checkins t) (checkinsOf w').
Proof.
  intros Hdb [Hp Hs] Hc Hok. open_db w Hdb.
  destruct (performSync_response_success a data c t svc0 retryTimers0 steps0
              Hc Hs Hok)
    as (t' & s' & c' & k & tc & E & Hrows & _ & _ & Hrow & Hcfg & Hts & _).
  eexists. split; [exact E|].
  unfold storedCheckpoint, heldCheckpoint, checkinsOf.
  cbn [db svc mbind option_bind].
  rewrite Hrow, Hcfg, Hrows. cbn [mbind option_bind last_sync_at config_row].
  rewrite Hts. split; [reflexivity|]. split; [reflexivity|].
  apply Forall2_map_r. intros r _.
  split; [apply row_after_success_same|].
  unfold row_after_success.
  set (ids := syncedLocalIds (pendingCheckins a) (failedRecords data)).
  assert (local_id (synced_row steps0 ids r) = local_id r) as E1.
  { now destruct (synced_row_same ids steps0 r) as (_ & -> & _). }
  assert (local_id (failed_row (failedRecords data) (synced_row steps0 ids r)) =
          local_id r) as E2.
  { destruct (failed_row_same (failedRecords data) (synced_row steps0 ids r))
      as (_ & -> & _). exact E1. }
  split.
  - intros Hnc. rewrite resolved_row_absent by now rewrite E2.
    split; [|split].
    + intros Hsent Hnf. rewrite failed_row_absent by now rewrite E1.
      destruct (synced_row_present ids steps0 r) as (H1 & H2 & k0 & Hk0 & H3).
      { apply syncedLocalIds_In. now split. }
      split; [exact H1|]. split; [exact H2|]. exists k0.
      split; [exact Hk0|exact H3].
    + intros Hf.
      destruct (failed_row_present (failedRecords data) (synced_row steps0 ids r))
        as (H1 & H2 & f & Hin & Hl & H3).
      { now rewrite E1. }
      repeat split; auto. exists f. repeat split; auto. congruence.
    + intros Hns Hnf. rewrite failed_row_absent by now rewrite E1.
      apply synced_row_absent. intros Hin.
      apply syncedLocalIds_In in Hin. tauto.
  - intros Hin.
    destruct (last_directive _ _ Hin) as (before & c0 & after & Hd & Hc0 & Hafter).
    exists before, c0, after. split; [exact Hd|]. split; [exact Hc0|].
    split; [exact Hafter|]. rewrite Hd.
    apply resolved_row_stands; [now rewrite Hc0|now rewrite E2].
Qed.

(* ================================================================ *)
(** ** Reading the event store *)
(* ================================================================ *)

Lemma insert_by_timestamp_Permutation r l :
  Permutation (Sql.insert_by_timestamp r l) (r :: l).
Proof.
  induction l as [|x l IH]; cbn; [reflexivity|].
  destruct (c_timestamp r <=? c_timestamp x); [reflexivity|].
  rewrite IH. apply perm_swap.
Qed.

Lemma order_by_timestamp_Permutation l :
  Permutation (Sql.order_by_timestamp l) l.
Proof.
  unfold Sql.order_by_timestamp. induction l as [|x l IH]; cbn; [reflexivity|].
  rewrite insert_by_timestamp_Permutation. now constructor.
Qed.

Lemma insert_by_timestamp_sorted r l :
  StronglySorted (fun a b => c_timestamp a <= c_timestamp b) l ->
  StronglySorted (fun a b => c_timestamp a <= c_timestamp b)
    (Sql.insert_by_timestamp r l).
Proof.
  induction 1 as [|x l Hl IH Hx]; cbn.
  - repeat constructor.
  - destruct (Z.leb_spec (c_timestamp r) (c_timestamp x)) as [Hle|Hgt].
    + constructor; [now constructor|]. constructor; [exact Hle|].
      rewrite List.Forall_forall in Hx |- *. intros y Hy.
      specialize (Hx y Hy). cbn in Hx. lia.
    + constructor; [exact IH|].
      apply List.Forall_forall. intros y Hy.
      apply insert_by_timestamp_In in Hy as [->|Hy]; [lia|].
      rewrite List.Forall_forall in Hx. auto.
Qed.

Lemma order_by_timestamp_sorted l :
  StronglySorted (fun a b => c_timestamp a <= c_timestamp b)
    (Sql.order_by_timestamp l).
Proof.
  unfold Sql.order_by_timestamp. induction l as [|x l IH]; cbn.
  - constructor.
  - now apply insert_by_timestamp_sorted.
Qed.

Lemma insert_by_timestamp_desc_In x r l :
  In x (Sql.insert_by_timestamp_desc r l) <-> x = r \/ In x l.
Proof.
  induction l as [|y l IH]; cbn.
  - intuition.
  - destruct (c_timestamp y <=? c_timestamp r); cbn; rewrite ?IH; intuition.
Qed.

Lemma insert_by_timestamp_desc_Permutation r l :
  Permutation (Sql.insert_by_timestamp_desc r l) (r :: l).
Proof.
  induction l as [|x l IH]; cbn; [reflexivity|].
  destruct (c_timestamp x <=? c_timestamp r); [reflexivity|].
  rewrite IH. apply perm_swap.
Qed.

Lemma order_by_timestamp_desc_Permutation l :
  Permutation (Sql.order_by_timestamp_desc l) l.
Proof.
  unfold Sql.order_by_timestamp_desc.
  induction l as [|x l IH]; cbn; [reflexivity|].
  rewrite insert_by_timestamp_desc_Permutation. now constructor.
Qed.

Lemma insert_by_timestamp_desc_sorted r l :
  StronglySorted (fun a b => c_timestamp b <= c_timestamp a) l ->
  StronglySorted (fun a b => c_timestamp b <= c_timestamp a)
    (Sql.insert_by_timestamp_desc r l).
Proof.
  induction 1 as [|x l Hl IH Hx]; cbn.
  - repeat constructor.
  - destruct (Z.leb_spec (c_timestamp x) (c_timestamp r)) as [Hle|Hgt].
    + constructor; [now constructor|]. constructor; [exact Hle|].
      rewrite List.Forall_forall in Hx |- *. intros y Hy.
      specialize (Hx y Hy). cbn in Hx. lia.
    + constructor; [exact IH|].
      apply List.Forall_forall. intros y Hy.
      apply insert_by_timestamp_desc_In in Hy as [->|Hy]; [lia|].
      rewrite List.Forall_forall in Hx. auto.
Qed.

Lemma order_by_timestamp_desc_sorted l :
  StronglySorted (fun a b => c_timestamp b <= c_timestamp a)
    (Sql.order_by_timestamp_desc l).
Proof.
  unfold Sql.order_by_timestamp_desc. induction l as [|x l IH]; cbn.
  - constructor.
  - now apply insert_by_timestamp_desc_sorted.
Qed.

Lemma StronglySorted_map {A B} (R : B -> B -> Prop) (f : A -> B) l :
  StronglySorted (fun a b => R (f a) (f b)) l -> StronglySorted R (map f l).
Proof.
  induction 1 as [|x l Hl IH Hx]; cbn; constructor; auto.
  rewrite List.Forall_forall in *. intros y Hy.
  apply in_map_iff in Hy as (z & <- & Hz). auto.
Qed.

(** X1. On an open database [getPendingCheckins] changes nothing and
    returns the stored events whose sync_status is 'pending' or 'failed',
    each exactly once and no other, ordered by timestamp with the oldest
    first. *)
Theorem getPendingCheckins_oldest_first (w : World) (t : Tables) :
  db w = Some t ->
  exists queue,
    getPendingCheckins w = Return queue w /\
    Permutation queue
      (map mapCheckinRow (List.filter Sql.in_queue (checkins t))) /\
    StronglySorted (fun a b => timestamp a <= timestamp b) queue /\
    (forall c, In c queue -> syncStatus c = pending \/ syncStatus c = failed).
Proof.
  intros Hdb. open_db w Hdb. rewrite getPendingCheckins_run.
  eexists. split; [reflexivity|]. unfold queueOf.
  split; [apply Permutation_map, order_by_timestamp_Permutation|].
  split.
  - apply StronglySorted_map. cbn [timestamp mapCheckinRow].
    apply order_by_timestamp_sorted.
  - intros c Hc. apply in_map_iff in Hc as (r & <- & Hr).
    apply order_by_timestamp_In, filter_In in Hr as [_ Hq].
    unfold Sql.in_queue in Hq. cbn [syncStatus mapCheckinRow].
    destruct (sync_status r); auto; discriminate.
Qed.

Lemma getCheckinsSince_run ts t s p r n :
  getCheckinsSince ts (Build_World (Some t) s p r n) =
  Return
    (map mapCheckinRow
       (Sql.order_by_timestamp_desc (List.filter (Sql.since ts) (checkins t))))
    (Build_World (Some t) s p r n).
Proof. reflexivity. Qed.

(** X2. On an open database [getCheckinsSince ts] changes nothing and
    returns the stored events with timestamp >= ts, whatever their sync
    status, each exactly once and no other, newest first.
    [getTodayCheckins] is that list for the local midnight of the clock
    reading it takes. *)
Theorem getCheckinsSince_newest_first (localMidnight : Z -> Z) (w : World)
    (t : Tables) (ts : Z) :
  db w = Some t ->
  exists found,
    getCheckinsSince ts w = Return found w /\
    Permutation found
      (map mapCheckinRow
         (List.filter (fun r => ts <=? c_timestamp r) (checkins t))) /\
    StronglySorted (fun a b => timestamp b <= timestamp a) found /\
    (forall r, In r (checkins t) ->
               (In (mapCheckinRow r) found <-> ts <= c_timestamp r)) /\
    exists today,
      getTodayCheckins localMidnight w =
        Return today (set_steps (S (steps w)) w) /\
      getCheckinsSince (localMidnight (Date_now (steps w))) w = Return today w.
Proof.
  intros Hdb. open_db w Hdb. rewrite getCheckinsSince_run.
  eexists. split; [reflexivity|].
  split; [apply Permutation_map, order_by_timestamp_desc_Permutation|].
  split.
  - apply StronglySorted_map. cbn [timestamp mapCheckinRow].
    apply order_by_timestamp_desc_sorted.
  - split.
    + intros r Hr. split.
      * intros Hin. apply in_map_iff in Hin as (r' & E & Hr').
        apply (Permutation_in _ (order_by_timestamp_desc_Permutation _)) in Hr'.
        apply filter_In in Hr' as [_ Hs]. unfold Sql.since in Hs.
        apply (f_equal timestamp) in E. cbn in E. lia.
      * intros Hle. apply in_map.
        apply (Permutation_in _
                 (Permutation_sym (order_by_timestamp_desc_Permutation _))).
        apply filter_In. split; [exact Hr|]. unfold Sql.since. lia.
    + eexists. split; reflexivity.
Qed.

Lemma filter_filter_implied {A} (p q : A -> bool) l :
  (forall x, p x = true -> q x = true) ->
  List.filter p (List.filter q l) = List.filter p l.
Proof.
  intros H. induction l as [|x l IH]; cbn; [reflexivity|].
  destruct (q x) eqn:Hq; cbn.
  - now rewrite IH.
  - destruct (p x) eqn:Hp; [|exact IH].
    apply H in Hp. congruence.
Qed.

Lemma filter_length_split {A} (p : A -> bool) l :
  (length (List.filter p l) + length (List.filter (fun x => negb (p x)) l)
   = length l)%nat.
Proof.
  induction l as [|x l IH]; cbn; [reflexivity|].
  destruct (p x); cbn; lia.
Qed.

(** X3. On an open database [cleanup days] (30 days when no argument is
    given) deletes exactly the events that are 'synced' and older than
    the clock reading minus that many days, returns how many it deleted,
    and keeps the other rows in their order. An event that is not
    'synced' is never deleted, however old: the queue
    [getPendingCheckins] returns is the same before and after. Users,
    status rows, the configuration and the sync log are not touched. *)
Theorem cleanup_keeps_unsynced (w : World) (t : Tables) (days : option Z) :
  db w = Some t ->
  let cutoff := Date_now (steps w) - default 30 days * 24 * 60 * 60 * 1000 in
  exists removed w',
    cleanup days w = Return removed w' /\
    db w' =
      Some (set_checkins
              (List.filter
                 (fun r => negb (match sync_status r with
                                 | synced => c_timestamp r <? cutoff
                                 | _ => false
                                 end)) (checkins t))
              (checkins_seq t) t) /\
    removed =
      Z.of_nat (length (checkins t)) - Z.of_nat (length (checkinsOf w')) /\
    (forall r, In r (checkinsOf w') <->
               In r (checkins t) /\
               ~ (sync_status r = synced /\ c_timestamp r < cutoff)) /\
    exists queue,
      getPendingCheckins w = Return queue w /\
      getPendingCheckins w' = Return queue w'.
Proof.
  clear Math_random36 navigator_onLine toISODate toString36.
  intros Hdb cutoff. open_db w Hdb. cbn [steps] in cutoff.
  unfold cleanup, deleteOldSyncedCheckins, bind, guard, now, observe, query,
    exec, ret. norm.
  fold cutoff. eexists _, _. split; [reflexivity|]. norm.
  split; [reflexivity|].
  unfold checkinsOf. norm. tables.
  split.
  - pose proof (filter_length_split (Sql.old_synced cutoff) (checkins t)). lia.
  - split.
    + intros r. rewrite filter_In. unfold Sql.old_synced.
      destruct (sync_status r); cbn.
      * intuition discriminate.
      * destruct (Z.ltb_spec (c_timestamp r) cutoff); cbn; intuition (try lia; try discriminate).
      * intuition discriminate.
      * intuition discriminate.
    + eexists. rewrite !getPendingCheckins_run. split; [reflexivity|].
      f_equal. unfold queueOf. tables. f_equal. f_equal.
      apply filter_filter_implied.
      intros r Hq. unfold Sql.in_queue in Hq. unfold Sql.old_synced.
      destruct (sync_status r); try discriminate; reflexivity.
Qed.

(* ================================================================ *)
(** ** The configuration row and the users table *)
(* ================================================================ *)

(** X4. Saving a configuration and reading it back: on an open database
    [saveTerminalConfig c] replaces the single configuration row and
    touches no other table, and [getTerminalConfig] then returns [c] with
    two fields normalised: an empty location and a lastSyncAt of 0 come
    back absent. A configuration without these two values comes back
    unchanged, whatever was stored before. *)
Theorem terminal_config_round_trip (w : World) (t : Tables)
    (c : TerminalConfig) :
  db w = Some t ->
  exists w' row c',
    saveTerminalConfig c w = Return tt w' /\
    db w' = Some (set_terminal_config (Some row) t) /\
    getTerminalConfig w' = Return (Some c') w' /\
    terminalId c' = terminalId c /\ tenantId c' = tenantId c /\
    name c' = name c /\ apiKey c' = apiKey c /\
    serverUrl c' = serverUrl c /\
    syncIntervalSeconds c' = syncIntervalSeconds c /\
    offlineBufferHours c' = offlineBufferHours c /\
    nfcEnabled c' = nfcEnabled c /\
    pinFallbackEnabled c' = pinFallbackEnabled c /\
    timezone c' = timezone c /\ language c' = language c /\
    location c' = Js.orNullS (location c) /\
    lastSyncAt c' = Js.orNullZ (lastSyncAt c) /\
    (location c <> Some "" -> lastSyncAt c <> Some 0 -> c' = c).
Proof.
  intros Hdb. open_db w Hdb. rewrite saveTerminalConfig_run.
  eexists _, _, _. split; [reflexivity|]. split; [reflexivity|].
  split; [reflexivity|]. cbn.
  repeat (split; [solve [reflexivity | now destruct (nfcEnabled c)
                        | now destruct (pinFallbackEnabled c)]|]).
  intros Hloc Hsync. destruct c as [a1 a2 a3 loc a5 a6 a7 a8 [|] [|] a11 a12 ls];
    cbn in *; f_equal.
  all: try (destruct loc as [l|]; [|reflexivity]; unfold Js.orNullS; cbn;
            destruct (String.eqb_spec l ""); [subst; congruence|reflexivity]).
  all: destruct ls as [z|]; [|reflexivity]; unfold Js.orNullZ; cbn;
       destruct (Z.eqb_spec z 0); [subst; congruence|reflexivity].
Qed.

Lemma saveUser_exact u t s p r n :
  saveUser u (Build_World (Some t) s p r n) =
  Return tt
    (Build_World (Some (set_users (<[ lu_id u := user_row u n ]> (users t)) t))
       s p r (if Js.truthyZ (lu_lastSyncedAt u) then n else S n)).
Proof.
  unfold saveUser, bind, guard, now, observe, exec, ret, user_row; cbn.
  destruct (Js.truthyZ (lu_lastSyncedAt u)); reflexivity.
Qed.

Lemma getUserById_run uid t s p r n :
  getUserById uid (Build_World (Some t) s p r n) =
  Return (mapUserRow uid <$> users t !! uid) (Build_World (Some t) s p r n).
Proof. reflexivity. Qed.

(** X5. Saving a user and reading it back: on an open database
    [saveUser u] writes the whole row of id [lu_id u] (INSERT OR
    REPLACE), leaves every other user and every other table as it was,
    and [getUserById] then returns the user with empty optional strings
    turned absent and, when the user carried no lastSyncedAt (or 0), the
    clock reading taken by the call. *)
Theorem saveUser_round_trip (w : World) (t : Tables) (u : LocalUser) :
  db w = Some t ->
  exists w' u',
    saveUser u w = Return tt w' /\
    getUserById (lu_id u) w' = Return (Some u') w' /\
    lu_id u' = lu_id u /\ lu_name u' = lu_name u /\
    lu_personnelNumber u' = Js.orNullS (lu_personnelNumber u) /\
    lu_department u' = Js.orNullS (lu_department u) /\
    lu_nfcCardHash u' = Js.orNullS (lu_nfcCardHash u) /\
    lu_pinHash u' = Js.orNullS (lu_pinHash u) /\
    lu_profilePhotoUrl u' = Js.orNullS (lu_profilePhotoUrl u) /\
    lu_isActive u' = lu_isActive u /\
    lu_lastSyncedAt u' =
      (if Js.truthyZ (lu_lastSyncedAt u) then lu_lastSyncedAt u
       else Some (Date_now (steps w))) /\
    (forall uid, uid <> lu_id u ->
       exists other,
         getUserById uid w = Return other w /\
         getUserById uid w' = Return other w') /\
    exists m, db w' = Some (set_users m t).
Proof.
  intros Hdb. open_db w Hdb. rewrite saveUser_exact.
  eexists _, _. split; [reflexivity|].
  rewrite getUserById_run. tables. rewrite lookup_insert_eq.
  split; [reflexivity|].
  repeat (split; [solve [reflexivity | cbn; now destruct (lu_isActive u)]|]).
  split; [|eauto].
  intros uid Hne. eexists. rewrite !getUserById_run. tables.
  rewrite lookup_insert_ne by congruence. split; reflexivity.
Qed.

Lemma first_in_list (p : Z * users_row -> bool) (l : list (Z * users_row)) :
  match
    fold_right
      (fun u best =>
         if p u then
           match best with
           | Some b => if fst u <? fst b then Some u else best
           | None => Some u
           end
         else best)
      None l
  with
  | Some u => In u l /\ p u = true /\
              forall x, In x l -> p x = true -> fst u <= fst x
  | None => forall x, In x l -> p x = false
  end.
Proof.
  clear Date_now Math_random36 navigator_onLine toISODate toString36.
  induction l as [|y l IH]; cbn; [tauto|].
  destruct (fold_right _ None l) as [b|].
  - destruct IH as (Hin & Hp & Hmin).
    destruct (p y) eqn:Hy.
    + destruct (Z.ltb_spec (fst y) (fst b)).
      * split; [now left|]. split; [exact Hy|].
        intros x [<-|Hx] Hpx; [lia|]. specialize (Hmin x Hx Hpx). lia.
      * split; [now right|]. split; [exact Hp|].
        intros x [<-|Hx] Hpx; [lia|]. auto.
    + split; [now right|]. split; [exact Hp|].
      intros x [<-|Hx] Hpx; [congruence|]. auto.
  - destruct (p y) eqn:Hy.
    + split; [now left|]. split; [exact Hy|].
      intros x [<-|Hx] Hpx; [lia|]. rewrite IH in Hpx by exact Hx. discriminate.
    + intros x [<-|Hx]; auto.
Qed.

Lemma first_user_spec p (m : gmap Z users_row) :
  match Sql.first_user p m with
  | Some u => m !! fst u = Some (snd u) /\ p u = true /\
              forall j row, m !! j = Some row -> p (j, row) = true -> fst u <= j
  | None => forall j row, m !! j = Some row -> p (j, row) = false
  end.
Proof.
  clear Date_now Math_random36 navigator_onLine toISODate toString36.
  unfold Sql.first_user. pose proof (first_in_list p (map_to_list m)) as H.
  destruct (fold_right _ None (map_to_list m)) as [[j row]|].
  - destruct H as (Hin & Hp & Hmin). cbn [fst snd].
    split; [now apply elem_of_map_to_list, list_elem_of_In|].
    split; [exact Hp|].
    intros j' row' Hl Hp'.
    apply (Hmin (j', row')); [|exact Hp'].
    now apply list_elem_of_In, elem_of_map_to_list.
  - intros j row Hl. apply H. now apply list_elem_of_In, elem_of_map_to_list.
Qed.

(** X6. Looking a user up by card or by PIN: on an open database
    [getUserByNfcHash h] and [getUserByPinHash h] change nothing. A user
    they return is a stored user ([getUserById] returns the same object),
    is active and carries exactly that hash; they return null only when no
    active stored user carries the hash. A stored user that is not active
    is never returned, and neither is one whose hash column is NULL. *)
Theorem lookup_by_hash_sound (w : World) (t : Tables) (h : string) :
  db w = Some t ->
  exists byCard byPin,
    getUserByNfcHash h w = Return byCard w /\
    getUserByPinHash h w = Return byPin w /\
    match byCard with
    | Some u =>
        getUserById (lu_id u) w = Return (Some u) w /\
        lu_isActive u = true /\ lu_nfcCardHash u = Some h
    | None =>
        forall uid row,
          users t !! uid = Some row -> u_is_active row = 1 ->
          u_nfc_card_hash row <> Some h
    end /\
    match byPin with
    | Some u =>
        getUserById (lu_id u) w = Return (Some u) w /\
        lu_isActive u = true /\ lu_pinHash u = Some h
    | None =>
        forall uid row,
          users t !! uid = Some row -> u_is_active row = 1 ->
          u_pin_hash row <> Some h
    end.
Proof.
  clear Date_now Math_random36 navigator_onLine toISODate toString36.
  intros Hdb. open_db w Hdb.
  unfold getUserByNfcHash, getUserByPinHash, bind, guard, query, ret. norm.
  eexists _, _. split; [reflexivity|]. split; [reflexivity|].
  split.
  - pose proof (first_user_spec (Sql.has_card h) (users t)) as H.
    destruct (Sql.first_user (Sql.has_card h) (users t)) as [[j row]|];
      cbn [fmap option_fmap option_map].
    + destruct H as (Hl & Hp & _). cbn [fst snd] in *.
      unfold mapUser. cbn [fst snd mapUserRow lu_id lu_isActive lu_nfcCardHash
                            lu_pinHash].
      rewrite getUserById_run, Hl. split; [reflexivity|].
      unfold Sql.has_card, Sql.is_active in Hp. cbn [fst snd] in Hp.
      apply andb_prop in Hp as [Hh Ha]. split; [exact Ha|].
      destruct (u_nfc_card_hash row) as [x|]; [|discriminate].
      apply String.eqb_eq in Hh. now subst.
    + intros uid row Hl Ha Hh. specialize (H uid row Hl).
      unfold Sql.has_card, Sql.is_active in H. cbn [fst snd] in H.
      rewrite Hh, Ha, String.eqb_refl in H. discriminate.
  - pose proof (first_user_spec (Sql.has_pin h) (users t)) as H.
    destruct (Sql.first_user (Sql.has_pin h) (users t)) as [[j row]|];
      cbn [fmap option_fmap option_map].
    + destruct H as (Hl & Hp & _). cbn [fst snd] in *.
      unfold mapUser. cbn [fst snd mapUserRow lu_id lu_isActive lu_nfcCardHash
                            lu_pinHash].
      rewrite getUserById_run, Hl. split; [reflexivity|].
      unfold Sql.has_pin, Sql.is_active in Hp. cbn [fst snd] in Hp.
      apply andb_prop in Hp as [Hh Ha]. split; [exact Ha|].
      destruct (u_pin_hash row) as [x|]; [|discriminate].
      apply String.eqb_eq in Hh. now subst.
    + intros uid row Hl Ha Hh. specialize (H uid row Hl).
      unfold Sql.has_pin, Sql.is_active in H. cbn [fst snd] in H.
      rewrite Hh, Ha, String.eqb_refl in H. discriminate.
Qed.

Lemma set_users_twice m m' t : set_users m (set_users m' t) = set_users m t.
Proof. reflexivity. Qed.

Lemma saveUsers_lookup us : forall t s p r n,
  exists m k,
    saveUsers us (Build_World (Some t) s p r n) =
    Return tt (Build_World (Some (set_users m t)) s p r k) /\
    (forall uid, ~ In uid (map lu_id us) -> m !! uid = users t !! uid) /\
    (forall uid, In uid (map lu_id us) ->
       exists u j, In u us /\ lu_id u = uid /\ m !! uid = Some (user_row u j)).
Proof.
  clear Math_random36 navigator_onLine toISODate toString36.
  unfold saveUsers.
  induction us as [|u us IH]; intros t s p r n.
  - exists (users t), n. cbn. rewrite set_users_same. intuition.
  - cbn [for_of]. rewrite (bind_Return _ _ _ _ _ (saveUser_exact _ _ _ _ _ _)).
    destruct (IH (set_users (<[ lu_id u := user_row u n ]> (users t)) t) s p r
                (if Js.truthyZ (lu_lastSyncedAt u) then n else S n))
      as (m & k & E & Hout & Hin).
    exists m, k. rewrite E, set_users_twice. split; [reflexivity|].
    cbn [users set_users] in Hout. cbn [map In].
    split.
    + intros uid Hno. rewrite Hout by tauto.
      apply lookup_insert_ne. intros Heq. apply Hno. now left.
    + intros uid Huid.
      destruct (in_dec Z.eq_dec uid (map lu_id us)) as [Hrest|Hrest].
      * destruct (Hin uid Hrest) as (u' & j & Hu' & Hid & Hm).
        exists u', j. auto.
      * destruct Huid as [Hid|Huid]; [|contradiction].
        exists u, n. split; [now left|]. split; [exact Hid|].
        rewrite Hout by exact Hrest. subst uid. apply lookup_insert_eq.
Qed.

Lemma localUsers_run us : forall d s p r n,
  exists ls k,
    map_M (fun u : ServerUser => t0 <- now ;; ret (toLocalUser u t0)) us
      (Build_World d s p r n) = Return ls (Build_World d s p r k) /\
    Forall2 (fun su lu => exists t0, lu = toLocalUser su t0) us ls.
Proof.
  induction us as [|u us IH]; intros d s p r n.
  - exists [], n. split; [reflexivity|constructor].
  - destruct (IH d s p r (S n)) as (ls & k & E & HF).
    exists (toLocalUser u (Date_now n) :: ls), k. split.
    + cbn [map_M].
      rewrite (bind_Return _ _ _ _ _
                 (eq_refl : (t0 <- now ;; ret (toLocalUser u t0))
                              (Build_World d s p r n) =
                            Return (toLocalUser u (Date_now n))
                              (Build_World d s p r (S n)))).
      now rewrite (bind_Return _ _ _ _ _ E).
    + constructor; eauto.
Qed.

Lemma orNullS_idem x : Js.orNullS (Js.orNullS x) = Js.orNullS x.
Proof.
  unfold Js.orNullS. destruct (Js.truthyS x) eqn:E; [now rewrite E|reflexivity].
Qed.

Lemma row_of_toLocalUser su t0 j :
  row_of_server_user su (user_row (toLocalUser su t0) j).
Proof.
  unfold row_of_server_user, user_row, toLocalUser. cbn.
  rewrite !orNullS_idem. repeat split.
Qed.

Lemma updateLocalUsers_lookup us t s p r n :
  exists m k,
    updateLocalUsers us (Build_World (Some t) s p r n) =
    Return tt (Build_World (Some (set_users m t)) s p r k) /\
    (forall uid, ~ In uid (map su_userId us) -> m !! uid = users t !! uid) /\
    (forall uid, In uid (map su_userId us) ->
       exists su row,
         In su us /\ su_userId su = uid /\ m !! uid = Some row /\
         row_of_server_user su row).
Proof.
  clear Math_random36 navigator_onLine toISODate toString36.
  unfold updateLocalUsers.
  destruct (localUsers_run us (Some t) s p r n) as (ls & k0 & E & HF).
  rewrite (bind_Return _ _ _ _ _ E).
  destruct (saveUsers_lookup ls t s p r k0) as (m & k & E' & Hout & Hin).
  exists m, k. split; [exact E'|].
  assert (Hids : map lu_id ls = map su_userId us).
  { clear -HF. induction HF as [|su lu us ls (t0 & ->) _ IH]; cbn; congruence. }
  rewrite Hids in Hout, Hin. split; [exact Hout|].
  intros uid Huid. destruct (Hin uid Huid) as (lu & j & Hlu & Hid & Hm).
  assert (exists su t0, In su us /\ lu = toLocalUser su t0) as (su & t0 & Hsu & ->).
  { clear -HF Hlu. induction HF as [|su lu' us ls (t0 & ->) _ IH].
    - destruct Hlu.
    - destruct Hlu as [<-|Hlu].
      + exists su, t0. split; [now left|reflexivity].
      + destruct (IH Hlu) as (su' & t1 & Hin' & ->).
        exists su', t1. split; [now right|reflexivity]. }
  exists su, (user_row (toLocalUser su t0) j).
  split; [exact Hsu|]. split; [exact Hid|]. split; [exact Hm|].
  apply row_of_toLocalUser.
Qed.

(** X7. The roster of a sync response is an upsert: on an open database
    [updateLocalUsers roster] returns, never deletes a user and leaves
    every stored user whose id is not in the roster exactly as it was; a
    user whose id is in the roster is stored afterwards with the name,
    personnel number, department, hashes, photo and active flag of a
    roster entry with that id (empty strings stored as NULL). No other
    table changes. *)
Theorem roster_is_an_upsert (w : World) (t : Tables) (roster : list ServerUser) :
  db w = Some t ->
  exists w' m,
    updateLocalUsers roster w = Return tt w' /\
    db w' = Some (set_users m t) /\
    (forall uid, ~ In uid (map su_userId roster) ->
       m !! uid = users t !! uid) /\
    (forall uid, In uid (map su_userId roster) ->
       exists su row,
         In su roster /\ su_userId su = uid /\ m !! uid = Some row /\
         row_of_server_user su row) /\
    (forall uid, is_Some (users t !! uid) -> is_Some (m !! uid)).
Proof.
  clear Math_random36 navigator_onLine toISODate toString36.
  intros Hdb. open_db w Hdb.
  destruct (updateLocalUsers_lookup roster t svc0 posted0 retryTimers0 steps0)
    as (m & k & E & Hout & Hin).
  eexists _, m. split; [exact E|]. split; [reflexivity|].
  split; [exact Hout|]. split; [exact Hin|].
  intros uid Hsome.
  destruct (in_dec Z.eq_dec uid (map su_userId roster)) as [Hr|Hr].
  - destruct (Hin uid Hr) as (su & row & _ & _ & Hm & _). now rewrite Hm.
  - now rewrite Hout.
Qed.

(** X8. A user the roster marks inactive is locked out: when every roster
    entry with the user's id has isActive = false, then after
    [updateLocalUsers roster] neither [getUserByNfcHash] nor
    [getUserByPinHash] returns that user for any hash, and
    [getAllUsers] does not list the user, although the user is still
    stored and [getUserById] still returns it, as inactive. *)
Theorem inactive_user_is_locked_out (w : World) (t : Tables)
    (roster : list ServerUser) (uid : Z) :
  db w = Some t ->
  In uid (map su_userId roster) ->
  (forall su, In su roster -> su_userId su = uid -> su_isActive su = false) ->
  exists w',
    updateLocalUsers roster w = Return tt w' /\
    (forall h, exists byCard byPin,
       getUserByNfcHash h w' = Return byCard w' /\
       getUserByPinHash h w' = Return byPin w' /\
       lu_id <$> byCard <> Some uid /\ lu_id <$> byPin <> Some uid) /\
    (exists listed,
       getAllUsers w' = Return listed w' /\ ~ In uid (map lu_id listed)) /\
    exists u,
      getUserById uid w' = Return (Some u) w' /\ lu_isActive u = false.
Proof.
  clear Math_random36 navigator_onLine toISODate toString36.
  intros Hdb Huid Hoff. open_db w Hdb.
  destruct (updateLocalUsers_lookup roster t svc0 posted0 retryTimers0 steps0)
    as (m & k & E & _ & Hin).
  destruct (Hin uid Huid) as (su & row & Hsu & Hid & Hm & Hrow).
  assert (Hact : u_is_active row = 0).
  { destruct Hrow as (_ & _ & _ & _ & _ & _ & ->).
    now rewrite (Hoff su Hsu Hid). }
  eexists. split; [exact E|]. split; [|split].
  - intros h.
    unfold getUserByNfcHash, getUserByPinHash, bind, guard, query, ret. norm.
    tables. eexists _, _. split; [reflexivity|]. split; [reflexivity|].
    split.
    + pose proof (first_user_spec (Sql.has_card h) m) as H.
      destruct (Sql.first_user (Sql.has_card h) m) as [[j row']|];
        cbn [fmap option_fmap option_map]; [|discriminate].
      destruct H as (Hl & Hp & _). cbn [fst snd] in *.
      unfold mapUser. cbn [fst snd mapUserRow lu_id]. intros [= ->].
      unfold Sql.has_card, Sql.is_active in Hp. cbn [fst snd] in Hp.
      apply andb_prop in Hp as [_ Ha]. rewrite Hm in Hl.
      injection Hl as <-. rewrite Hact in Ha. discriminate.
    + pose proof (first_user_spec (Sql.has_pin h) m) as H.
      destruct (Sql.first_user (Sql.has_pin h) m) as [[j row']|];
        cbn [fmap option_fmap option_map]; [|discriminate].
      destruct H as (Hl & Hp & _). cbn [fst snd] in *.
      unfold mapUser. cbn [fst snd mapUserRow lu_id]. intros [= ->].
      unfold Sql.has_pin, Sql.is_active in Hp. cbn [fst snd] in Hp.
      apply andb_prop in Hp as [_ Ha]. rewrite Hm in Hl.
      injection Hl as <-. rewrite Hact in Ha. discriminate.
  - unfold getAllUsers, bind, guard, query, ret. norm. tables.
    eexists. split; [reflexivity|].
    rewrite map_map, in_map_iff. intros ([j row'] & Hj & Hx).
    unfold mapUser in Hj. cbn [fst snd mapUserRow lu_id] in Hj. subst j.
    assert (Hx' : In (uid, row')
                    (List.filter Sql.is_active (map_to_list m))).
    { revert Hx. generalize (List.filter Sql.is_active (map_to_list m)).
      intros l. unfold Sql.order_by_name.
      induction l as [|y l IH]; cbn [fold_right]; [tauto|].
      intros Hx.
      assert (Hins : forall u l', In (uid, row') (Sql.insert_by_name u l') ->
                                  (uid, row') = u \/ In (uid, row') l').
      { clear. intros u l'. induction l' as [|z l' IH']; cbn.
        - intuition.
        - destruct (String.leb _ _); cbn; intuition. }
      apply Hins in Hx as [<-|Hx]; [now left|right; auto]. }
    apply filter_In in Hx' as [Hx' Ha].
    apply list_elem_of_In, elem_of_map_to_list in Hx'.
    rewrite Hm in Hx'. injection Hx' as <-.
    unfold Sql.is_active in Ha. cbn [snd] in Ha. rewrite Hact in Ha.
    discriminate.
  - eexists. rewrite getUserById_run. tables. rewrite Hm.
    split; [reflexivity|]. cbn. now rewrite Hact.
Qed.

Lemma insert_by_name_Permutation u l :
  Permutation (Sql.insert_by_name u l) (u :: l).
Proof.
  induction l as [|x l IH]; cbn; [reflexivity|].
  destruct (String.leb _ _); [reflexivity|].
  rewrite IH. apply perm_swap.
Qed.

Lemma order_by_name_Permutation l : Permutation (Sql.order_by_name l) l.
Proof.
  unfold Sql.order_by_name. induction l as [|x l IH]; cbn; [reflexivity|].
  rewrite insert_by_name_Permutation. now constructor.
Qed.

Lemma insert_by_name_sorted u l :
  Sorted (fun a b => String.leb (u_name (snd a)) (u_name (snd b)) = true) l ->
  Sorted (fun a b => String.leb (u_name (snd a)) (u_name (snd b)) = true)
    (Sql.insert_by_name u l).
Proof.
  induction 1 as [|x l Hl IH Hx]; cbn.
  - repeat constructor.
  - destruct (String.leb (u_name (snd u)) (u_name (snd x))) eqn:E.
    + constructor; [now constructor|]. now constructor.
    + constructor; [exact IH|].
      destruct l as [|y l]; cbn.
      * constructor. destruct (String.leb_total (u_name (snd u)) (u_name (snd x)));
          congruence.
      * destruct (String.leb (u_name (snd u)) (u_name (snd y))).
        -- constructor.
           destruct (String.leb_total (u_name (snd u)) (u_name (snd x)));
             congruence.
        -- constructor. now inversion Hx.
Qed.

Lemma order_by_name_sorted l :
  Sorted (fun a b => String.leb (u_name (snd a)) (u_name (snd b)) = true)
    (Sql.order_by_name l).
Proof.
  unfold Sql.order_by_name. induction l as [|x l IH]; cbn.
  - constructor.
  - now apply insert_by_name_sorted.
Qed.

Lemma Sorted_map {A B} (R : B -> B -> Prop) (f : A -> B) l :
  Sorted (fun a b => R (f a) (f b)) l -> Sorted R (map f l).
Proof.
  induction 1 as [|x l Hl IH Hx]; cbn; constructor; auto.
  destruct Hx; cbn; constructor; auto.
Qed.

(** X9. On an open database [getAllUsers] changes nothing and lists the
    stored users with is_active = 1, each exactly once and no inactive
    one, every name not after the next in the order of the code units. *)
Theorem getAllUsers_active_by_name (w : World) (t : Tables) :
  db w = Some t ->
  exists listed,
    getAllUsers w = Return listed w /\
    Sorted (fun a b => String.leb (lu_name a) (lu_name b) = true) listed /\
    NoDup (map lu_id listed) /\
    (forall u, In u listed <->
               exists row, users t !! lu_id u = Some row /\
                           u_is_active row = 1 /\ u = mapUserRow (lu_id u) row).
Proof.
  intros Hdb. open_db w Hdb.
  unfold getAllUsers, bind, guard, query, ret. norm.
  eexists. split; [reflexivity|].
  set (sel := List.filter Sql.is_active (map_to_list (users t))).
  assert (Hperm : Permutation (Sql.order_by_name sel) sel)
    by apply order_by_name_Permutation.
  split; [|split].
  - apply Sorted_map. unfold mapUser. cbn [lu_name mapUserRow].
    apply order_by_name_sorted.
  - rewrite map_map.
    rewrite (map_ext (fun x => lu_id (mapUser x)) fst) by reflexivity.
    rewrite Hperm. unfold sel.
    apply NoDup_ListNoDup.
    assert (Hnd := NoDup_fst_map_to_list (users t)).
    apply NoDup_ListNoDup in Hnd. revert Hnd.
    generalize (map_to_list (users t)). intros l.
    induction l as [|x l IH]; cbn; intros Hnd; [apply NoDup_ListNoDup; constructor|].
    apply NoDup_ListNoDup in Hnd. inversion Hnd as [|? ? Hx Hl]; subst.
    apply NoDup_ListNoDup in Hl.
    destruct (Sql.is_active x); cbn; [|auto].
    apply NoDup_ListNoDup. constructor; [|apply NoDup_ListNoDup; auto].
    intros Hin. apply Hx. apply list_elem_of_In. apply list_elem_of_In in Hin.
    apply in_map_iff in Hin as (y & Ey & Hy). apply filter_In in Hy as [Hy _].
    apply in_map_iff. eauto.
  - intros u. rewrite in_map_iff. split.
    + intros ([j row] & <- & Hin).
      apply (Permutation_in _ Hperm), filter_In in Hin as [Hin Ha].
      apply list_elem_of_In, elem_of_map_to_list in Hin.
      exists row. unfold mapUser. cbn [fst snd mapUserRow lu_id].
      repeat split; [exact Hin|].
      unfold Sql.is_active in Ha. cbn [snd] in Ha. lia.
    + intros (row & Hl & Ha & E). exists (lu_id u, row).
      split; [now rewrite E|].
      apply (Permutation_in _ (Permutation_sym Hperm)), filter_In.
      split; [now apply list_elem_of_In, elem_of_map_to_list|].
      unfold Sql.is_active. cbn [snd]. lia.
Qed.

(* ================================================================ *)
(** ** The attendance tracker *)
(* ================================================================ *)

(** X10. The daily reset is applied once per day: on an open database,
    when two status reads of a user fall on the same day, the second one
    writes nothing, whatever the first one found (no row, a row of today,
    or a row of another day that it reset); and both reads agree on
    whether the user is known, checked in and on break, on the open
    session and on the minutes of today. *)
Theorem getUserStatus_resets_once (w : World) (t : Tables) (uid : Z) :
  db w = Some t ->
  todayAt (S (steps w)) = todayAt (steps w) ->
  exists st1 st2 w1 w2,
    getUserStatus uid w = Return st1 w1 /\
    getUserStatus uid w1 = Return st2 w2 /\
    db w2 = db w1 /\
    match st1, st2 with
    | Some a, Some b =>
        isCheckedIn b = isCheckedIn a /\ isOnBreak b = isOnBreak a /\
        currentSessionStart b = currentSessionStart a /\
        totalTodayMinutes b = totalTodayMinutes a
    | None, None => True
    | _, _ => False
    end.
Proof.
  clear Math_random36 navigator_onLine toString36.
  intros Hdb Hday. open_db w Hdb. cbn [steps] in Hday.
  rewrite getUserStatus_run.
  destruct (user_status t !! uid) as [row|] eqn:Hrow.
  - destruct (String.eqb_spec (today_date row) (todayAt steps0)) as [E|E];
      cbn [negb].
    + eexists _, _, _, _. split; [reflexivity|].
      rewrite getUserStatus_run, Hrow, Hday, E, String.eqb_refl. cbn [negb].
      split; [reflexivity|]. split; [reflexivity|]. cbn. tauto.
    + eexists _, _, _, _. split; [reflexivity|].
      rewrite getUserStatus_run. tables. rewrite lookup_alter_eq, Hrow.
      cbn [fmap option_fmap option_map Sql.reset_row today_date].
      rewrite Hday, String.eqb_refl. cbn [negb].
      split; [reflexivity|]. split; [reflexivity|]. cbn. tauto.
  - eexists _, _, _, _. split; [reflexivity|].
    rewrite getUserStatus_run, Hrow. split; [reflexivity|].
    split; [reflexivity|exact I].
Qed.

Lemma roundMinutes_bounds d :
  60000 * Js.roundMinutes d - 30000 <= d < 60000 * Js.roundMinutes d + 30000.
Proof.
  unfold Js.roundMinutes.
  pose proof (Z.div_mod (d + 30000) 60000 ltac:(lia)).
  pose proof (Z.mod_pos_bound (d + 30000) 60000 ltac:(lia)). lia.
Qed.

(** X11. A check-out of a user whose status row is dated today (with a
    localId new to the store) adds the open session to the minutes of
    today: total_today_minutes grows by the time from
    current_session_start to the timestamp of the new event, rounded to
    the nearest minute, and by nothing when no session start is stored.
    It sets is_checked_in and is_on_break to 0 and last_check_out to the
    timestamp; it leaves last_check_in and, since the update passes
    [undefined] for it, current_session_start as they were. *)
Theorem checkOut_adds_session (w : World) (t : Tables) (uid : Z)
    (uname : string) (auth : AuthMethod) (card : option string)
    (row : user_status_row) :
  db w = Some t ->
  ~ In (localIdAt (steps w)) (localIds (checkins t)) ->
  user_status t !! uid = Some row ->
  today_date row = todayAt (5 + steps w) ->
  let ts := Date_now (2 + steps w) in
  exists w' row' minutes,
    checkOut uid uname auth card w =
      Return (recordAt (steps w) uid uname check_out auth card) w' /\
    timestamp (recordAt (steps w) uid uname check_out auth card) = ts /\
    statusRowOf w' uid = Some row' /\
    total_today_minutes row' = total_today_minutes row + minutes /\
    (forall start,
       current_session_start row = Some start -> start <> 0 ->
       60000 * minutes - 30000 <= ts - start < 60000 * minutes + 30000) /\
    (current_session_start row = None -> minutes = 0) /\
    is_checked_in row' = 0 /\ is_on_break row' = 0 /\
    last_check_out row' = Some ts /\
    last_check_in row' = last_check_in row /\
    current_session_start row' = current_session_start row /\
    today_date row' = todayAt (6 + steps w).
Proof.
  intros Hdb Hfresh Hrow Hday ts. open_db w Hdb.
  cbn [steps Nat.add] in *. apply local_id_taken_not_In in Hfresh.
  unfold checkOut.
  rewrite (bind_Return _ _ _ _ _ (newRecord_run _ _ _ _ _ _ _ _ _ _)).
  fold (recordAt steps0 uid uname check_out auth card).
  unfold bind at 1. rewrite saveCheckin_run.
  cbn [localId recordAt]. rewrite Hfresh.
  unfold bind at 1. rewrite getUserStatus_run.
  tables. rewrite Hrow, Hday, String.eqb_refl. cbn [negb].
  unfold bind at 1. rewrite updateUserStatus_run.
  tables. rewrite Hrow.
  cbn [mbind option_bind currentSessionStart totalTodayMinutes timestamp].
  eexists _, _, _. split; [reflexivity|]. split; [reflexivity|].
  unfold statusRowOf. norm. cbn [mbind option_bind]. tables.
  rewrite lookup_alter_eq, Hrow. cbn [fmap option_fmap option_map].
  split; [reflexivity|].
  cbn [Sql.apply_updates total_today_minutes up_totalTodayMinutes
       is_checked_in is_on_break last_check_out last_check_in
       current_session_start today_date up_isCheckedIn up_isOnBreak
       up_lastCheckOut up_lastCheckIn up_currentSessionStart Js.flag].
  split; [reflexivity|].
  split.
  - intros start Hs Hne. rewrite Hs. unfold Js.truthyZ.
    destruct (Z.eqb_spec start 0) as [|_]; [contradiction|]. cbn [negb].
    apply roundMinutes_bounds.
  - split; [now intros ->|]. repeat split.
Qed.

Lemma break_run (kind : CheckType) (flag : bool) uid uname auth t s p r n :
  ~ In (localIdAt n) (localIds (checkins t)) ->
  (record <- newRecord uid uname kind auth None ;;
   saveCheckin record ;;;
   updateUserStatus uid
     {| up_isCheckedIn := None; up_isOnBreak := Some flag;
        up_lastCheckIn := None; up_lastCheckOut := None;
        up_currentSessionStart := None; up_totalTodayMinutes := None |} ;;;
   ret record) (Build_World (Some t) s p r n) =
  Return (recordAt n uid uname kind auth None)
    (Build_World
       (Some (set_user_status
                (match user_status t !! uid with
                 | None =>
                     <[ uid := Sql.new_status_row
                                 {| up_isCheckedIn := None;
                                    up_isOnBreak := Some flag;
                                    up_lastCheckIn := None;
                                    up_lastCheckOut := None;
                                    up_currentSessionStart := None;
                                    up_totalTodayMinutes := None |}
                                 (todayAt (5 + n)) ]> (user_status t)
                 | Some _ =>
                     alter (Sql.apply_updates
                              {| up_isCheckedIn := None;
                                 up_isOnBreak := Some flag;
                                 up_lastCheckIn := None;
                                 up_lastCheckOut := None;
                                 up_currentSessionStart := None;
                                 up_totalTodayMinutes := None |}
                              (todayAt (5 + n))) uid (user_status t)
                 end)
                (Sql.insert_checkin (Date_now (4 + n))
                   (recordAt n uid uname kind auth None) t)))
       s p r (6 + n)).
Proof.
  intros Hfresh. apply local_id_taken_not_In in Hfresh.
  rewrite (bind_Return _ _ _ _ _ (newRecord_run _ _ _ _ _ _ _ _ _ _)).
  fold (recordAt n uid uname kind auth None).
  unfold bind at 1. rewrite saveCheckin_run.
  cbn [localId recordAt]. rewrite Hfresh.
  unfold bind at 1. rewrite updateUserStatus_run. reflexivity.
Qed.

(** X12. The break stampings touch only the break flag. With a localId
    new to the store, [startBreak] and [endBreak] append one pending
    event of kind break_start or break_end and write the user's status
    row without reading it: is_on_break becomes 1 or 0 and today_date
    becomes today, while is_checked_in, the check-in and check-out times,
    the open session and the minutes of the row stay what they were,
    also for a row dated another day and for a user who is not checked
    in. A user without a status row gets one that is not checked in,
    with 0 minutes. *)
Theorem breaks_touch_only_the_break_flag (w : World) (t : Tables) (uid : Z)
    (uname : string) (auth : AuthMethod) :
  db w = Some t ->
  ~ In (localIdAt (steps w)) (localIds (checkins t)) ->
  let after (flag : Z) (kind : CheckType) (w' : World) :=
    checkinsOf w' =
      (checkins t ++
         [Sql.checkin_row (Sql.next_rowid (checkins_seq t) (map c_id (checkins t)))
            (Date_now (4 + steps w))
            (recordAt (steps w) uid uname kind auth None)])%list /\
    exists row',
      statusRowOf w' uid = Some row' /\
      is_on_break row' = flag /\
      today_date row' = todayAt (5 + steps w) /\
      match user_status t !! uid with
      | Some row =>
          is_checked_in row' = is_checked_in row /\
          last_check_in row' = last_check_in row /\
          last_check_out row' = last_check_out row /\
          current_session_start row' = current_session_start row /\
          total_today_minutes row' = total_today_minutes row
      | None =>
          is_checked_in row' = 0 /\ last_check_in row' = None /\
          last_check_out row' = None /\ current_session_start row' = None /\
          total_today_minutes row' = 0
      end in
  exists w1 w2,
    startBreak uid uname auth w =
      Return (recordAt (steps w) uid uname break_start auth None) w1 /\
    after 1 break_start w1 /\
    endBreak uid uname auth w =
      Return (recordAt (steps w) uid uname break_end auth None) w2 /\
    after 0 break_end w2.
Proof.
  intros Hdb Hfresh after. open_db w Hdb. cbn [steps] in *.
  unfold startBreak, endBreak.
  rewrite !break_run by exact Hfresh.
  eexists _, _. split; [reflexivity|]. split; [|split; [reflexivity|]].
  - unfold after, checkinsOf, statusRowOf. norm. tables.
    split; [reflexivity|]. cbn [mbind option_bind].
    destruct (user_status t !! uid) as [row|] eqn:Hrow.
    + tables. eexists. rewrite lookup_alter_eq, Hrow. split; [reflexivity|].
      cbn. repeat split.
    + tables. eexists. rewrite lookup_insert_eq. split; [reflexivity|].
      cbn. repeat split.
  - unfold after, checkinsOf, statusRowOf. norm. tables.
    split; [reflexivity|]. cbn [mbind option_bind].
    destruct (user_status t !! uid) as [row|] eqn:Hrow.
    + tables. eexists. rewrite lookup_alter_eq, Hrow. split; [reflexivity|].
      cbn. repeat split.
    + tables. eexists. rewrite lookup_insert_eq. split; [reflexivity|].
      cbn. repeat split.
Qed.

(** X13. [markAsSynced ids] on an open database returns and takes the
    named events out of the queue: every stored event whose localId is in
    [ids] ends 'synced' with no error and with synced_at a clock reading
    taken during the call (stored as NULL when that reading is 0); every
    other event is exactly as before; no row is added or deleted; ids
    that are not stored are ignored. Afterwards [getPendingCheckins]
    returns no event named in [ids]. *)
Theorem markAsSynced_clears_queue (w : World) (t : Tables) (ids : list string) :
  db w = Some t ->
  exists w',
    markAsSynced ids w = Return tt w' /\
    Forall2 same_event (checkins t) (checkinsOf w') /\
    (forall r', In r' (checkinsOf w') -> In (local_id r') ids ->
       sync_status r' = synced /\ sync_error r' = None /\
       exists k, (steps w <= k < steps w + length ids)%nat /\
                 synced_at r' = Js.orNullZ (Some (Date_now k))) /\
    (forall r, In r (checkins t) -> ~ In (local_id r) ids ->
               In r (checkinsOf w')) /\
    exists queue,
      getPendingCheckins w' = Return queue w' /\
      forall c, In c queue -> ~ In (localId c) ids.
Proof.
  intros Hdb. open_db w Hdb. unfold markAsSynced. rewrite mark_synced_run.
  eexists. split; [reflexivity|]. unfold checkinsOf. norm. tables.
  split; [apply Forall2_map_r; intros; apply synced_row_same|].
  assert (Hmarked : forall r', In r' (map (synced_row steps0 ids) (checkins t)) ->
            In (local_id r') ids ->
            sync_status r' = synced /\ sync_error r' = None /\
            exists k, (steps0 <= k < steps0 + length ids)%nat /\
                      synced_at r' = Js.orNullZ (Some (Date_now k))).
  { intros r' Hin Hid. apply in_map_iff in Hin as (r & <- & Hr).
    apply synced_row_present.
    destruct (synced_row_same ids steps0 r) as (_ & E & _).
    now rewrite <- E. }
  split; [exact Hmarked|]. split.
  - intros r Hr Hno. apply in_map_iff. exists r.
    split; [now apply synced_row_absent|exact Hr].
  - eexists. rewrite getPendingCheckins_run. split; [reflexivity|].
    tables. intros c Hc Hid. unfold queueOf in Hc.
    apply in_map_iff in Hc as (r' & <- & Hr').
    apply order_by_timestamp_In, filter_In in Hr' as [Hr' Hq].
    cbn [localId mapCheckinRow] in Hid.
    destruct (Hmarked r' Hr' Hid) as (Hs & _).
    unfold Sql.in_queue in Hq. rewrite Hs in Hq. discriminate.
Qed.

(** X14. [markAsFailed l error] on an open database returns and marks
    the stored events with localId [l] 'failed', with synced_at NULL and
    the error text stored (an empty text as NULL); every other event is
    exactly as before, and an unknown localId changes nothing. A failed
    event stays in the queue: [getPendingCheckins] afterwards returns
    every stored event named [l], as 'failed'. *)
Theorem markAsFailed_keeps_in_queue (w : World) (t : Tables) (l error : string) :
  db w = Some t ->
  exists w',
    markAsFailed l error w = Return tt w' /\
    Forall2 same_event (checkins t) (checkinsOf w') /\
    (forall r', In r' (checkinsOf w') -> local_id r' = l ->
       sync_status r' = failed /\ synced_at r' = None /\
       sync_error r' = (if String.eqb error "" then None else Some error)) /\
    (forall r, In r (checkins t) -> local_id r <> l -> In r (checkinsOf w')) /\
    (~ In l (localIds (checkins t)) -> w' = w) /\
    exists queue,
      getPendingCheckins w' = Return queue w' /\
      forall r', In r' (checkinsOf w') -> local_id r' = l ->
                 In (mapCheckinRow r') queue /\
                 syncStatus (mapCheckinRow r') = failed.
Proof.
  intros Hdb. open_db w Hdb. unfold markAsFailed.
  rewrite updateCheckinSyncStatus_run.
  eexists. split; [reflexivity|]. unfold checkinsOf. norm. tables.
  assert (Hmarked : forall r',
            In r' (Sql.update_sync l failed (Js.orNullZ None)
                     (Js.orNullS (Some error)) (checkins t)) ->
            local_id r' = l ->
            sync_status r' = failed /\ synced_at r' = None /\
            sync_error r' = (if String.eqb error "" then None else Some error)).
  { intros r' Hin Hid. unfold Sql.update_sync in Hin.
    apply in_map_iff in Hin as (r & <- & Hr).
    destruct (String.eqb_spec (local_id r) l) as [E|E].
    - cbn. unfold Js.orNullS. cbn. now destruct (String.eqb error "").
    - cbn in Hid. contradiction. }
  split.
  - unfold Sql.update_sync. apply Forall2_map_r. intros r _.
    destruct (String.eqb (local_id r) l);
      [apply same_event_set_sync|apply same_event_refl].
  - split; [exact Hmarked|]. split; [|split].
    + intros r Hr Hne. unfold Sql.update_sync. apply in_map_iff. exists r.
      split; [|exact Hr].
      destruct (String.eqb_spec (local_id r) l); [contradiction|reflexivity].
    + intros Hno. rewrite update_sync_absent by exact Hno.
      now rewrite set_checkins_same.
    + eexists. rewrite getPendingCheckins_run. split; [reflexivity|].
      tables. intros r' Hr' Hid.
      destruct (Hmarked r' Hr' Hid) as (Hs & _).
      split; [|exact Hs].
      apply queueOf_In; [exact Hr'|]. unfold Sql.in_queue. now rewrite Hs.
Qed.

(* ================================================================ *)
(** ** Texts: work time and hashes *)
(* ================================================================ *)

Lemma string_length_append s1 s2 :
  String.length (String.append s1 s2) = (String.length s1 + String.length s2)%nat.
Proof. induction s1 as [|c s1 IH]; simpl; [reflexivity|now rewrite IH]. Qed.

Lemma string_length_repeat c n :
  String.length (string_of_list_ascii (repeat c n)) = n.
Proof. induction n as [|n IH]; cbn; [reflexivity|now rewrite IH]. Qed.

Lemma substring_whole s : substring 0 (String.length s) s = s.
Proof. induction s as [|c s IH]; cbn; [reflexivity|now rewrite IH]. Qed.

Lemma padStart_length n c s :
  (String.length s <= n)%nat -> String.length (Js.padStart n c s) = n.
Proof.
  intros H. unfold Js.padStart.
  rewrite string_length_append, string_length_repeat. lia.
Qed.

Lemma padStart_long n c s :
  (n <= String.length s)%nat -> Js.padStart n c s = s.
Proof.
  intros H. unfold Js.padStart.
  replace (n - String.length s)%nat with 0%nat by lia. reflexivity.
Qed.

Lemma digitsOf_length_acc fuel : forall radix n acc,
  (String.length acc <= String.length (Js.digitsOf fuel radix n acc))%nat.
Proof.
  induction fuel as [|fuel IH]; intros radix n acc; cbn; [lia|].
  destruct (Z.eqb (n / radix) 0); cbn; [lia|].
  etransitivity; [|apply IH]. cbn. lia.
Qed.

Lemma digitsOf_length_ge fuel radix n acc :
  (S (String.length acc) <= String.length (Js.digitsOf (S fuel) radix n acc))%nat.
Proof.
  cbn. destruct (Z.eqb (n / radix) 0); cbn; [lia|].
  etransitivity; [|apply digitsOf_length_acc]. cbn. lia.
Qed.

Lemma digitsOf_length_le radix fuel : 2 <= radix ->
  forall (k : nat) n acc,
    (1 <= k)%nat -> 0 <= n < radix ^ Z.of_nat k ->
    (String.length (Js.digitsOf fuel radix n acc) <= k + String.length acc)%nat.
Proof.
  intros Hr. induction fuel as [|fuel IH]; intros k n acc Hk Hn; cbn; [lia|].
  destruct (Z.eqb_spec (n / radix) 0) as [E|E]; cbn; [lia|].
  assert (Hq : 0 < n / radix).
  { pose proof (Z.div_pos n radix ltac:(lia) ltac:(lia)). lia. }
  destruct k as [|[|k]]; [lia| |].
  - exfalso. change (Z.of_nat 1) with 1 in Hn. rewrite Z.pow_1_r in Hn.
    rewrite Z.div_small in Hq by lia. lia.
  - etransitivity; [apply (IH (S k)); [lia|]|cbn; lia].
    split; [lia|]. apply Z.div_lt_upper_bound; [lia|].
    replace (Z.of_nat (S (S k))) with (Z.succ (Z.of_nat (S k))) in Hn by lia.
    rewrite Z.pow_succ_r in Hn by lia. lia.
Qed.

(** The fuel [toStringRadix] gives is enough: more fuel gives the same
    digits. *)
Lemma digitsOf_enough radix : 2 <= radix ->
  forall fuel extra n acc,
    0 <= n < radix ^ Z.of_nat (S fuel) ->
    Js.digitsOf (S fuel + extra) radix n acc = Js.digitsOf (S fuel) radix n acc.
Proof.
  intros Hr. induction fuel as [|fuel IH]; intros extra n acc Hn.
  - change (Z.of_nat 1) with 1 in Hn. rewrite Z.pow_1_r in Hn.
    cbn. now rewrite Z.div_small by lia.
  - change (S (S fuel) + extra)%nat with (S (S fuel + extra)).
    cbn [Js.digitsOf]. destruct (Z.eqb (n / radix) 0); [reflexivity|].
    apply IH. split; [apply Z.div_pos; lia|].
    apply Z.div_lt_upper_bound; [lia|].
    replace (Z.of_nat (S (S fuel))) with (Z.succ (Z.of_nat (S fuel))) in Hn by lia.
    rewrite Z.pow_succ_r in Hn by lia. lia.
Qed.

Lemma toStringRadix_fuel radix n extra : 2 <= radix -> 0 <= n ->
  Js.digitsOf (S (Z.to_nat (Z.log2 n)) + extra) radix n "" =
  Js.toStringRadix radix n.
Proof.
  intros Hr Hn. unfold Js.toStringRadix.
  destruct (Z.ltb_spec n 0); [lia|].
  apply digitsOf_enough; [exact Hr|]. split; [exact Hn|].
  rewrite Nat2Z.inj_succ, Z2Nat.id by apply Z.log2_nonneg.
  destruct (Z.eq_dec n 0) as [->|Hne].
  - cbn. lia.
  - apply Z.lt_le_trans with (2 ^ Z.succ (Z.log2 n)).
    + apply Z.log2_spec. lia.
    + apply Z.pow_le_mono_l. pose proof (Z.log2_nonneg n). lia.
Qed.

Lemma digitsOf_hex fuel : forall n acc,
  0 <= n ->
  forallb isHexDigit (list_ascii_of_string acc) = true ->
  forallb isHexDigit (list_ascii_of_string (Js.digitsOf fuel 16 n acc)) = true.
Proof.
  induction fuel as [|fuel IH]; intros n acc Hn Hacc; cbn [Js.digitsOf];
    [exact Hacc|].
  cbv zeta.
  set (d := nth (Z.to_nat (n mod 16)) _ _).
  assert (Hd : isHexDigit d = true).
  { subst d. pose proof (Z.mod_pos_bound n 16 ltac:(lia)) as Hm.
    assert (Hi : (Z.to_nat (n mod 16) < 16)%nat) by lia.
    revert Hi. generalize (Z.to_nat (n mod 16)). intros i Hi.
    do 16 (destruct i as [|i]; [reflexivity|]). lia. }
  clearbody d.
  destruct (Z.eqb (n / 16) 0).
  - cbn [list_ascii_of_string forallb]. now rewrite Hd, Hacc.
  - apply IH; [apply Z.div_pos; lia|].
    cbn [list_ascii_of_string forallb]. now rewrite Hd, Hacc.
Qed.

Lemma list_ascii_of_string_append s1 s2 :
  list_ascii_of_string (String.append s1 s2) =
  (list_ascii_of_string s1 ++ list_ascii_of_string s2)%list.
Proof. induction s1 as [|c s1 IH]; simpl; [reflexivity|now rewrite IH]. Qed.

Lemma segment_shape hash i :
  String.length (Crypto.segment hash i) = 8%nat /\
  forallb isHexDigit (list_ascii_of_string (Crypto.segment hash i)) = true.
Proof.
  unfold Crypto.segment, Js.toUint32.
  set (n := hash * (i + 1) * 31 mod 4294967296).
  assert (Hn : 0 <= n < 16 ^ Z.of_nat 8).
  { change (16 ^ Z.of_nat 8) with 4294967296. apply Z.mod_pos_bound. lia. }
  unfold Js.toStringRadix. destruct (Z.ltb_spec n 0); [lia|].
  split.
  - apply padStart_length.
    pose proof (digitsOf_length_le 16 (S (Z.to_nat (Z.log2 n))) ltac:(lia)
                  8%nat n "" ltac:(lia) Hn) as H8.
    cbn [String.length] in H8. lia.
  - unfold Js.padStart. rewrite list_ascii_of_string_append, forallb_app.
    apply andb_true_intro. split.
    + rewrite list_ascii_of_string_of_list_ascii.
      generalize (8 - String.length
                        (Js.digitsOf (S (Z.to_nat (Z.log2 n))) 16 n ""))%nat.
      intros k. induction k as [|k IH]; cbn; [reflexivity|exact IH].
    + apply digitsOf_hex; [lia|reflexivity].
Qed.

Lemma hash_is_int32 l : forall h0,
  - 2147483648 <= h0 < 2147483648 ->
  - 2147483648 <= fold_left Crypto.mix l h0 < 2147483648.
Proof.
  induction l as [|c l IH]; intros h0 H0; cbn [fold_left]; [exact H0|].
  apply IH. unfold Crypto.mix, Js.toInt32.
  match goal with
  | |- _ <= ?x mod 4294967296 - _ < _ =>
      pose proof (Z.mod_pos_bound x 4294967296 ltac:(lia))
  end. lia.
Qed.

(** X15. For every input, [createHash] returns a text of exactly 64
    characters, all of them in 0-9a-f: its eight segments have eight
    characters each, so the final [substring(0, 64)] cuts nothing off.
    The text depends on the input only through the 32-bit value of the
    loop, and the same holds for [createPinHash] and
    [createApiSignature], which call it. *)
Theorem createHash_is_64_hex (input : list Z) :
  let hash := fold_left Crypto.mix (input ++ Crypto.charCodes "timer-mobile-salt")%list 0 in
  String.length (Crypto.createHash input) = 64%nat /\
  forallb isHexDigit (list_ascii_of_string (Crypto.createHash input)) = true /\
  Crypto.createHash input =
    fold_left (fun acc i => String.append acc (Crypto.segment hash i))
      [0; 1; 2; 3; 4; 5; 6; 7] "" /\
  - 2147483648 <= hash < 2147483648 /\
  (forall pin_, String.length (Crypto.createPinHash pin_) = 64%nat) /\
  (forall tid ts secret,
     String.length (Crypto.createApiSignature tid ts secret) = 64%nat).
Proof.
  assert (Hfull : forall h,
            let full := fold_left
                          (fun acc i => String.append acc (Crypto.segment h i))
                          [0; 1; 2; 3; 4; 5; 6; 7] "" in
            String.length full = 64%nat /\
            forallb isHexDigit (list_ascii_of_string full) = true).
  { intros h. cbn [fold_left]. split.
    - rewrite !string_length_append.
      repeat rewrite (proj1 (segment_shape h _)). reflexivity.
    - rewrite !list_ascii_of_string_append, !forallb_app.
      repeat rewrite (proj2 (segment_shape h _)). reflexivity. }
  assert (Hcut : forall inp,
            Crypto.createHash inp =
            fold_left
              (fun acc i =>
                 String.append acc
                   (Crypto.segment
                      (fold_left Crypto.mix
                         (inp ++ Crypto.charCodes "timer-mobile-salt")%list 0) i))
              [0; 1; 2; 3; 4; 5; 6; 7] "").
  { intros inp. unfold Crypto.createHash. cbv zeta.
    match goal with
    | |- substring 0 64 ?full = _ =>
        rewrite <- (proj1 (Hfull (fold_left Crypto.mix
                      (inp ++ Crypto.charCodes "timer-mobile-salt")%list 0))) at 1
    end.
    apply substring_whole. }
  intros hash. split; [|split; [|split; [|split; [|split]]]].
  - rewrite Hcut. apply Hfull.
  - rewrite Hcut. apply Hfull.
  - apply Hcut.
  - apply hash_is_int32. lia.
  - intros pin_. unfold Crypto.createPinHash. rewrite Hcut. apply Hfull.
  - intros tid ts secret. unfold Crypto.createApiSignature. rewrite Hcut.
    apply Hfull.
Qed.

(** X16. For a whole number of minutes that is a safe integer (at most
    2^53 - 1 in magnitude, where the doubles of JavaScript are exact),
    [formatWorkTime] prints the floor of minutes / 60, a colon, and
    minutes % 60 padded to two characters. For minutes >= 0 the two
    numbers are the hours and the remaining 0..59 minutes, and the minute
    part has exactly two characters. For a negative number of minutes
    that is not a multiple of 60 the two numbers do not add up to the
    input: the hours are rounded down while the remainder keeps the sign
    of the input, so they fall 60 short, and the minute part begins with
    a minus sign. *)
Theorem formatWorkTime_parts (minutes : Z) :
  Js.isSafeInteger minutes ->
  exists hours mins text,
    formatWorkTime minutes =
      String.append (Js.toStringRadix 10 hours) (String.append ":" text) /\
    text = Js.padStart 2 "0"%char (Js.toStringRadix 10 mins) /\
    (0 <= minutes ->
       hours * 60 + mins = minutes /\ 0 <= mins < 60 /\
       String.length text = 2%nat) /\
    (minutes < 0 -> minutes mod 60 = 0 ->
       hours * 60 + mins = minutes /\ mins = 0 /\ text = "00") /\
    (minutes < 0 -> minutes mod 60 <> 0 ->
       hours * 60 + mins = minutes - 60 /\ - 60 < mins < 0 /\
       exists rest, text = String "-"%char rest).
Proof.
  intros _.
  exists (minutes / 60), (Z.rem minutes 60),
    (Js.padStart 2 "0"%char (Js.toStringRadix 10 (Z.rem minutes 60))).
  split; [reflexivity|]. split; [reflexivity|].
  pose proof (Z.div_mod minutes 60 ltac:(lia)) as Hdiv.
  pose proof (Z.mod_pos_bound minutes 60 ltac:(lia)) as Hmod.
  pose proof (Z.quot_rem' minutes 60) as Hquot.
  split; [|split].
  - intros Hpos. rewrite Z.rem_mod_nonneg by lia.
    split; [lia|]. split; [lia|].
    apply padStart_length. unfold Js.toStringRadix.
    destruct (Z.ltb_spec (minutes mod 60) 0); [lia|].
    pose proof (digitsOf_length_le 10 (S (Z.to_nat (Z.log2 (minutes mod 60))))
                  ltac:(lia) 2%nat (minutes mod 60) "" ltac:(lia)
                  ltac:(change (10 ^ Z.of_nat 2) with 100; lia)) as H2.
    cbn [String.length] in H2. lia.
  - intros Hneg Hz.
    pose proof (Z.rem_bound_pos_neg minutes 60 ltac:(lia) ltac:(lia)) as Hrem.
    assert (E : Z.rem minutes 60 = 0) by lia.
    rewrite E. split; [lia|]. split; reflexivity.
  - intros Hneg Hnz.
    pose proof (Z.rem_bound_pos_neg minutes 60 ltac:(lia) ltac:(lia)) as Hrem.
    assert (E : Z.rem minutes 60 = minutes mod 60 - 60) by lia.
    split; [lia|]. split; [lia|].
    unfold Js.toStringRadix.
    destruct (Z.ltb_spec (Z.rem minutes 60) 0); [|lia].
    eexists. apply padStart_long.
    cbn [String.length].
    pose proof (digitsOf_length_ge (Z.to_nat (Z.log2 (- Z.rem minutes 60))) 10
                  (- Z.rem minutes 60) "") as Hge.
    cbn [String.length] in Hge. lia.
Qed.

(* ================================================================ *)
(** ** Statistics *)
(* ================================================================ *)

Lemma order_by_timestamp_length l :
  length (Sql.order_by_timestamp l) = length l.
Proof. apply Permutation_length, order_by_timestamp_Permutation. Qed.

Lemma queue_length_split rows :
  length (List.filter Sql.in_queue rows) =
  (length (List.filter Sql.is_pending rows) +
   length (List.filter is_failed rows))%nat.
Proof.
  induction rows as [|r rows IH]; [reflexivity|].
  cbn [List.filter].
  unfold Sql.in_queue at 1, Sql.is_pending at 1, is_failed at 1.
  destruct (sync_status r); cbn [length]; lia.
Qed.

Lemma filter_length_Permutation {A} (p : A -> bool) l l' :
  Permutation l l' -> length (List.filter p l) = length (List.filter p l').
Proof.
  induction 1 as [|x l l' _ IH|x y l|l l' l'' _ IH1 _ IH2]; cbn.
  - reflexivity.
  - destruct (p x); cbn; congruence.
  - destruct (p x), (p y); reflexivity.
  - congruence.
Qed.

Lemma filter_map_swap {A B} (p : B -> bool) (f : A -> B) l :
  List.filter p (map f l) = map f (List.filter (fun x => p (f x)) l).
Proof.
  induction l as [|x l IH]; cbn; [reflexivity|].
  destruct (p (f x)); cbn; now rewrite IH.
Qed.

Lemma getStats_run localMidnight t s p r n :
  getStats localMidnight (Build_World (Some t) s p r n) =
  Return
    {| st_totalUsers := Sql.count Sql.is_active (map_to_list (users t));
       st_pendingCheckins := Sql.count Sql.is_pending (checkins t);
       st_todayCheckins :=
         Sql.count (Sql.since (localMidnight (Date_now n))) (checkins t);
       st_lastSyncAt := Js.orNullZ (terminal_config t ≫= last_sync_at) |}
    (Build_World (Some t) s p r (S n)).
Proof.
  unfold getStats, getTerminalConfig, bind, guard, now, observe, query, ret.
  norm. now destruct (terminal_config t).
Qed.

(** X17. [Database.getStats] on an open database only reads (and takes
    one clock reading). Its pendingCheckins counts the events that are
    'pending' and leaves out the 'failed' ones, although both are in the
    queue the next attempt sends: the queue is longer by the number of
    failed events. totalUsers is the length of [getAllUsers],
    todayCheckins the length of [getCheckinsSince] for the local midnight
    of the reading, and lastSyncAt the stored checkpoint. *)
Theorem getStats_counts (localMidnight : Z -> Z) (w : World) (t : Tables) :
  db w = Some t ->
  exists stats queue listed today,
    getStats localMidnight w = Return stats (set_steps (S (steps w)) w) /\
    getPendingCheckins w = Return queue w /\
    Z.of_nat (length queue) =
      st_pendingCheckins stats +
      Z.of_nat (length (List.filter is_failed (checkins t))) /\
    st_pendingCheckins stats =
      Z.of_nat (length (List.filter
                          (fun c => match syncStatus c with
                                    | pending => true
                                    | _ => false
                                    end) queue)) /\
    getAllUsers w = Return listed w /\
    st_totalUsers stats = Z.of_nat (length listed) /\
    getCheckinsSince (localMidnight (Date_now (steps w))) w = Return today w /\
    st_todayCheckins stats = Z.of_nat (length today) /\
    st_lastSyncAt stats = Js.orNullZ (storedCheckpoint w).
Proof.
  intros Hdb. open_db w Hdb. rewrite getStats_run.
  eexists _, _, _, _. split; [reflexivity|].
  rewrite getPendingCheckins_run. split; [reflexivity|].
  cbn [st_pendingCheckins st_totalUsers st_todayCheckins st_lastSyncAt].
  unfold Sql.count. split; [|split].
  - unfold queueOf. rewrite length_map, order_by_timestamp_length,
      queue_length_split. lia.
  - unfold queueOf. f_equal.
    rewrite filter_map_swap, length_map.
    rewrite (filter_length_Permutation _ _ _ (order_by_timestamp_Permutation _)).
    rewrite filter_filter_implied; [reflexivity|].
    intros r. cbn [syncStatus mapCheckinRow]. unfold Sql.in_queue.
    now destruct (sync_status r).
  - unfold getAllUsers, bind, guard, query, ret. norm.
    split; [reflexivity|]. split.
    + rewrite length_map.
      now rewrite (Permutation_length (order_by_name_Permutation _)).
    + rewrite getCheckinsSince_run. split; [reflexivity|]. split.
      * rewrite length_map.
        now rewrite (Permutation_length (order_by_timestamp_desc_Permutation _)).
      * reflexivity.
Qed.

(* ================================================================ *)
(** ** The sync engine: start-up, timers, heartbeat *)
(* ================================================================ *)

(** A trigger on an open database returns, and whatever it does it leaves
    the configuration row, the users, the status rows and the events, and
    of the engine everything but the lock. *)
Lemma performSync_open ty t s p r n :
  exists pr t' s' p' n',
    performSync ty (Build_World (Some t) s p r n) =
    Return pr (Build_World (Some t') s' p' r n') /\
    terminal_config t' = terminal_config t /\ users t' = users t /\
    user_status t' = user_status t /\ checkins t' = checkins t /\
    config s' = config s /\ api s' = api s /\
    syncInterval s' = syncInterval s /\
    heartbeatInterval s' = heartbeatInterval s /\
    retryCount s' = retryCount s /\ isOnline s' = isOnline s /\
    (isSyncing s = true ->
       pr = Resolved None /\ t' = t /\ s' = s /\ p' = p /\ n' = n) /\
    (forall c, is_Some (api s) -> config s = Some c -> isSyncing s = false ->
       pr = AwaitingGateway /\ isSyncing s' = true /\
       t' = snd (Sql.insert_sync_log ty (Date_now n) t) /\
       p' = Some {| at_syncType := ty;
                    logId := fst (Sql.insert_sync_log ty (Date_now n) t);
                    pendingCheckins := queueOf (checkins t);
                    request :=
                      {| rq_terminalId := terminalId c;
                         lastSyncTimestamp :=
                           default 0 (Js.orNullZ (lastSyncAt c));
                         rq_checkins := queueOf (checkins t);
                         rq_syncType := ty |} |}).
Proof.
  destruct (api s) as [ax|] eqn:Ha; [destruct (config s) as [c|] eqn:Hc;
    [destruct (isSyncing s) eqn:Hs|]|].
  - rewrite performSync_locked by exact Hs.
    eexists _, _, _, _, _. split; [reflexivity|].
    repeat (split; [assumption || reflexivity|]).
    split; [intros _; repeat split|]. intros; discriminate.
  - rewrite (performSync_idle ty ax c) by assumption.
    eexists _, _, _, _, _. split; [reflexivity|].
    repeat (split; [assumption || reflexivity|]).
    split; [intros; discriminate|].
    intros c' _ [= <-] _. repeat split.
  - unfold performSync, bind, gets, ret. cbn [svc]. rewrite Ha, Hc.
    eexists _, _, _, _, _. split; [reflexivity|].
    repeat (split; [assumption || reflexivity|]).
    split; [intros _; repeat split|]. intros; discriminate.
  - unfold performSync, bind, gets, ret. cbn [svc]. rewrite Ha.
    eexists _, _, _, _, _. split; [reflexivity|].
    repeat (split; [assumption || reflexivity|]).
    split; [intros _; repeat split|]. intros c [ax Hax]; discriminate.
Qed.

Lemma getTerminalConfig_run t s p r n :
  getTerminalConfig (Build_World (Some t) s p r n) =
  Return
    (match terminal_config t with
     | None => None
     | Some row =>
         Some {| terminalId := tc_terminal_id row;
                 tenantId := tc_tenant_id row;
                 name := tc_name row;
                 location := tc_location row;
                 apiKey := tc_api_key row;
                 serverUrl := tc_server_url row;
                 syncIntervalSeconds := tc_sync_interval_seconds row;
                 offlineBufferHours := tc_offline_buffer_hours row;
                 nfcEnabled := tc_nfc_enabled row =? 1;
                 pinFallbackEnabled := tc_pin_fallback_enabled row =? 1;
                 timezone := tc_timezone row;
                 language := tc_language row;
                 lastSyncAt := last_sync_at row |}
     end)
    (Build_World (Some t) s p r n).
Proof. reflexivity. Qed.

(** X18. [SyncService.initialize] never throws and touches neither the
    database nor the timers, the lock or the retry counter. With the
    database closed it returns false and changes nothing. With the
    database open and no configuration row it returns false and the
    engine holds no configuration afterwards, also when it held one
    before, so that every trigger is skipped. With a configuration row
    it returns true, holds the configuration [getTerminalConfig] returns
    and a client for its serverUrl with a timeout of 30000 ms. *)
Theorem initialize_never_throws (w : World) :
  exists ok w',
    initialize w = Return ok w' /\
    db w' = db w /\ posted w' = posted w /\ retryTimers w' = retryTimers w /\
    steps w' = steps w /\
    syncInterval (svc w') = syncInterval (svc w) /\
    heartbeatInterval (svc w') = heartbeatInterval (svc w) /\
    isSyncing (svc w') = isSyncing (svc w) /\
    retryCount (svc w') = retryCount (svc w) /\
    isOnline (svc w') = isOnline (svc w) /\
    match db w with
    | None => ok = false /\ w' = w
    | Some t =>
        exists stored,
          getTerminalConfig w = Return stored w /\
          config (svc w') = stored /\
          match stored with
          | None =>
              ok = false /\ api (svc w') = api (svc w) /\
              forall ty, performSync ty w' = Return (Resolved None) w'
          | Some c =>
              ok = true /\
              api (svc w') = Some {| baseURL := serverUrl c; timeout := 30000 |}
          end
    end.
Proof.
  destruct w as [[t|] s p r n].
  - unfold initialize, try_catch.
    rewrite (bind_Return _ _ _ _ _ (getTerminalConfig_run _ _ _ _ _)).
    rewrite getTerminalConfig_run.
    destruct (terminal_config t) as [row|].
    + eexists _, _. split; [reflexivity|]. cbn.
      repeat (split; [reflexivity|]). eexists. repeat split.
    + eexists _, _. split; [reflexivity|]. cbn.
      repeat (split; [reflexivity|]). eexists. split; [reflexivity|].
      split; [reflexivity|]. split; [reflexivity|]. split; [reflexivity|].
      intros ty. unfold performSync, bind, gets, ret. cbn.
      now destruct (api s).
  - exists false, (Build_World None s p r n). cbn. repeat split.
Qed.

Lemma startAutoSync_run c t s p r n :
  config s = Some c ->
  exists t' s' p' n',
    startAutoSync (Build_World (Some t) s p r n) =
    Return tt (Build_World (Some t') s' p' r n') /\
    terminal_config t' = terminal_config t /\ users t' = users t /\
    user_status t' = user_status t /\ checkins t' = checkins t /\
    config s' = Some c /\ api s' = api s /\
    syncInterval s' = Some (syncIntervalSeconds c * 1000) /\
    heartbeatInterval s' = Some 30000 /\
    retryCount s' = retryCount s /\ isOnline s' = isOnline s /\
    (isSyncing s = true ->
       t' = t /\ p' = p /\ n' = n /\ isSyncing s' = true) /\
    (is_Some (api s) -> isSyncing s = false ->
       isSyncing s' = true /\
       t' = snd (Sql.insert_sync_log incremental (Date_now n) t) /\
       p' = Some {| at_syncType := incremental;
                    logId := fst (Sql.insert_sync_log incremental (Date_now n) t);
                    pendingCheckins := queueOf (checkins t);
                    request :=
                      {| rq_terminalId := terminalId c;
                         lastSyncTimestamp :=
                           default 0 (Js.orNullZ (lastSyncAt c));
                         rq_checkins := queueOf (checkins t);
                         rq_syncType := incremental |} |}).
Proof.
  intros Hc. unfold startAutoSync, bind at 1, gets at 1. cbn [svc]. rewrite Hc.
  unfold stopAutoSync, update_svc, modify, bind, fire_and_forget,
    syncIncremental. norm.
  match goal with
  | |- context [performSync incremental (Build_World (Some t) ?s1 p r n)] =>
      destruct (performSync_open incremental t s1 p r n)
        as (pr & t' & s' & p' & n' & E & H1 & H2 & H3 & H4 & H5 & H6 & H7 &
            H8 & H9 & H10 & Hlocked & Hidle)
  end.
  rewrite E. eexists _, _, _, _. split; [reflexivity|].
  cbn in H5, H6, H7, H8, H9, H10, Hlocked, Hidle.
  repeat (split; [congruence|]).
  split.
  - intros Hs. destruct (Hlocked Hs) as (_ & -> & -> & -> & ->).
    repeat split. exact Hs.
  - intros Ha Hs. destruct (Hidle c Ha Hc Hs) as (_ & Hs' & -> & ->).
    repeat split. exact Hs'.
Qed.

(** X19. [startAutoSync] on an open database never throws. Without a
    held configuration it does nothing. With one it arms the sync timer
    with syncIntervalSeconds * 1000 ms and the heartbeat timer with
    30000 ms and triggers an incremental attempt at once: on an idle
    engine that attempt takes the lock and posts the queue; while another
    attempt is in progress it is skipped and only the timers change.
    [stopAutoSync] afterwards clears both timers and nothing else: an
    attempt in flight stays in flight, the lock stays, and a retry timer
    that a failed attempt armed is not cancelled. *)
Theorem startAutoSync_arms_timers (w : World) (t : Tables) :
  db w = Some t ->
  exists w' w'',
    startAutoSync w = Return tt w' /\
    match config (svc w) with
    | None => w' = w
    | Some c =>
        syncInterval (svc w') = Some (syncIntervalSeconds c * 1000) /\
        heartbeatInterval (svc w') = Some 30000 /\
        config (svc w') = Some c /\
        retryTimers w' = retryTimers w /\
        (isSyncing (svc w) = true ->
           db w' = db w /\ posted w' = posted w /\
           isSyncing (svc w') = true) /\
        (Idle w ->
           exists a,
             InFlight w' a /\ at_syncType a = incremental /\
             pendingCheckins a = queueOf (checkins t) /\
             length (syncLogOf w') = S (length (sync_log t)))
    end /\
    stopAutoSync w' = Return tt w'' /\
    syncInterval (svc w'') = None /\ heartbeatInterval (svc w'') = None /\
    db w'' = db w' /\ posted w'' = posted w' /\
    retryTimers w'' = retryTimers w' /\
    isSyncing (svc w'') = isSyncing (svc w') /\
    config (svc w'') = config (svc w') /\
    retryCount (svc w'') = retryCount (svc w').
Proof.
  intros Hdb. open_db w Hdb.
  destruct (config svc0) as [c|] eqn:Hc.
  - destruct (startAutoSync_run c t svc0 posted0 retryTimers0 steps0 Hc)
      as (t' & s' & p' & n' & E & _ & _ & _ & _ & Hc' & _ & Hsi & Hhi & _ & _ &
          Hlocked & Hidle).
    eexists _, _. split; [exact E|]. norm.
    split; [|repeat split].
    repeat (split; [assumption || reflexivity|]). split.
    + intros Hs. destruct (Hlocked Hs) as (-> & -> & _ & Hs'). auto.
    + intros (Ha & _ & Hs). destruct (Hidle Ha Hs) as (Hs' & -> & ->).
      eexists. split; [split; [reflexivity|exact Hs']|].
      split; [reflexivity|]. split; [reflexivity|].
      unfold syncLogOf. norm. cbn. rewrite length_app. cbn. lia.
  - eexists _, _. split.
    + unfold startAutoSync, bind, gets, ret. cbn [svc]. rewrite Hc. reflexivity.
    + split; [reflexivity|]. repeat split.
Qed.

(** X20. [SyncService.setSyncInterval seconds] on an open database:
    without a held configuration nothing happens. With one, the held
    configuration gets the new interval and is saved, so
    [getTerminalConfig] returns the new interval together with the
    engine's own checkpoint; the other fields of the held configuration
    stay. The timers are re-armed with the new period, and an incremental
    attempt is triggered, only when the sync timer was running. The
    trigger is a call of [syncIncremental]: on an initialised engine with
    no attempt in progress it takes the lock, writes one sync_log row of
    type incremental and posts the queue as an incremental request; while
    an attempt is in progress it is dropped, and neither a row nor a
    request is added. When the sync timer was not running, no timer is
    armed, no attempt is started and no log row is written. *)
Theorem setSyncInterval_persists (w : World) (t : Tables) (seconds : Z) :
  db w = Some t ->
  exists w',
    setSyncInterval seconds w = Return tt w' /\
    match config (svc w) with
    | None => w' = w
    | Some c =>
        config (svc w') = Some (set_syncIntervalSeconds seconds c) /\
        (exists c',
           getTerminalConfig w' = Return (Some c') w' /\
           syncIntervalSeconds c' = seconds /\
           lastSyncAt c' = Js.orNullZ (lastSyncAt c) /\
           terminalId c' = terminalId c /\ apiKey c' = apiKey c /\
           serverUrl c' = serverUrl c) /\
        checkinsOf w' = checkins t /\ usersOf w' = users t /\
        match syncInterval (svc w) with
        | Some _ =>
            syncInterval (svc w') = Some (seconds * 1000) /\
            heartbeatInterval (svc w') = Some 30000 /\
            (isSyncing (svc w) = true ->
               isSyncing (svc w') = true /\ posted w' = posted w /\
               syncLogOf w' = sync_log t /\ steps w' = steps w) /\
            (is_Some (api (svc w)) -> isSyncing (svc w) = false ->
               exists a row,
                 InFlight w' a /\
                 at_syncType a = incremental /\
                 rq_syncType (request a) = incremental /\
                 pendingCheckins a = queueOf (checkins t) /\
                 rq_checkins (request a) = queueOf (checkins t) /\
                 syncLogOf w' = (sync_log t ++ [row])%list /\
                 sl_id row = logId a /\ sync_type row = incremental /\
                 sl_status row = in_progress)
        | None =>
            syncInterval (svc w') = None /\
            heartbeatInterval (svc w') = heartbeatInterval (svc w) /\
            posted w' = posted w /\ syncLogOf w' = sync_log t /\
            isSyncing (svc w') = isSyncing (svc w)
        end
    end.
Proof.
  intros Hdb. open_db w Hdb.
  unfold setSyncInterval, bind at 1, gets at 1. cbn [svc].
  destruct (config svc0) as [c|] eqn:Hc; [|eexists; split; reflexivity].
  cbv zeta. unfold bind at 1, update_svc at 1, modify at 1. norm.
  rewrite (bind_Return _ _ _ _ _ (saveTerminalConfig_run _ _ _ _ _ _)).
  unfold bind at 1, gets at 1. cbn [svc syncInterval set_config].
  destruct (syncInterval svc0) as [timer|] eqn:Ht.
  - match goal with
    | |- context [startAutoSync (Build_World (Some ?t1) ?s1 ?p1 ?r1 ?n1)] =>
        destruct (startAutoSync_run (set_syncIntervalSeconds seconds c)
                    t1 s1 p1 r1 n1 eq_refl)
          as (t' & s' & p' & n' & E & H1 & H2 & H3 & H4 & H5 & _ & H7 & H8 & _ &
              _ & Hlocked & Hidle)
    end.
    eexists. split; [exact E|]. norm.
    split; [exact H5|]. split.
    + rewrite getTerminalConfig_run, H1. tables.
      eexists. split; [reflexivity|]. repeat split.
    + unfold checkinsOf, usersOf. norm.
      split; [exact H4|]. split; [exact H2|]. split; [exact H7|].
      split; [exact H8|]. split.
      * intros Hs. destruct (Hlocked Hs) as (-> & -> & -> & Hs').
        unfold syncLogOf. norm. tables. repeat split. exact Hs'.
      * intros Ha Hs. destruct (Hidle Ha Hs) as (Hs' & -> & ->).
        eexists _, _. unfold InFlight, syncLogOf. norm. tables.
        split; [split; [reflexivity|exact Hs']|]. repeat split.
  - eexists. split; [reflexivity|]. norm. cbn [config set_config].
    split; [reflexivity|]. split.
    + rewrite getTerminalConfig_run. tables.
      eexists. split; [reflexivity|]. repeat split.
    + unfold checkinsOf, usersOf, syncLogOf. norm. tables.
      cbn [syncInterval heartbeatInterval isSyncing set_config].
      repeat split. exact Ht.
Qed.

(** X21. A heartbeat never touches the tables, the lock, the posted
    attempt, the timers or the held configuration. On an uninitialised
    engine [sendHeartbeat] settles with false and changes nothing; with
    the database closed it settles with false and marks the engine
    offline; otherwise it reads the statistics and the clock and waits
    for the gateway. When the gateway acknowledges (in whatever world
    the answer arrives), the heartbeat returns true, the engine is online
    and, through the response interceptor it shares with the sync call,
    the retry counter is back at 0. When the call fails, with or without
    a response, it returns false, the engine is offline and the retry
    counter stays. *)
Theorem heartbeat_touches_only_flags (localMidnight : Z -> Z) (w v : World)
    (g : HeartbeatResult) :
  exists started w1 ok v',
    sendHeartbeat localMidnight w = Return started w1 /\
    db w1 = db w /\ posted w1 = posted w /\ retryTimers w1 = retryTimers w /\
    isSyncing (svc w1) = isSyncing (svc w) /\
    config (svc w1) = config (svc w) /\ api (svc w1) = api (svc w) /\
    syncInterval (svc w1) = syncInterval (svc w) /\
    heartbeatInterval (svc w1) = heartbeatInterval (svc w) /\
    retryCount (svc w1) = retryCount (svc w) /\
    match api (svc w), config (svc w) with
    | Some _, Some _ =>
        match db w with
        | Some _ =>
            started = AwaitingGateway /\ svc w1 = svc w /\
            steps w1 = S (S (steps w))
        | None => started = Resolved false /\ isOnline (svc w1) = false
        end
    | _, _ => started = Resolved false /\ w1 = w
    end /\
    sendHeartbeat_response g v = Return ok v' /\
    db v' = db v /\ posted v' = posted v /\ retryTimers v' = retryTimers v /\
    steps v' = steps v /\
    isSyncing (svc v') = isSyncing (svc v) /\
    config (svc v') = config (svc v) /\ api (svc v') = api (svc v) /\
    syncInterval (svc v') = syncInterval (svc v) /\
    heartbeatInterval (svc v') = heartbeatInterval (svc v) /\
    match g with
    | Acknowledged =>
        ok = true /\ isOnline (svc v') = true /\ retryCount (svc v') = 0
    | Unanswered _ =>
        ok = false /\ isOnline (svc v') = false /\
        retryCount (svc v') = retryCount (svc v)
    end.
Proof.
  destruct w as [d s p r n]. destruct v as [d' s' p' r' n'].
  unfold sendHeartbeat, bind at 1, gets at 1. cbn [svc].
  destruct (api s) as [ax|] eqn:Ha; [destruct (config s) as [c|] eqn:Hc|].
  - destruct d as [t|].
    + rewrite (bind_Return _ _ _ _ _ (getStats_run _ _ _ _ _ _)).
      unfold bind, now, observe, ret. norm.
      destruct g as [|[|]];
        (eexists _, _, _, _; split; [reflexivity|]);
        cbn; repeat split; assumption.
    + unfold getStats, bind, guard. norm.
      destruct g as [|[|]];
        (eexists _, _, _, _; split; [reflexivity|]);
        cbn; repeat split; assumption.
  - destruct g as [|[|]];
      (eexists _, _, _, _; split; [reflexivity|]);
      cbn; repeat split; assumption.
  - destruct g as [|[|]];
      (eexists _, _, _, _; split; [reflexivity|]);
      cbn; repeat split; assumption.
Qed.

(** X22. [forceSync] on an open database resets the retry counter to 0
    and then behaves as [syncFull]: while an attempt is in progress it
    starts none (no log row, nothing posted) and the counter is all it
    changes; on an idle engine it takes the lock and posts the queue as
    a full sync. It does not cancel a retry timer that is already
    armed. *)
Theorem forceSync_resets_retries (w : World) (t : Tables) :
  db w = Some t ->
  exists started w',
    forceSync w = Return started w' /\
    retryCount (svc w') = 0 /\
    retryTimers w' = retryTimers w /\
    (isSyncing (svc w) = true ->
       started = Resolved None /\
       w' = set_svc (set_retryCount 0 (svc w)) w) /\
    (Idle w ->
       started = AwaitingGateway /\
       exists a,
         InFlight w' a /\ at_syncType a = full /\
         rq_syncType (request a) = full /\
         pendingCheckins a = queueOf (checkins t) /\
         rq_checkins (request a) = queueOf (checkins t) /\
         length (syncLogOf w') = S (length (sync_log t))).
Proof.
  intros Hdb. open_db w Hdb.
  unfold forceSync, syncFull, bind at 1, update_svc at 1, modify at 1. norm.
  destruct (performSync_open full t (set_retryCount 0 svc0) posted0
              retryTimers0 steps0)
    as (pr & t' & s' & p' & n' & E & _ & _ & _ & _ & _ & _ & _ & _ & Hrc & _ &
        Hlocked & Hidle).
  rewrite E. eexists _, _. split; [reflexivity|]. norm.
  split; [exact Hrc|]. split; [reflexivity|]. split.
  - intros Hs. destruct (Hlocked Hs) as (-> & -> & -> & -> & ->). auto.
  - intros (Ha & [c Hc] & Hs).
    destruct (Hidle c Ha Hc Hs) as (-> & Hs' & -> & ->).
    split; [reflexivity|]. eexists. split; [split; [reflexivity|exact Hs']|].
    repeat (split; [reflexivity|]).
    unfold syncLogOf. norm. cbn. rewrite length_app. cbn. lia.
Qed.

(* ================================================================ *)
(** ** Retries *)
(* ================================================================ *)

Lemma insert_sync_log_frame ty started t :
  terminal_config (snd (Sql.insert_sync_log ty started t)) = terminal_config t /\
  users (snd (Sql.insert_sync_log ty started t)) = users t /\
  user_status (snd (Sql.insert_sync_log ty started t)) = user_status t /\
  checkins (snd (Sql.insert_sync_log ty started t)) = checkins t /\
  length (sync_log (snd (Sql.insert_sync_log ty started t))) =
    S (length (sync_log t)).
Proof.
  cbn. repeat split. rewrite length_app. cbn. lia.
Qed.

Lemma update_log_length f log rows :
  length (Sql.update_log f log rows) = length rows.
Proof. unfold Sql.update_log. apply length_map. Qed.

(** One incremental attempt on an idle engine that the gateway does not
    answer with success. *)
Lemma failed_attempt_run g t s p r n :
  is_Some (api s) -> is_Some (config s) -> isSyncing s = false ->
  match g with
  | Fulfilled data => success data = false
  | Rejected _ _ => True
  end ->
  let rc := match g with
            | Fulfilled _ => 0
            | Rejected _ _ => retryCount s
            end in
  exists t' s',
    attempt incremental g (Build_World (Some t) s p r n) =
    Return None
      (Build_World (Some t') s' None (if rc <? 3 then S r else r)
         (S (S (S n)))) /\
    api s' = api s /\ config s' = config s /\ isSyncing s' = false /\
    syncInterval s' = syncInterval s /\
    heartbeatInterval s' = heartbeatInterval s /\
    retryCount s' = (if rc <? 3 then rc + 1 else rc) /\
    isOnline s' = match g with
                  | Fulfilled _ => true
                  | Rejected _ hasResponse =>
                      if hasResponse then isOnline s else false
                  end /\
    terminal_config t' = terminal_config t /\ users t' = users t /\
    user_status t' = user_status t /\ checkins t' = checkins t /\
    length (sync_log t') = S (length (sync_log t)).
Proof.
  intros [ax Ha] [c Hc] Hs Hg rc. unfold attempt.
  rewrite (bind_Return _ _ _ _ _ (performSync_idle _ ax c _ _ _ _ _ Ha Hc Hs)).
  unfold performSync_response, bind at 1, gets at 1. cbn [posted].
  unfold bind at 1, modify at 1. norm.
  unfold finally, try_catch, performSync_try.
  pose proof (insert_sync_log_frame incremental (Date_now n) t)
    as (F1 & F2 & F3 & F4 & F5).
  destruct g as [data|m hasResponse].
  - unfold bind at 1, update_svc at 1, modify at 1. norm.
    rewrite Hg. unfold throw. rewrite performSync_catch_run.
    unfold unlock. norm. subst rc.
    cbn [retryCount set_retryCount set_isOnline set_isSyncing].
    change (0 <? maxRetries) with true. cbn match.
    eexists _, _. split; [reflexivity|].
    cbn [api config isSyncing syncInterval heartbeatInterval retryCount
         isOnline set_retryCount set_isOnline set_isSyncing].
    repeat (split; [assumption || reflexivity|]). tables.
    rewrite update_log_length. auto.
  - subst rc. destruct hasResponse;
      unfold bind at 1, update_svc, modify, ret, throw; norm;
      rewrite performSync_catch_run; unfold unlock; norm;
      cbn [retryCount set_retryCount set_isOnline set_isSyncing];
      unfold maxRetries;
      destruct (retryCount s <? 3);
      (eexists _, _; split; [reflexivity|]);
      cbn [api config isSyncing syncInterval heartbeatInterval retryCount
           isOnline set_retryCount set_isOnline set_isSyncing];
      repeat (split; [assumption || reflexivity|]); tables;
      rewrite update_log_length; auto.
Qed.

Lemma attempts_cons g gs w a w' :
  attempt incremental g w = Return a w' ->
  attempts (g :: gs) w = attempts gs w'.
Proof.
  intros E. unfold attempts. cbn [for_of].
  unfold bind at 1, discard, bind at 1. now rewrite E.
Qed.

(** X23. Retries after rejected calls are bounded. Starting from an idle,
    initialised engine with an open database and a retry counter of at
    most 3, run any number of incremental attempts one after the other
    with every gateway call rejected (with or without a response). Then
    every attempt returns null, the retry counter never exceeds 3, and
    exactly as many retry timers are armed as the counter has grown: at
    most 3 in all, however many attempts fail. Each attempt leaves one
    more sync_log row; the events, the users and the configuration are
    untouched and the engine is idle again. *)
Theorem rejections_arm_at_most_three_retries (gs : list GatewayResult) :
  forall (w : World) (t : Tables),
    db w = Some t -> Idle w -> retryCount (svc w) <= 3 ->
    forallb is_rejection gs = true ->
    exists w',
      attempts gs w = Return tt w' /\
      Idle w' /\
      retryCount (svc w') =
        Z.min 3 (retryCount (svc w) + Z.of_nat (length gs)) /\
      Z.of_nat (retryTimers w') =
        Z.of_nat (retryTimers w) + (retryCount (svc w') - retryCount (svc w)) /\
      checkinsOf w' = checkins t /\ usersOf w' = users t /\
      storedCheckpoint w' = storedCheckpoint w /\
      heldCheckpoint w' = heldCheckpoint w /\
      length (syncLogOf w') = (length (sync_log t) + length gs)%nat.
Proof.
  induction gs as [|g gs IH]; intros w t Hdb Hidle Hrc Hall.
  - exists w. split; [reflexivity|]. split; [exact Hidle|].
    unfold checkinsOf, usersOf, syncLogOf. rewrite Hdb. cbn [length].
    repeat split; lia.
  - cbn [forallb] in Hall. apply andb_prop in Hall as [Hg Hall].
    destruct g as [data|m hasResponse]; [discriminate|].
    open_db w Hdb. destruct Hidle as (Ha & Hc & Hs). cbn [svc] in *.
    destruct (failed_attempt_run (Rejected m hasResponse) t svc0 posted0
                retryTimers0 steps0 Ha Hc Hs I)
      as (t' & s' & E & Ha' & Hc' & Hs' & _ & _ & Hrc' & _ & F1 & F2 & F3 &
          F4 & F5).
    cbv zeta in E, Hrc'.
    rewrite (attempts_cons _ gs _ _ _ E).
    destruct (IH (Build_World (Some t') s' None
                    (if retryCount svc0 <? 3 then S retryTimers0
                     else retryTimers0) (S (S (S steps0)))) t' eq_refl)
      as (w' & E' & Hidle' & R1 & R2 & R3 & R4 & R5 & R6 & R7).
    + unfold Idle. cbn [svc]. rewrite Ha', Hc'. auto.
    + cbn [svc]. rewrite Hrc'. destruct (Z.ltb_spec (retryCount svc0) 3); lia.
    + exact Hall.
    + exists w'. split; [exact E'|]. split; [exact Hidle'|].
      cbn [svc retryTimers] in R1, R2.
      unfold storedCheckpoint, heldCheckpoint in *. cbn [db svc] in *.
      rewrite Hrc' in R1, R2. cbn [length].
      assert (S5 : db w' ≫= (fun t0 => terminal_config t0 ≫= last_sync_at) =
                   Some t ≫= (fun t0 => terminal_config t0 ≫= last_sync_at)).
      { rewrite R5. cbn [mbind option_bind]. now rewrite F1. }
      destruct (Z.ltb_spec (retryCount svc0) 3);
        repeat split; try lia; try congruence; try assumption.
Qed.

(** X24. A refusal re-arms the retry every time. When the gateway
    answers an attempt with success = false, the response interceptor
    has already reset the retry counter to 0 before the attempt fails, so
    the attempt always arms a retry timer and leaves the counter at 1,
    whatever the counter was before, also when it stood at the maximum.
    After any number of such attempts in a row, as many retry timers are
    armed as attempts were made; the engine is online and idle, and
    events and checkpoint are untouched. *)
Theorem refusals_always_retry (gs : list GatewayResult) :
  forall (w : World) (t : Tables),
    db w = Some t -> Idle w ->
    gs <> [] ->
    forallb is_refusal gs = true ->
    exists w',
      attempts gs w = Return tt w' /\
      Idle w' /\
      retryCount (svc w') = 1 /\
      retryTimers w' = (retryTimers w + length gs)%nat /\
      isOnline (svc w') = true /\
      checkinsOf w' = checkins t /\
      storedCheckpoint w' = storedCheckpoint w /\
      heldCheckpoint w' = heldCheckpoint w /\
      length (syncLogOf w') = (length (sync_log t) + length gs)%nat.
Proof.
  induction gs as [|g gs IH]; intros w t Hdb Hidle Hne Hall; [congruence|].
  cbn [forallb] in Hall. apply andb_prop in Hall as [Hg Hall].
  destruct g as [data|m hasResponse]; [|discriminate].
  cbn [is_refusal] in Hg. apply negb_true_iff in Hg.
  open_db w Hdb. destruct Hidle as (Ha & Hc & Hs). cbn [svc] in *.
  destruct (failed_attempt_run (Fulfilled data) t svc0 posted0
              retryTimers0 steps0 Ha Hc Hs Hg)
    as (t' & s' & E & Ha' & Hc' & Hs' & _ & _ & Hrc' & Hon & F1 & F2 & F3 &
        F4 & F5).
  cbv zeta in E, Hrc'. change (0 <? 3) with true in E, Hrc'. cbn match in E, Hrc'.
  rewrite (attempts_cons _ gs _ _ _ E).
  destruct gs as [|g' gs'].
  - eexists. split; [reflexivity|].
    unfold Idle, checkinsOf, syncLogOf, storedCheckpoint, heldCheckpoint.
    cbn [svc db retryTimers length mbind option_bind]. rewrite Ha', Hc', F1.
    repeat split; auto; try lia; try congruence.
  - destruct (IH (Build_World (Some t') s' None (S retryTimers0)
                    (S (S (S steps0)))) t' eq_refl)
      as (w' & E' & Hidle' & R1 & R2 & R3 & R4 & R5 & R6 & R7);
      [unfold Idle; cbn [svc]; rewrite Ha', Hc'; auto|discriminate|exact Hall|].
    exists w'. split; [exact E'|]. split; [exact Hidle'|].
    unfold storedCheckpoint, heldCheckpoint in *. cbn [db svc retryTimers] in *.
    cbn [length] in *.
    assert (S5 : db w' ≫= (fun t0 => terminal_config t0 ≫= last_sync_at) =
                 Some t ≫= (fun t0 => terminal_config t0 ≫= last_sync_at)).
    { rewrite R5. cbn [mbind option_bind]. now rewrite F1. }
    repeat split; try lia; try congruence; try assumption.
Qed.

(* ================================================================ *)
(** ** Settings, statistics and reset around a sync attempt *)
(* ================================================================ *)

(** X25. [updateSettings], which runs inside a successful attempt (the
    lock is held), replaces the six settings of the held configuration
    by the server's and keeps what identifies the terminal: terminalId,
    tenantId, name, location, apiKey, serverUrl and the checkpoint stay,
    and the client is not rebuilt. The new configuration is saved, so
    [getTerminalConfig] returns the new settings. A running sync timer is
    re-armed with the new interval without starting a second attempt; a
    stopped timer stays stopped. Events and sync log are not touched. *)
Theorem updateSettings_keeps_identity (w : World) (t : Tables)
    (c : TerminalConfig) (st : ServerSettings) :
  db w = Some t -> config (svc w) = Some c -> isSyncing (svc w) = true ->
  exists w' c' stored,
    updateSettings st w = Return tt w' /\
    config (svc w') = Some c' /\
    syncIntervalSeconds c' = ss_syncIntervalSeconds st /\
    offlineBufferHours c' = ss_offlineBufferHours st /\
    nfcEnabled c' = ss_nfcEnabled st /\
    pinFallbackEnabled c' = ss_pinFallbackEnabled st /\
    timezone c' = ss_timezone st /\ language c' = ss_language st /\
    terminalId c' = terminalId c /\ tenantId c' = tenantId c /\
    name c' = name c /\ location c' = location c /\
    apiKey c' = apiKey c /\ serverUrl c' = serverUrl c /\
    lastSyncAt c' = lastSyncAt c /\
    api (svc w') = api (svc w) /\
    getTerminalConfig w' = Return (Some stored) w' /\
    syncIntervalSeconds stored = ss_syncIntervalSeconds st /\
    nfcEnabled stored = ss_nfcEnabled st /\
    pinFallbackEnabled stored = ss_pinFallbackEnabled st /\
    terminalId stored = terminalId c /\ apiKey stored = apiKey c /\
    lastSyncAt stored = Js.orNullZ (lastSyncAt c) /\
    match syncInterval (svc w) with
    | Some _ =>
        syncInterval (svc w') = Some (ss_syncIntervalSeconds st * 1000) /\
        heartbeatInterval (svc w') = Some 30000
    | None =>
        syncInterval (svc w') = None /\
        heartbeatInterval (svc w') = heartbeatInterval (svc w)
    end /\
    posted w' = posted w /\ isSyncing (svc w') = true /\
    checkinsOf w' = checkins t /\ syncLogOf w' = sync_log t /\
    usersOf w' = users t.
Proof.
  intros Hdb Hc Hs. open_db w Hdb.
  unfold updateSettings, bind at 1, gets at 1. cbn [svc]. rewrite Hc.
  cbv zeta. unfold bind at 1, update_svc at 1, modify at 1. norm.
  rewrite (bind_Return _ _ _ _ _ (saveTerminalConfig_run _ _ _ _ _ _)).
  unfold bind at 1, gets at 1. cbn [svc syncInterval set_config].
  destruct (syncInterval svc0) as [timer|] eqn:Ht.
  - match goal with
    | |- context [startAutoSync (Build_World (Some ?t1) ?s1 ?p1 ?r1 ?n1)] =>
        destruct (startAutoSync_run (apply_settings st c) t1 s1 p1 r1 n1 eq_refl)
          as (t' & s' & p' & n' & E & H1 & H2 & H3 & H4 & H5 & H6 & H7 & H8 &
              _ & _ & Hlocked & _)
    end.
    destruct (Hlocked Hs) as (-> & -> & -> & Hs').
    eexists _, (apply_settings st c), _. split; [exact E|]. norm.
    split; [exact H5|].
    repeat (split; [reflexivity|]).
    split; [exact H6|].
    rewrite getTerminalConfig_run. tables. split; [reflexivity|].
    cbn [syncIntervalSeconds nfcEnabled pinFallbackEnabled terminalId apiKey
         lastSyncAt tc_sync_interval_seconds tc_nfc_enabled
         tc_pin_fallback_enabled tc_terminal_id tc_api_key last_sync_at
         config_row apply_settings].
    split; [reflexivity|].
    split; [now destruct (ss_nfcEnabled st)|].
    split; [now destruct (ss_pinFallbackEnabled st)|].
    repeat (split; [reflexivity|]).
    split; [split; assumption|].
    split; [reflexivity|]. split; [exact Hs'|].
    unfold checkinsOf, syncLogOf, usersOf. norm. tables. repeat split.
  - eexists _, (apply_settings st c), _. split; [reflexivity|]. norm.
    cbn [config set_config api].
    do 15 (split; [reflexivity|]).
    rewrite getTerminalConfig_run. tables. split; [reflexivity|].
    cbn [syncIntervalSeconds nfcEnabled pinFallbackEnabled terminalId apiKey
         lastSyncAt tc_sync_interval_seconds tc_nfc_enabled
         tc_pin_fallback_enabled tc_terminal_id tc_api_key last_sync_at
         config_row apply_settings].
    split; [reflexivity|].
    split; [now destruct (ss_nfcEnabled st)|].
    split; [now destruct (ss_pinFallbackEnabled st)|].
    repeat (split; [reflexivity|]).
    cbn [syncInterval heartbeatInterval isSyncing set_config].
    split; [split; [exact Ht|reflexivity]|].
    split; [reflexivity|]. split; [exact Hs|].
    unfold checkinsOf, syncLogOf, usersOf. norm. tables. repeat split.
Qed.

Lemma orNullZ_idem x : Js.orNullZ (Js.orNullZ x) = Js.orNullZ x.
Proof.
  unfold Js.orNullZ. destruct (Js.truthyZ x) eqn:E; [now rewrite E|reflexivity].
Qed.

Lemma syncStats_run localMidnight t s p r n :
  syncStats localMidnight (Build_World (Some t) s p r n) =
  Return
    {| sy_isOnline := isOnline s;
       sy_isSyncing := isSyncing s;
       sy_lastSyncAt := Js.orNullZ (config s ≫= lastSyncAt);
       sy_pendingCount := Sql.count Sql.is_pending (checkins t);
       sy_syncInterval :=
         match config s with
         | Some c =>
             if syncIntervalSeconds c =? 0 then 60 else syncIntervalSeconds c
         | None => 60
         end |}
    (Build_World (Some t) s p r (S n)).
Proof.
  unfold syncStats. rewrite (bind_Return _ _ _ _ _ (getStats_run _ _ _ _ _ _)).
  reflexivity.
Qed.

(** X26. After a successful response to an attempt in flight, the two
    statistics agree: [SyncService.getStats] and [Database.getStats]
    both report the response's serverTimestamp as lastSyncAt (null when
    it is 0), isSyncing is false again, and the pending count of both is
    the number of events left 'pending'. Neither call changes anything
    but the clock reading it takes. *)
Theorem stats_agree_after_success (localMidnight : Z -> Z) (w : World)
    (t : Tables) (a : Attempt) (c : TerminalConfig) (data : SyncResponse) :
  db w = Some t -> InFlight w a -> config (svc w) = Some c ->
  success data = true ->
  exists w' engine store,
    performSync_response (Fulfilled data) w = Return (Some data) w' /\
    syncStats localMidnight w' = Return engine (set_steps (S (steps w')) w') /\
    getStats localMidnight w' = Return store (set_steps (S (steps w')) w') /\
    sy_lastSyncAt engine = Js.orNullZ (Some (serverTimestamp data)) /\
    st_lastSyncAt store = Js.orNullZ (Some (serverTimestamp data)) /\
    sy_isSyncing engine = false /\
    sy_pendingCount engine = st_pendingCheckins store /\
    st_pendingCheckins store =
      Z.of_nat (length (List.filter Sql.is_pending (checkinsOf w'))).
Proof.
  intros Hdb [Hp Hs] Hc Hok. open_db w Hdb.
  destruct (performSync_response_success a data c t svc0 retryTimers0 steps0
              Hc Hs Hok)
    as (t' & s' & c' & k & tc & E & _ & _ & _ & H4 & H5 & H6 & H7 & _).
  eexists _, _, _. split; [exact E|].
  rewrite syncStats_run, getStats_run. norm.
  split; [reflexivity|]. split; [reflexivity|].
  cbn [sy_lastSyncAt st_lastSyncAt sy_isSyncing sy_pendingCount
       st_pendingCheckins].
  rewrite H5, H4, H7. cbn [mbind option_bind config_row last_sync_at].
  rewrite H6. unfold checkinsOf. norm.
  split; [reflexivity|]. split.
  - apply orNullZ_idem.
  - repeat split.
Qed.

Lemma clearAllData_run t s p r n :
  clearAllData (Build_World (Some t) s p r n) =
  Return tt
    (Build_World
       (Some {| terminal_config := None; users := ∅; user_status := ∅;
                checkins := []; checkins_seq := checkins_seq t;
                sync_log := []; sync_log_seq := sync_log_seq t |})
       s p r n).
Proof. reflexivity. Qed.

(** X27. Resetting the terminal does not reset the engine.
    [resetTerminal] on an open database empties every table and clears
    the two timers, but the engine keeps its client, its configuration,
    its lock and an attempt that is in flight, and a retry timer that is
    armed stays armed. So when the response to an attempt that was in
    flight arrives after the reset and reports success, the
    configuration row is written again from the engine's copy, with the
    response's serverTimestamp as checkpoint; and on an idle engine a
    trigger after the reset (the one a retry timer fires) starts a new
    attempt. *)
Theorem reset_does_not_reset_engine (w : World) (t : Tables)
    (c : TerminalConfig) :
  db w = Some t -> config (svc w) = Some c -> is_Some (api (svc w)) ->
  exists w1,
    resetTerminal w = Return tt w1 /\
    getTerminalConfig w1 = Return None w1 /\
    checkinsOf w1 = [] /\ usersOf w1 = ∅ /\ syncLogOf w1 = [] /\
    syncInterval (svc w1) = None /\ heartbeatInterval (svc w1) = None /\
    config (svc w1) = Some c /\ api (svc w1) = api (svc w) /\
    isSyncing (svc w1) = isSyncing (svc w) /\
    posted w1 = posted w /\ retryTimers w1 = retryTimers w /\
    (forall a data,
       InFlight w a -> success data = true ->
       exists w2 c',
         performSync_response (Fulfilled data) w1 = Return (Some data) w2 /\
         config (svc w2) = Some c' /\
         lastSyncAt c' = Some (serverTimestamp data) /\
         db w2 ≫= terminal_config = Some (config_row c') /\
         exists stored,
           getTerminalConfig w2 = Return (Some stored) w2 /\
           lastSyncAt stored = Js.orNullZ (Some (serverTimestamp data))) /\
    (isSyncing (svc w) = false ->
     exists w2 a,
       syncIncremental w1 = Return AwaitingGateway w2 /\ InFlight w2 a /\
       rq_terminalId (request a) = terminalId c /\
       rq_checkins (request a) = []).
Proof.
  intros Hdb Hc Ha. open_db w Hdb.
  unfold resetTerminal, bind at 1, stopAutoSync, update_svc, modify. norm.
  rewrite clearAllData_run.
  eexists. split; [reflexivity|].
  rewrite getTerminalConfig_run. tables. split; [reflexivity|].
  unfold checkinsOf, usersOf, syncLogOf. norm. tables.
  cbn [syncInterval heartbeatInterval config api isSyncing set_timers].
  repeat (split; [assumption || reflexivity|]).
  split.
  - intros a data [Hp Hs] Hok. cbn [posted svc] in Hp, Hs. subst posted0.
    match goal with
    | |- context [Build_World (Some ?t1) ?s1 (Some a) ?r1 ?n1] =>
        destruct (performSync_response_success a data c t1 s1 r1 n1 Hc Hs Hok)
          as (t' & s' & c' & k & tc & E & _ & _ & _ & H4 & H5 & H6 & _)
    end.
    eexists _, c'. split; [exact E|]. norm.
    split; [exact H5|]. split; [exact H6|].
    cbn [mbind option_bind]. split; [exact H4|].
    rewrite getTerminalConfig_run, H4. eexists. split; [reflexivity|].
    cbn [lastSyncAt config_row last_sync_at]. now rewrite H6.
  - intros Hs. destruct Ha as [ax Ha]. unfold syncIncremental.
    rewrite (performSync_idle incremental ax c) by assumption.
    eexists _, _. split; [reflexivity|].
    split; [split; reflexivity|]. split; reflexivity.
Qed.

Lemma initialize_run t s p r n :
  initialize (Build_World (Some t) s p r n) =
  match terminal_config t with
  | None => Return false (Build_World (Some t) (set_config None s) p r n)
  | Some row =>
      Return true
        (Build_World (Some t)
           (set_api (Some {| baseURL := tc_server_url row; timeout := 30000 |})
              (set_config
                 (Some {| terminalId := tc_terminal_id row;
                          tenantId := tc_tenant_id row;
                          name := tc_name row;
                          location := tc_location row;
                          apiKey := tc_api_key row;
                          serverUrl := tc_server_url row;
                          syncIntervalSeconds := tc_sync_interval_seconds row;
                          offlineBufferHours := tc_offline_buffer_hours row;
                          nfcEnabled := tc_nfc_enabled row =? 1;
                          pinFallbackEnabled := tc_pin_fallback_enabled row =? 1;
                          timezone := tc_timezone row;
                          language := tc_language row;
                          lastSyncAt := last_sync_at row |}) s)) p r n)
  end.
Proof.
  unfold initialize, try_catch.
  rewrite (bind_Return _ _ _ _ _ (getTerminalConfig_run _ _ _ _ _)).
  now destruct (terminal_config t).
Qed.

(** X28. The full synchronisation of [registerTerminal] never runs. On
    an open database [registerTerminal c] saves the configuration,
    initialises the engine with it and starts the timers; the
    incremental attempt that [startAutoSync] triggers takes the lock (or
    finds it taken), so the [syncFull] that follows is skipped and
    returns null, whatever the state of the engine was. When the engine
    was not locked, the one attempt in flight afterwards is the
    incremental one, and the one sync_log row written is 'incremental'. *)
Theorem registerTerminal_skips_full_sync (w : World) (t : Tables)
    (c : TerminalConfig) :
  db w = Some t ->
  exists w' held,
    registerTerminal c w = Return (Resolved None) w' /\
    isSyncing (svc w') = true /\
    config (svc w') = Some held /\
    getTerminalConfig w' = Return (Some held) w' /\
    terminalId held = terminalId c /\ serverUrl held = serverUrl c /\
    api (svc w') = Some {| baseURL := serverUrl c; timeout := 30000 |} /\
    syncInterval (svc w') = Some (syncIntervalSeconds c * 1000) /\
    heartbeatInterval (svc w') = Some 30000 /\
    checkinsOf w' = checkins t /\
    (isSyncing (svc w) = false ->
     exists a row,
       posted w' = Some a /\ at_syncType a = incremental /\
       rq_syncType (request a) = incremental /\
       syncLogOf w' = (sync_log t ++ [row])%list /\
       sync_type row = incremental /\ sl_id row = logId a) /\
    (isSyncing (svc w) = true ->
     posted w' = posted w /\ syncLogOf w' = sync_log t).
Proof.
  intros Hdb. open_db w Hdb. unfold registerTerminal.
  rewrite (bind_Return _ _ _ _ _ (saveTerminalConfig_run _ _ _ _ _ _)).
  unfold bind at 1. rewrite initialize_run. tables.
  match goal with
  | |- context [Build_World (Some ?t1) ?s1 posted0 retryTimers0 steps0] =>
      set (t1' := t1); set (s1' := s1)
  end.
  assert (Hc1 : exists held, config s1' = Some held /\
                  terminalId held = terminalId c /\
                  serverUrl held = serverUrl c /\
                  syncIntervalSeconds held = syncIntervalSeconds c /\
                  getTerminalConfig
                    (Build_World (Some t1') s1' posted0 retryTimers0 steps0) =
                  Return (Some held)
                    (Build_World (Some t1') s1' posted0 retryTimers0 steps0)).
  { eexists. split; [reflexivity|]. repeat split. }
  destruct Hc1 as (held & Hheld & Hid & Hurl & Hint & Hget).
  destruct (startAutoSync_run held t1' s1' posted0 retryTimers0 steps0 Hheld)
    as (t' & s' & p' & n' & E & H1 & H2 & H3 & H4 & H5 & H6 & H7 & H8 & _ & _ &
        Hlocked & Hidle).
  unfold bind at 1. rewrite E.
  assert (Hs' : isSyncing s' = true).
  { destruct (isSyncing svc0) eqn:Hs.
    - now destruct (Hlocked Hs) as (_ & _ & _ & ?).
    - now destruct (Hidle ltac:(eexists; reflexivity) Hs) as (? & _). }
  unfold syncFull. rewrite performSync_locked by exact Hs'.
  eexists _, held. split; [reflexivity|]. norm.
  split; [exact Hs'|]. split; [exact H5|].
  split.
  { rewrite getTerminalConfig_run, H1. clear -Hheld. subst t1' s1'.
    cbn in Hheld. injection Hheld as <-. reflexivity. }
  split; [exact Hid|]. split; [exact Hurl|].
  split; [rewrite H6; reflexivity|].
  split; [now rewrite H7, Hint|]. split; [exact H8|].
  unfold checkinsOf, syncLogOf. norm.
  split; [rewrite H4; reflexivity|]. split.
  - intros Hs. destruct (Hidle ltac:(eexists; reflexivity) Hs) as (_ & -> & ->).
    eexists _, _. split; [reflexivity|]. split; [reflexivity|].
    split; [reflexivity|]. split; [reflexivity|]. split; reflexivity.
  - intros Hs. destruct (Hlocked Hs) as (-> & -> & _ & _). split; reflexivity.
Qed.

(* ================================================================ *)
(** ** The keys of the schema *)
(* ================================================================ *)

Lemma NoDup_snoc {A} (l : list A) x :
  List.NoDup l -> ~ In x l -> List.NoDup (l ++ [x]).
Proof.
  induction 1 as [|y l Hy Hl IH]; cbn; intros Hx.
  - constructor; [tauto|constructor].
  - constructor.
    + rewrite in_app_iff. cbn. intros [H|[H|[]]]; [tauto|subst; tauto].
    + apply IH. tauto.
Qed.

Lemma NoDup_map_filter {A B} (f : A -> B) (p : A -> bool) l :
  List.NoDup (map f l) -> List.NoDup (map f (List.filter p l)).
Proof.
  induction l as [|x l IH]; cbn; intros H; [constructor|].
  inversion H as [|? ? Hx Hl]; subst.
  destruct (p x); cbn; [|auto].
  constructor; [|auto].
  rewrite in_map_iff. intros (y & E & Hy). apply filter_In in Hy as [Hy _].
  apply Hx. rewrite in_map_iff. eauto.
Qed.

Lemma update_sync_ids l st a e rows :
  map c_id (Sql.update_sync l st a e rows) = map c_id rows.
Proof.
  unfold Sql.update_sync. rewrite map_map. apply map_ext.
  intros r. now destruct (String.eqb (local_id r) l).
Qed.

Lemma update_log_ids f log rows :
  (forall r, sl_id (f r) = sl_id r) ->
  map sl_id (Sql.update_log f log rows) = map sl_id rows.
Proof.
  intros Hf. unfold Sql.update_log. rewrite map_map. apply map_ext.
  intros r. destruct (sl_id r =? log); [apply Hf|reflexivity].
Qed.

Lemma next_rowid_new seq ids : ~ In (Sql.next_rowid seq ids) ids.
Proof. intros H. apply (next_rowid_fresh seq) in H. lia. Qed.

Lemma call_keeps_keys c t s p r n :
  keys_unique t ->
  exists t' s' p' r' n',
    final (call c (Build_World (Some t) s p r n)) =
    Build_World (Some t') s' p' r' n' /\
    keys_unique t'.
Proof.
  intros (K1 & K2 & K3). destruct c; cbn [call].
  - rewrite saveTerminalConfig_run. cbn [final].
    eexists _, _, _, _, _. split; [reflexivity|]. now split.
  - rewrite saveUser_exact. cbn [final].
    eexists _, _, _, _, _. split; [reflexivity|]. now split.
  - destruct (saveUsers_run us t s p r n) as (m & k & ->). cbn [final].
    eexists _, _, _, _, _. split; [reflexivity|]. now split.
  - unfold discard, bind at 1. rewrite getUserStatus_run.
    destruct (user_status t !! uid) as [row|];
      [destruct (negb _)|]; cbn [final ret];
      (eexists _, _, _, _, _; split; [reflexivity|]); now split.
  - rewrite updateUserStatus_run. cbn [final].
    eexists _, _, _, _, _. split; [reflexivity|]. now split.
  - rewrite saveCheckin_run.
    destruct (Sql.local_id_taken (localId c) (checkins t)) eqn:Ht; cbn [final];
      (eexists _, _, _, _, _; split; [reflexivity|]); [now split|].
    apply local_id_taken_not_In in Ht.
    unfold keys_unique, localIds. tables. rewrite !map_app. cbn [map].
    split; [apply NoDup_snoc; assumption|].
    split; [apply NoDup_snoc; [assumption|apply next_rowid_new]|assumption].
  - rewrite updateCheckinSyncStatus_run. cbn [final].
    eexists _, _, _, _, _. split; [reflexivity|].
    unfold keys_unique. tables.
    now rewrite update_sync_localIds, update_sync_ids.
  - unfold discard, deleteOldSyncedCheckins, bind, guard, now, observe, query,
      exec, ret. norm. cbn [final].
    eexists _, _, _, _, _. split; [reflexivity|].
    unfold keys_unique, localIds. tables.
    split; [now apply NoDup_map_filter|].
    split; [now apply NoDup_map_filter|assumption].
  - unfold discard, bind at 1. rewrite logSyncStart_run. cbn [final ret].
    eexists _, _, _, _, _. split; [reflexivity|].
    unfold keys_unique. cbn. rewrite map_app. cbn [map].
    split; [assumption|]. split; [assumption|].
    apply NoDup_snoc; [assumption|apply next_rowid_new].
  - rewrite logSyncComplete_run. cbn [final].
    eexists _, _, _, _, _. split; [reflexivity|].
    unfold keys_unique. tables.
    rewrite update_log_ids by reflexivity. now split.
  - rewrite logSyncFailed_run. cbn [final].
    eexists _, _, _, _, _. split; [reflexivity|].
    unfold keys_unique. tables.
    rewrite update_log_ids by reflexivity. now split.
  - rewrite clearAllData_run. cbn [final].
    eexists _, _, _, _, _. split; [reflexivity|].
    unfold keys_unique. cbn. repeat split; constructor.
Qed.

(** X29. The keys stay unique. Starting from an open database in which
    no two events share a localId or a rowid and no two sync_log rows
    share an id, run any sequence of the writing methods of [Database]
    (a call that throws is skipped over). Then the database is still
    open and the same holds at the end: [saveCheckin] refuses a stored
    localId, new rows get a rowid above every rowid in the table, and the
    UPDATEs and DELETEs never change an id. *)
Theorem keys_stay_unique (cs : list DatabaseCall) :
  forall (w : World) (t : Tables),
    db w = Some t -> keys_unique t ->
    exists t', db (run_calls cs w) = Some t' /\ keys_unique t'.
Proof.
  induction cs as [|c cs IH]; intros w t Hdb Hk.
  - exists t. auto.
  - open_db w Hdb. cbn [run_calls].
    destruct (call_keeps_keys c t svc0 posted0 retryTimers0 steps0 Hk)
      as (t' & s' & p' & r' & n' & -> & Hk').
    now apply (IH _ t').
Qed.

(* ================================================================ *)
(** ** The store's copy of the configuration *)
(* ================================================================ *)

(** The success branch when the response carries no settings: the engine
    saves its own configuration with the new checkpoint. *)
Lemma performSync_success_plain a data c t s p r n :
  config s = Some c -> isSyncing s = true -> settings data = None ->
  exists t' s' k,
    performSync_success a data (Build_World (Some t) s p r n) =
    Return (Some data) (Build_World (Some t') s' p r k) /\
    terminal_config t' =
      Some (config_row (set_lastSyncAt (Some (serverTimestamp data)) c)) /\
    config s' = Some (set_lastSyncAt (Some (serverTimestamp data)) c) /\
    isSyncing s' = true.
Proof.
  intros Hc Hs Hset. unfold performSync_success. cbv zeta.
  rewrite (bind_Return _ _ _ _ _ (mark_synced_run _ _ _ _ _ _)).
  rewrite (bind_Return _ _ _ _ _ (mark_failed_run _ _ _ _ _ _)).
  match goal with
  | |- context [Build_World (Some ?t1) s p r ?n1] =>
      destruct (users_branch_run (rs_users data) t1 s p r n1) as (m & k1 & E1)
  end.
  rewrite (bind_Return _ _ _ _ _ E1). clear E1.
  rewrite Hset. unfold bind at 1, ret at 1.
  rewrite (bind_Return _ _ _ _ _ (conflicts_branch_run _ _ _ _ _ _)).
  unfold bind at 1, this_config at 1. cbn [svc]. rewrite Hc.
  unfold bind at 1, update_svc at 1, modify at 1. norm.
  rewrite (bind_Return _ _ _ _ _ (saveTerminalConfig_run _ _ _ _ _ _)).
  rewrite (bind_Return _ _ _ _ _ (logSyncComplete_run _ _ _ _ _ _ _ _ _)).
  unfold ret. eexists _, _, _. split; [reflexivity|].
  cbn [terminal_config set_terminal_config set_sync_log config set_config
       isSyncing].
  repeat split. exact Hs.
Qed.

(** X30. A change made through the store's [updateConfig] does not reach
    the engine and is lost at the next successful sync. [updateConfig]
    saves the store's copy of the configuration with the updates spread
    over it, so [getTerminalConfig] returns the updated flags, and it
    leaves the configuration held by the engine as it was. When an
    attempt on the idle engine then succeeds with a response that carries
    no settings, the engine saves its own copy with the new checkpoint:
    [getTerminalConfig] returns the engine's flags, interval, name and
    serverUrl again, not the updated ones. *)
Theorem updateConfig_is_overwritten_by_sync (w : World) (t : Tables)
    (store engine : TerminalConfig) (updates : ConfigUpdates)
    (ty : SyncType) (data : SyncResponse) :
  db w = Some t -> Idle w -> config (svc w) = Some engine ->
  success data = true -> settings data = None ->
  exists w1 w2 saved restored,
    updateConfig (Some store) updates w =
      Return (Some (spread store updates)) w1 /\
    getTerminalConfig w1 = Return (Some saved) w1 /\
    nfcEnabled saved = default (nfcEnabled store) (cu_nfcEnabled updates) /\
    pinFallbackEnabled saved =
      default (pinFallbackEnabled store) (cu_pinFallbackEnabled updates) /\
    syncIntervalSeconds saved =
      default (syncIntervalSeconds store) (cu_syncIntervalSeconds updates) /\
    name saved = default (name store) (cu_name updates) /\
    config (svc w1) = Some engine /\
    attempt ty (Fulfilled data) w1 = Return (Some data) w2 /\
    getTerminalConfig w2 = Return (Some restored) w2 /\
    nfcEnabled restored = nfcEnabled engine /\
    pinFallbackEnabled restored = pinFallbackEnabled engine /\
    syncIntervalSeconds restored = syncIntervalSeconds engine /\
    name restored = name engine /\ serverUrl restored = serverUrl engine /\
    lastSyncAt restored = Js.orNullZ (Some (serverTimestamp data)) /\
    config (svc w2) =
      Some (set_lastSyncAt (Some (serverTimestamp data)) engine).
Proof.
  intros Hdb (Ha & _ & Hs) Hc Hok Hset. open_db w Hdb. cbn [svc] in *.
  destruct Ha as [ax Ha].
  set (t1 := set_terminal_config (Some (config_row (spread store updates))) t).
  assert (Hatt : exists t' s' k,
            attempt ty (Fulfilled data)
              (Build_World (Some t1) svc0 posted0 retryTimers0 steps0) =
            Return (Some data) (Build_World (Some t') s' None retryTimers0 k) /\
            terminal_config t' =
              Some (config_row
                      (set_lastSyncAt (Some (serverTimestamp data)) engine)) /\
            config s' =
              Some (set_lastSyncAt (Some (serverTimestamp data)) engine)).
  { unfold attempt.
    rewrite (bind_Return _ _ _ _ _
               (performSync_idle ty ax engine _ _ _ _ _ Ha Hc Hs)).
    unfold performSync_response, bind at 1, gets at 1. cbn [posted].
    unfold bind at 1, modify at 1. norm.
    unfold finally, try_catch, performSync_try.
    unfold bind at 1, update_svc at 1, modify at 1. norm. rewrite Hok.
    match goal with
    | |- context [performSync_success ?a data
                    (Build_World (Some ?t2) ?s2 ?p2 ?r2 ?n2)] =>
        destruct (performSync_success_plain a data engine t2 s2 p2 r2 n2
                    Hc eq_refl Hset)
          as (t' & s' & k & E & Hrow & Hc' & _)
    end.
    rewrite E. unfold unlock. norm.
    eexists _, _, _. split; [reflexivity|]. split; [exact Hrow|exact Hc']. }
  destruct Hatt as (t' & s' & k & E2 & Hrow & Hc').
  unfold updateConfig. cbv zeta.
  rewrite (bind_Return _ _ _ _ _ (saveTerminalConfig_run _ _ _ _ _ _)).
  unfold ret at 1. fold t1.
  eexists _, _, _, _. split; [reflexivity|].
  rewrite getTerminalConfig_run. subst t1. tables. split; [reflexivity|].
  cbn [nfcEnabled pinFallbackEnabled syncIntervalSeconds name config_row spread
       tc_nfc_enabled tc_pin_fallback_enabled tc_sync_interval_seconds tc_name].
  split; [now destruct (default (nfcEnabled store) (cu_nfcEnabled updates))|].
  split; [now destruct (default (pinFallbackEnabled store)
                          (cu_pinFallbackEnabled updates))|].
  split; [reflexivity|]. split; [reflexivity|]. split; [exact Hc|].
  split; [exact E2|].
  rewrite getTerminalConfig_run, Hrow. split; [reflexivity|].
  cbn [nfcEnabled pinFallbackEnabled syncIntervalSeconds name serverUrl
       lastSyncAt config_row set_lastSyncAt tc_nfc_enabled
       tc_pin_fallback_enabled tc_sync_interval_seconds tc_name tc_server_url
       last_sync_at].
  split; [now destruct (nfcEnabled engine)|].
  split; [now destruct (pinFallbackEnabled engine)|].
  repeat (split; [reflexivity|]). exact Hc'.
Qed.

End Program.

(* ================================================================== *)
(** ** The program run on the sample terminal *)
(* ================================================================== *)

(** A trigger on the idle sample terminal leaves it in [Sample.in_flight]. *)
Lemma sample_trigger :
  performSync Sample.clock incremental (Sample.world Sample.three_pending) =
  Return AwaitingGateway Sample.in_flight.
Proof. vm_compute. reflexivity. Qed.

(** The toggle scenario: a user without a status row toggles and is
    checked in; the same user toggles ninety minutes later and is checked
    out with 90 minutes for the day. *)
Lemma sample_toggle_twice :
  let toggle :=
    toggleCheckin Sample.two_stamps Sample.random36 Sample.onLine
      Sample.toISODate Sample.toString36 13 "Grace" pin None in
  let first := toggle (Sample.world Sample.three_pending) in
  let second := toggle (final first) in
  (exists rec, first = Return (check_in, rec) (final first)) /\
  (is_checked_in <$> statusRowOf (final first) 13) = Some 1 /\
  (exists rec, second = Return (check_out, rec) (final second)) /\
  (is_checked_in <$> statusRowOf (final second) 13) = Some 0 /\
  (total_today_minutes <$> statusRowOf (final second) 13) = Some 90.
Proof.
  cbv zeta. repeat split; try (vm_compute; reflexivity);
    eexists; vm_compute; reflexivity.
Qed.

(* ------------------------------------------------------------------ *)
(** *** C1 *)

(** C1, counterexample. The stored checkpoint is 1699999000000; an attempt
    succeeds with serverTimestamp 1699990000000; the stored checkpoint is
    then 1699990000000, which is smaller. *)
Lemma checkpoint_moves_backward :
  storedCheckpoint (Sample.world Sample.three_pending) = Some 1699999000000 /\
  attempt Sample.clock incremental (Fulfilled Sample.earlier)
    (Sample.world Sample.three_pending) =
  Return (Some Sample.earlier)
    (final (attempt Sample.clock incremental (Fulfilled Sample.earlier)
              (Sample.world Sample.three_pending))) /\
  storedCheckpoint
    (final (attempt Sample.clock incremental (Fulfilled Sample.earlier)
              (Sample.world Sample.three_pending))) = Some 1699990000000 /\
  ~ 1699999000000 <= 1699990000000.
Proof.
  split; [vm_compute; reflexivity|].
  split; [vm_compute; reflexivity|].
  split; [vm_compute; reflexivity|lia].
Qed.

(** C1, the amended statement on the sample attempt: the response
    [Sample.earlier] moves both checkpoints to its serverTimestamp. *)
Lemma checkpoint_follows_response_witness :
  db Sample.in_flight = Some Sample.sent_tables /\
  InFlight Sample.in_flight Sample.the_attempt /\
  config (svc Sample.in_flight) = Some Sample.cfg /\
  exists w',
    performSync_response Sample.clock (Fulfilled Sample.earlier) Sample.in_flight =
    Return (Some Sample.earlier) w' /\
    storedCheckpoint w' = Some 1699990000000 /\
    heldCheckpoint w' = Some 1699990000000.
Proof.
  assert (H1 : db Sample.in_flight = Some Sample.sent_tables) by reflexivity.
  assert (H2 : InFlight Sample.in_flight Sample.the_attempt)
    by (split; reflexivity).
  assert (H3 : config (svc Sample.in_flight) = Some Sample.cfg) by reflexivity.
  split; [exact H1|]. split; [exact H2|]. split; [exact H3|].
  destruct (checkpoint_follows_response Sample.clock
              Sample.in_flight Sample.sent_tables Sample.the_attempt Sample.cfg
              (Fulfilled Sample.earlier) H1 H2 H3)
    as (res & w' & E & Hres & Hstored & Hheld & _).
  exists w'. rewrite E, Hres. split; [reflexivity|].
  split; [exact Hstored|exact Hheld].
Defined.

(* ------------------------------------------------------------------ *)
(** *** C2 *)

(** C2, counterexample. The event [Sample.imported] has a localId that is
    not in the store and carries syncStatus synced; [saveCheckin] inserts
    it as synced, not as pending. *)
Lemma saveCheckin_stores_given_status :
  ~ In (localId Sample.imported) (localIds (checkins Sample.three_pending)) /\
  saveCheckin Sample.clock Sample.imported (Sample.world Sample.three_pending) =
  Return tt
    (final (saveCheckin Sample.clock Sample.imported
              (Sample.world Sample.three_pending))) /\
  map (fun r => (local_id r, sync_status r))
    (checkinsOf
       (final (saveCheckin Sample.clock Sample.imported
                 (Sample.world Sample.three_pending)))) =
  [("e1", pending); ("e2", pending); ("e3", failed); ("m1", synced)] /\
  synced <> pending.
Proof.
  split; [vm_compute; intuition discriminate|].
  split; [vm_compute; reflexivity|].
  split; [vm_compute; reflexivity|discriminate].
Qed.

(** C2, the amended statement on the sample store: a second event with
    localId "e1" is refused and the store is what it was; the new event
    "m1" is appended with the status it carries. *)
Lemma saveCheckin_unique_or_appended_witness :
  db (Sample.world Sample.three_pending) = Some Sample.three_pending /\
  (exists w',
     saveCheckin Sample.clock (Sample.record 9 "e1" 12 check_out 1 pending)
       (Sample.world Sample.three_pending) =
     Throw (SqliteConstraint "UNIQUE constraint failed: checkins.local_id") w' /\
     db w' = Some Sample.three_pending) /\
  (exists w' row,
     saveCheckin Sample.clock Sample.imported
       (Sample.world Sample.three_pending) = Return tt w' /\
     checkinsOf w' = (checkins Sample.three_pending ++ [row])%list /\
     local_id row = "m1" /\ sync_status row = synced).
Proof.
  split; [reflexivity|]. split.
  - apply (saveCheckin_unique_or_appended Sample.clock Sample.random36
             Sample.onLine Sample.toString36
             (Sample.world Sample.three_pending) Sample.three_pending
             (Sample.record 9 "e1" 12 check_out 1 pending) eq_refl).
    vm_compute. auto.
  - destruct (saveCheckin_unique_or_appended Sample.clock Sample.random36
                Sample.onLine Sample.toString36
                (Sample.world Sample.three_pending) Sample.three_pending
                Sample.imported eq_refl) as (_ & Hnew & _).
    destruct Hnew as (w' & row & E & Hdb & Hid & Hst & _).
    { vm_compute. intuition discriminate. }
    exists w', row. split; [exact E|].
    unfold checkinsOf. rewrite Hdb. split; [reflexivity|].
    split; [exact Hid|exact Hst].
Defined.

(* ------------------------------------------------------------------ *)
(** *** C3 *)

(** C3 on the sample terminal: the gateway call times out. *)
Lemma transport_failure_touches_nothing_witness :
  db (Sample.world Sample.three_pending) = Some Sample.three_pending /\
  Idle (Sample.world Sample.three_pending) /\
  exists w2,
    performSync_response Sample.clock
      (Rejected "timeout of 30000ms exceeded" false) Sample.in_flight =
    Return None w2 /\
    checkinsOf w2 = checkins Sample.three_pending /\
    storedCheckpoint w2 = Some 1699999000000.
Proof.
  assert (H1 : db (Sample.world Sample.three_pending) = Some Sample.three_pending)
    by reflexivity.
  assert (H2 : Idle (Sample.world Sample.three_pending))
    by (repeat split; eexists; reflexivity).
  split; [exact H1|]. split; [exact H2|].
  destruct (transport_failure_touches_nothing Sample.clock
              (Sample.world Sample.three_pending) Sample.three_pending
              incremental "timeout of 30000ms exceeded" H1 H2)
    as (w1 & a & w2 & row & E1 & _ & E2 & Hrows & Hstored & _).
  rewrite sample_trigger in E1. injection E1 as <-.
  exists w2. split; [exact E2|]. split; [exact Hrows|exact Hstored].
Defined.

(* ------------------------------------------------------------------ *)
(** *** C4 *)

(** C4, counterexample. "e1" was sent and is not in failedRecords, the
    response reports success and carries a use_server directive for "e1":
    after the attempt "e1" is conflict, not synced. *)
Lemma accepted_event_ends_in_conflict :
  In "e1" (map localId (queueOf (checkins Sample.three_pending))) /\
  ~ In "e1" (map f_localId (failedRecords Sample.contested)) /\
  success Sample.contested = true /\
  attempt Sample.clock incremental (Fulfilled Sample.contested)
    (Sample.world Sample.three_pending) =
  Return (Some Sample.contested)
    (final (attempt Sample.clock incremental (Fulfilled Sample.contested)
              (Sample.world Sample.three_pending))) /\
  map (fun r => (local_id r, sync_status r))
    (checkinsOf
       (final (attempt Sample.clock incremental (Fulfilled Sample.contested)
                 (Sample.world Sample.three_pending)))) =
  [("e1", conflict); ("e2", synced); ("e3", synced)] /\
  conflict <> synced.
Proof.
  split; [vm_compute; auto|].
  split; [intros []|].
  split; [reflexivity|].
  split; [vm_compute; reflexivity|].
  split; [vm_compute; reflexivity|discriminate].
Qed.

(** C4, the amended statement on the sample attempt: three events were
    sent and the response arrives at observation 2. When it lists "e2" in
    failedRecords and has no directive, two events are synced, stamped
    with the clock readings 2 and 3 of the marking loop, "e2" is failed
    with the reported error, and the checkpoint is the response's
    serverTimestamp. When it lists no failure and has a use_server
    directive of kind duplicate for "e1", that event is conflict with the
    directive's annotation and no synced_at. *)
Lemma success_marks_batch_witness :
  db Sample.in_flight = Some Sample.sent_tables /\
  InFlight Sample.in_flight Sample.the_attempt /\
  config (svc Sample.in_flight) = Some Sample.cfg /\
  success Sample.partial = true /\
  (exists w',
     performSync_response Sample.clock (Fulfilled Sample.partial) Sample.in_flight =
     Return (Some Sample.partial) w' /\
     heldCheckpoint w' = Some 1700000005000 /\
     storedCheckpoint w' = Some 1700000005000) /\
  steps Sample.in_flight = 2%nat /\
  map (fun r => (local_id r, sync_status r, synced_at r, sync_error r))
    (checkinsOf
       (final (performSync_response Sample.clock (Fulfilled Sample.partial)
                 Sample.in_flight))) =
  [("e1", synced, Some (Sample.clock 2), None);
   ("e2", failed, None, Some "unknown user");
   ("e3", synced, Some (Sample.clock 3), None)] /\
  map (fun r => (local_id r, sync_status r, synced_at r, sync_error r))
    (checkinsOf
       (final (performSync_response Sample.clock (Fulfilled Sample.contested)
                 Sample.in_flight))) =
  [("e1", conflict, None, Some "Resolved: duplicate");
   ("e2", synced, Some (Sample.clock 3), None);
   ("e3", synced, Some (Sample.clock 4), None)].
Proof.
  assert (H1 : db Sample.in_flight = Some Sample.sent_tables) by reflexivity.
  assert (H2 : InFlight Sample.in_flight Sample.the_attempt)
    by (split; reflexivity).
  assert (H3 : config (svc Sample.in_flight) = Some Sample.cfg) by reflexivity.
  assert (H4 : success Sample.partial = true) by reflexivity.
  split; [exact H1|]. split; [exact H2|]. split; [exact H3|].
  split; [exact H4|]. split.
  - destruct (success_marks_batch Sample.clock Sample.random36 Sample.onLine
                Sample.toISODate Sample.toString36
                Sample.in_flight Sample.sent_tables Sample.the_attempt
                Sample.cfg Sample.partial H1 H2 H3 H4)
      as (w' & E & Hheld & Hstored & _).
    exists w'. split; [exact E|]. split; [exact Hheld|exact Hstored].
  - split; [reflexivity|]. split; vm_compute; reflexivity.
Defined.

(* ------------------------------------------------------------------ *)
(** *** C5 *)



(* ------------------------------------------------------------------ *)
(** *** C6 *)

(** C6 on the sample store: a use_server directive of kind time_mismatch
    for "e1", a manual directive of kind user_mismatch for "e2", then a
    use_local directive for the failed event "e3". All three events are
    still there; "e1" and "e2" are conflict, each with the annotation of
    its own resolution and kind, and "e3" is pending again. *)
Lemma handleConflicts_resolution_witness :
  db (Sample.world Sample.three_pending) = Some Sample.three_pending /\
  (exists w',
     handleConflicts
       ([{| cf_localId := "e1"; conflictType := time_mismatch;
            resolution := use_server |}] ++
        {| cf_localId := "e2"; conflictType := user_mismatch;
           resolution := manual_resolution |} ::
        [{| cf_localId := "e3"; conflictType := duplicate;
            resolution := use_local |}])
       (Sample.world Sample.three_pending) = Return tt w' /\
     localIds (checkinsOf w') = ["e1"; "e2"; "e3"] /\
     forall r',
       In r' (checkinsOf w') -> local_id r' = "e2" ->
       sync_status r' = conflict /\ synced_at r' = None /\
       sync_error r' = Some "Manual resolution required: user_mismatch") /\
  map (fun r => (local_id r, sync_status r, sync_error r))
    (checkinsOf
       (final
          (handleConflicts
             [{| cf_localId := "e1"; conflictType := time_mismatch;
                 resolution := use_server |};
              {| cf_localId := "e2"; conflictType := user_mismatch;
                 resolution := manual_resolution |};
              {| cf_localId := "e3"; conflictType := duplicate;
                 resolution := use_local |}]
             (Sample.world Sample.three_pending)))) =
  [("e1", conflict, Some "Resolved: time_mismatch");
   ("e2", conflict, Some "Manual resolution required: user_mismatch");
   ("e3", pending, None)].
Proof.
  assert (H1 : db (Sample.world Sample.three_pending) = Some Sample.three_pending)
    by reflexivity.
  split; [exact H1|]. split.
  - destruct (handleConflicts_resolution
                (Sample.world Sample.three_pending) Sample.three_pending
                [{| cf_localId := "e1"; conflictType := time_mismatch;
                    resolution := use_server |}]
                [{| cf_localId := "e3"; conflictType := duplicate;
                    resolution := use_local |}]
                {| cf_localId := "e2"; conflictType := user_mismatch;
                   resolution := manual_resolution |} H1)
      as (w1 & w' & _ & _ & E & _ & _ & _ & Hids & _ & Hlast & _).
    exists w'. split; [exact E|]. split; [rewrite Hids; reflexivity|].
    intros r' Hin Hid.
    assert (Hafter : ~ In "e2" ["e3"]) by (intros [H|[]]; discriminate H).
    destruct (Hlast Hafter r' Hin Hid) as ((Hst & Hat & Herr) & _).
    split; [exact Hst|]. split; [exact Hat|exact Herr].
  - vm_compute. reflexivity.
Defined.

(* ------------------------------------------------------------------ *)
(** *** C7 *)



(* ------------------------------------------------------------------ *)
(** *** C8 *)

(** C8 on the sample store: user 12 is checked in today and on break; the
    toggle checks the user out and clears the break. *)
Lemma toggleCheckin_decides_witness :
  db (Sample.world Sample.with_status) = Some Sample.with_status /\
  ~ In (localIdAt Sample.clock Sample.random36 Sample.toString36 1)
      (localIds (checkins Sample.with_status)) /\
  (is_on_break <$> statusRowOf (Sample.world Sample.with_status) 12) = Some 1 /\
  exists rec w' row',
    toggleCheckin Sample.clock Sample.random36 Sample.onLine Sample.toISODate
      Sample.toString36 12 "Ada" nfc (Some "5f2c")
      (Sample.world Sample.with_status) = Return (check_out, rec) w' /\
    statusRowOf w' 12 = Some row' /\
    is_checked_in row' = 0 /\ is_on_break row' = 0.
Proof.
  assert (H1 : db (Sample.world Sample.with_status) = Some Sample.with_status)
    by reflexivity.
  assert (H2 : ~ In (localIdAt Sample.clock Sample.random36 Sample.toString36 1)
                 (localIds (checkins Sample.with_status)))
    by (vm_compute; intuition discriminate).
  split; [exact H1|]. split; [exact H2|]. split; [vm_compute; reflexivity|].
  destruct (toggleCheckin_decides Sample.clock Sample.random36 Sample.onLine
              Sample.toISODate Sample.toString36
              (Sample.world Sample.with_status) Sample.with_status 12 "Ada" nfc
              (Some "5f2c") H1)
    as (st & w1 & _ & _ & _ & Hfresh).
  destruct (Hfresh H2) as (rec & w' & row' & E & _ & _ & _ & Hrow & Hin & Hbr).
  change (foundCheckedIn Sample.with_status 12
            (todayAt Sample.clock Sample.toISODate
               (steps (Sample.world Sample.with_status))))
    with true in E, Hin, Hbr.
  exists rec, w', row'. split; [exact E|]. split; [exact Hrow|].
  split; [exact Hin|exact (Hbr eq_refl)].
Defined.

(* ------------------------------------------------------------------ *)
(** *** C9 *)

(** C9, counterexample. No event with localId "nope" is stored;
    [updateCheckinSyncStatus] returns normally and the world is unchanged:
    no NotFoundError. *)
Lemma updateCheckinSyncStatus_unknown_id_returns :
  ~ In "nope" (localIds (checkins Sample.three_pending)) /\
  updateCheckinSyncStatus "nope" synced (Some 1700000000000) None
    (Sample.world Sample.three_pending) =
  Return tt (Sample.world Sample.three_pending).
Proof.
  split; [vm_compute; intuition discriminate|vm_compute; reflexivity].
Qed.

(** C9, the amended statement on the sample store: marking "e2" failed. *)
Lemma updateCheckinSyncStatus_total_witness :
  db (Sample.world Sample.three_pending) = Some Sample.three_pending /\
  (exists w',
     updateCheckinSyncStatus "e2" failed None (Some "unknown user")
       (Sample.world Sample.three_pending) = Return tt w') /\
  map (fun r => (local_id r, sync_status r, sync_error r))
    (checkinsOf
       (final (updateCheckinSyncStatus "e2" failed None (Some "unknown user")
                 (Sample.world Sample.three_pending)))) =
  [("e1", pending, None); ("e2", failed, Some "unknown user");
   ("e3", failed, None)].
Proof.
  assert (H1 : db (Sample.world Sample.three_pending) = Some Sample.three_pending)
    by reflexivity.
  split; [exact H1|]. split.
  - destruct (updateCheckinSyncStatus_total Sample.clock Sample.random36
                Sample.onLine Sample.toISODate Sample.toString36
                (Sample.world Sample.three_pending) Sample.three_pending
                "e2" failed None (Some "unknown user") H1)
      as (w' & rows' & E & _).
    exists w'. exact E.
  - vm_compute. reflexivity.
Defined.

(* ------------------------------------------------------------------ *)
(** *** C10 *)

(** C10 on the sample store: user 11 carries 120 minutes from 2023-11-13;
    a direct [checkIn] on 2023-11-14 re-dates the row and keeps the 120,
    while a [checkIn] after a status read starts the day at 0. *)
Lemma checkIn_carries_minutes_witness :
  db (Sample.world Sample.with_status) = Some Sample.with_status /\
  user_status Sample.with_status !! 11 = Some Sample.stale_status /\
  total_today_minutes Sample.stale_status = 120 /\
  today_date Sample.stale_status <> todayAt Sample.clock Sample.toISODate 5 /\
  ~ In (localIdAt Sample.clock Sample.random36 Sample.toString36 0)
      (localIds (checkins Sample.with_status)) /\
  (exists rec w' row',
     checkIn Sample.clock Sample.random36 Sample.onLine Sample.toISODate
       Sample.toString36 11 "Ada" nfc (Some "5f2c")
       (Sample.world Sample.with_status) = Return rec w' /\
     statusRowOf w' 11 = Some row' /\
     today_date row' = "2023-11-14" /\
     is_checked_in row' = 1 /\ total_today_minutes row' = 120) /\
  (exists st w1 rec w2 row2,
     getUserStatus Sample.clock Sample.toISODate 11
       (Sample.world Sample.with_status) = Return st w1 /\
     checkIn Sample.clock Sample.random36 Sample.onLine Sample.toISODate
       Sample.toString36 11 "Ada" nfc (Some "5f2c") w1 = Return rec w2 /\
     statusRowOf w2 11 = Some row2 /\
     is_checked_in row2 = 1 /\ total_today_minutes row2 = 0).
Proof.
  assert (H1 : db (Sample.world Sample.with_status) = Some Sample.with_status)
    by reflexivity.
  assert (H2 : user_status Sample.with_status !! 11 = Some Sample.stale_status)
    by (vm_compute; reflexivity).
  assert (H3 : total_today_minutes Sample.stale_status = 120) by reflexivity.
  assert (H4 : today_date Sample.stale_status <>
               todayAt Sample.clock Sample.toISODate
                 (5 + steps (Sample.world Sample.with_status)))
    by (vm_compute; discriminate).
  assert (H5 : ~ In (localIdAt Sample.clock Sample.random36 Sample.toString36
                       (steps (Sample.world Sample.with_status)))
                 (localIds (checkins Sample.with_status)))
    by (vm_compute; intuition discriminate).
  split; [exact H1|]. split; [exact H2|]. split; [exact H3|].
  split; [exact H4|]. split; [exact H5|].
  destruct (checkIn_carries_minutes Sample.clock Sample.random36 Sample.onLine
              Sample.toISODate Sample.toString36
              (Sample.world Sample.with_status) Sample.with_status 11 "Ada" nfc
              (Some "5f2c") Sample.stale_status 120 H1 H2 H3 H4 H5)
    as ((rec & w' & row' & E & Hrow & Hdate & Hin & Htot) & Hread).
  split.
  - exists rec, w', row'. split; [exact E|]. split; [exact Hrow|].
    split; [rewrite Hdate; vm_compute; reflexivity|].
    split; [exact Hin|exact Htot].
  - apply Hread.
    + vm_compute. discriminate.
    + vm_compute. intuition discriminate.
Defined.

(* ================================================================== *)
(** ** The further properties on the sample terminal *)
(* ================================================================== *)

(** X1 on the sample store: the queue holds the three waiting events,
    oldest first. *)
Lemma getPendingCheckins_oldest_first_witness :
  db (Sample.world Sample.three_pending) = Some Sample.three_pending /\
  exists queue,
    getPendingCheckins (Sample.world Sample.three_pending) =
      Return queue (Sample.world Sample.three_pending) /\
    StronglySorted (fun a b => timestamp a <= timestamp b) queue /\
    map localId queue = ["e1"; "e2"; "e3"].
Proof.
  assert (H1 : db (Sample.world Sample.three_pending) = Some Sample.three_pending)
    by reflexivity.
  split; [exact H1|].
  destruct (getPendingCheckins_oldest_first
              (Sample.world Sample.three_pending) Sample.three_pending H1)
    as (queue & E & _ & Hsorted & _).
  exists queue. split; [exact E|]. split; [exact Hsorted|].
  pose proof E as E1. vm_compute in E1. injection E1 as <-.
  vm_compute. reflexivity.
Defined.

(** X2 on the sample store: two events are not older than "e2". *)
Lemma getCheckinsSince_newest_first_witness :
  db (Sample.world Sample.three_pending) = Some Sample.three_pending /\
  exists found,
    getCheckinsSince 1699999200000 (Sample.world Sample.three_pending) =
      Return found (Sample.world Sample.three_pending) /\
    map localId found = ["e3"; "e2"].
Proof.
  assert (H1 : db (Sample.world Sample.three_pending) = Some Sample.three_pending)
    by reflexivity.
  split; [exact H1|].
  destruct (getCheckinsSince_newest_first Sample.clock Sample.midnight
              (Sample.world Sample.three_pending) Sample.three_pending
              1699999200000 H1)
    as (found & E & _).
  exists found. split; [exact E|].
  pose proof E as E1. vm_compute in E1. injection E1 as <-.
  vm_compute. reflexivity.
Defined.

(** X3 on an archive: the old synced event goes, the old pending one
    stays. *)
Lemma cleanup_keeps_unsynced_witness :
  db (Sample.world Sample.archive) = Some Sample.archive /\
  exists removed w',
    cleanup Sample.clock None (Sample.world Sample.archive) =
      Return removed w' /\
    removed = 1 /\ localIds (checkinsOf w') = ["a2"; "a3"].
Proof.
  assert (H1 : db (Sample.world Sample.archive) = Some Sample.archive)
    by reflexivity.
  split; [exact H1|].
  destruct (cleanup_keeps_unsynced Sample.clock (Sample.world Sample.archive)
              Sample.archive None H1)
    as (removed & w' & E & Hdb & Hn & _).
  exists removed, w'. split; [exact E|].
  unfold checkinsOf in *. rewrite Hdb in *. split.
  - rewrite Hn. vm_compute. reflexivity.
  - vm_compute. reflexivity.
Defined.

(** X4 on the sample configuration. *)
Lemma terminal_config_round_trip_witness :
  db (Sample.world Sample.three_pending) = Some Sample.three_pending /\
  exists w',
    saveTerminalConfig Sample.cfg (Sample.world Sample.three_pending) =
      Return tt w' /\
    getTerminalConfig w' = Return (Some Sample.cfg) w'.
Proof.
  assert (H1 : db (Sample.world Sample.three_pending) = Some Sample.three_pending)
    by reflexivity.
  split; [exact H1|].
  destruct (terminal_config_round_trip (Sample.world Sample.three_pending)
              Sample.three_pending Sample.cfg H1)
    as (w' & row & c' & E & _ & Eget & H).
  exists w'. split; [exact E|].
  assert (Hc : c' = Sample.cfg).
  { apply H; vm_compute; discriminate. }
  now rewrite <- Hc.
Defined.

(** X5 on the sample store: Ada arrives without lastSyncedAt and with an
    empty photo URL. *)
Lemma saveUser_round_trip_witness :
  db (Sample.world Sample.three_pending) = Some Sample.three_pending /\
  exists w' u',
    saveUser Sample.clock Sample.ada (Sample.world Sample.three_pending) =
      Return tt w' /\
    getUserById 11 w' = Return (Some u') w' /\
    lu_profilePhotoUrl u' = None /\
    lu_lastSyncedAt u' = Some 1700000000000.
Proof.
  assert (H1 : db (Sample.world Sample.three_pending) = Some Sample.three_pending)
    by reflexivity.
  split; [exact H1|].
  destruct (saveUser_round_trip Sample.clock (Sample.world Sample.three_pending)
              Sample.three_pending Sample.ada H1)
    as (w' & u' & E & Eget & _ & _ & _ & _ & _ & _ & Hphoto & _ & Hsync & _).
  exists w', u'. split; [exact E|]. split; [exact Eget|].
  split; [rewrite Hphoto|rewrite Hsync]; vm_compute; reflexivity.
Defined.

(** X6 on the sample staff: Ada's card is found, and nobody has it as a
    PIN. *)
Lemma lookup_by_hash_sound_witness :
  db (Sample.world Sample.with_staff) = Some Sample.with_staff /\
  exists byCard byPin,
    getUserByNfcHash "5f2c" (Sample.world Sample.with_staff) =
      Return byCard (Sample.world Sample.with_staff) /\
    getUserByPinHash "5f2c" (Sample.world Sample.with_staff) =
      Return byPin (Sample.world Sample.with_staff) /\
    lu_name <$> byCard = Some "Ada" /\ byPin = None.
Proof.
  assert (H1 : db (Sample.world Sample.with_staff) = Some Sample.with_staff)
    by reflexivity.
  split; [exact H1|].
  destruct (lookup_by_hash_sound (Sample.world Sample.with_staff)
              Sample.with_staff "5f2c" H1)
    as (byCard & byPin & E1 & E2 & _).
  exists byCard, byPin. split; [exact E1|]. split; [exact E2|].
  pose proof E1 as C1. vm_compute in C1. injection C1 as <-.
  pose proof E2 as C2. vm_compute in C2. injection C2 as <-.
  split; vm_compute; reflexivity.
Defined.

(** X7 on the sample staff: the roster names Bob and Dee; Ada's row is
    not touched. *)
Lemma roster_is_an_upsert_witness :
  db (Sample.world Sample.with_staff) = Some Sample.with_staff /\
  exists w' m,
    updateLocalUsers Sample.clock Sample.roster
      (Sample.world Sample.with_staff) = Return tt w' /\
    db w' = Some (set_users m Sample.with_staff) /\
    m !! 11 = Some Sample.ada_row.
Proof.
  assert (H1 : db (Sample.world Sample.with_staff) = Some Sample.with_staff)
    by reflexivity.
  split; [exact H1|].
  destruct (roster_is_an_upsert Sample.clock (Sample.world Sample.with_staff)
              Sample.with_staff Sample.roster H1)
    as (w' & m & E & Hdb & Hout & _).
  exists w', m. split; [exact E|]. split; [exact Hdb|].
  rewrite Hout.
  - vm_compute. reflexivity.
  - vm_compute. intuition discriminate.
Defined.

(** X8 on the sample staff: the roster deactivates Bob. *)
Lemma inactive_user_is_locked_out_witness :
  db (Sample.world Sample.with_staff) = Some Sample.with_staff /\
  In 12 (map su_userId Sample.roster) /\
  exists w',
    updateLocalUsers Sample.clock Sample.roster
      (Sample.world Sample.with_staff) = Return tt w' /\
    (exists byCard,
       getUserByNfcHash "77aa" w' = Return byCard w' /\
       lu_id <$> byCard <> Some 12) /\
    exists u, getUserById 12 w' = Return (Some u) w' /\ lu_isActive u = false.
Proof.
  assert (H1 : db (Sample.world Sample.with_staff) = Some Sample.with_staff)
    by reflexivity.
  assert (H2 : In 12 (map su_userId Sample.roster)) by (left; reflexivity).
  assert (H3 : forall su, In su Sample.roster -> su_userId su = 12 ->
                          su_isActive su = false).
  { intros su [<-|[<-|[]]] Hid; [reflexivity|discriminate Hid]. }
  split; [exact H1|]. split; [exact H2|].
  destruct (inactive_user_is_locked_out Sample.clock
              (Sample.world Sample.with_staff) Sample.with_staff
              Sample.roster 12 H1 H2 H3)
    as (w' & E & Hlook & _ & Hstored).
  exists w'. split; [exact E|]. split; [|exact Hstored].
  destruct (Hlook "77aa") as (byCard & byPin & E1 & _ & Hno & _).
  exists byCard. split; [exact E1|exact Hno].
Defined.

(** X9 on the sample staff: Ada and Bob are listed, Cy is not. *)
Lemma getAllUsers_active_by_name_witness :
  db (Sample.world Sample.with_staff) = Some Sample.with_staff /\
  exists listed,
    getAllUsers (Sample.world Sample.with_staff) =
      Return listed (Sample.world Sample.with_staff) /\
    map lu_name listed = ["Ada"; "Bob"].
Proof.
  assert (H1 : db (Sample.world Sample.with_staff) = Some Sample.with_staff)
    by reflexivity.
  split; [exact H1|].
  destruct (getAllUsers_active_by_name (Sample.world Sample.with_staff)
              Sample.with_staff H1)
    as (listed & E & _).
  exists listed. split; [exact E|].
  pose proof E as E1. vm_compute in E1. injection E1 as <-.
  vm_compute. reflexivity.
Defined.

(** X10 on the sample store: user 11 carries a row of yesterday; the
    first read resets it, the second writes nothing. *)
Lemma getUserStatus_resets_once_witness :
  db (Sample.world Sample.with_status) = Some Sample.with_status /\
  todayAt Sample.clock Sample.toISODate 1 =
    todayAt Sample.clock Sample.toISODate 0 /\
  exists st1 st2 w1 w2,
    getUserStatus Sample.clock Sample.toISODate 11
      (Sample.world Sample.with_status) = Return st1 w1 /\
    getUserStatus Sample.clock Sample.toISODate 11 w1 = Return st2 w2 /\
    db w2 = db w1.
Proof.
  assert (H1 : db (Sample.world Sample.with_status) = Some Sample.with_status)
    by reflexivity.
  assert (H2 : todayAt Sample.clock Sample.toISODate
                 (S (steps (Sample.world Sample.with_status))) =
               todayAt Sample.clock Sample.toISODate
                 (steps (Sample.world Sample.with_status)))
    by (vm_compute; reflexivity).
  split; [exact H1|]. split; [exact H2|].
  destruct (getUserStatus_resets_once Sample.clock Sample.toISODate
              (Sample.world Sample.with_status) Sample.with_status 11 H1 H2)
    as (st1 & st2 & w1 & w2 & E1 & E2 & Hdb & _).
  exists st1, st2, w1, w2. split; [exact E1|]. split; [exact E2|exact Hdb].
Defined.

(** X11 on the sample store: user 12 opened a session at 20:43:20 and
    checks out at 22:13:40, 90 minutes and 20 seconds later. *)
Lemma checkOut_adds_session_witness :
  db (Sample.world Sample.with_status) = Some Sample.with_status /\
  user_status Sample.with_status !! 12 = Some Sample.on_break_status /\
  exists w' row',
    checkOut Sample.clock Sample.random36 Sample.onLine Sample.toISODate
      Sample.toString36 12 "Bob" nfc (Some "77aa")
      (Sample.world Sample.with_status) =
      Return (recordAt Sample.clock Sample.random36 Sample.onLine
                Sample.toString36 0 12 "Bob" check_out nfc (Some "77aa")) w' /\
    statusRowOf w' 12 = Some row' /\
    total_today_minutes row' = 90 /\
    current_session_start row' = Some 1699994600000.
Proof.
  assert (H1 : db (Sample.world Sample.with_status) = Some Sample.with_status)
    by reflexivity.
  assert (H2 : ~ In (localIdAt Sample.clock Sample.random36 Sample.toString36
                       (steps (Sample.world Sample.with_status)))
                 (localIds (checkins Sample.with_status)))
    by (vm_compute; intuition discriminate).
  assert (H3 : user_status Sample.with_status !! 12 = Some Sample.on_break_status)
    by (vm_compute; reflexivity).
  assert (H4 : today_date Sample.on_break_status =
               todayAt Sample.clock Sample.toISODate
                 (5 + steps (Sample.world Sample.with_status)))
    by (vm_compute; reflexivity).
  split; [exact H1|]. split; [exact H3|].
  destruct (checkOut_adds_session Sample.clock Sample.random36 Sample.onLine
              Sample.toISODate Sample.toString36
              (Sample.world Sample.with_status) Sample.with_status 12 "Bob"
              nfc (Some "77aa") Sample.on_break_status H1 H2 H3 H4)
    as (w' & row' & minutes & E & _ & Hrow & Htot & Hround & _ & _ & _ & _ & _ &
        Hstart & _).
  exists w', row'. split; [exact E|]. split; [exact Hrow|].
  split; [|exact Hstart].
  rewrite Htot.
  specialize (Hround 1699994600000 eq_refl ltac:(discriminate)).
  change (Sample.clock (2 + steps (Sample.world Sample.with_status)))
    with 1700000020000 in Hround.
  change (total_today_minutes Sample.on_break_status) with 0. lia.
Defined.

(** X12 on the sample store: user 11 carries a row of yesterday with 120
    minutes; a break stamping re-dates it and flips only the break
    flag. *)
Lemma breaks_touch_only_the_break_flag_witness :
  db (Sample.world Sample.with_status) = Some Sample.with_status /\
  exists w1 w2 row1 row2,
    startBreak Sample.clock Sample.random36 Sample.onLine Sample.toISODate
      Sample.toString36 11 "Ada" nfc (Sample.world Sample.with_status) =
      Return (recordAt Sample.clock Sample.random36 Sample.onLine
                Sample.toString36 0 11 "Ada" break_start nfc None) w1 /\
    statusRowOf w1 11 = Some row1 /\ is_on_break row1 = 1 /\
    endBreak Sample.clock Sample.random36 Sample.onLine Sample.toISODate
      Sample.toString36 11 "Ada" nfc (Sample.world Sample.with_status) =
      Return (recordAt Sample.clock Sample.random36 Sample.onLine
                Sample.toString36 0 11 "Ada" break_end nfc None) w2 /\
    statusRowOf w2 11 = Some row2 /\ is_on_break row2 = 0.
Proof.
  assert (H1 : db (Sample.world Sample.with_status) = Some Sample.with_status)
    by reflexivity.
  assert (H2 : ~ In (localIdAt Sample.clock Sample.random36 Sample.toString36
                       (steps (Sample.world Sample.with_status)))
                 (localIds (checkins Sample.with_status)))
    by (vm_compute; intuition discriminate).
  split; [exact H1|].
  destruct (breaks_touch_only_the_break_flag Sample.clock Sample.random36
              Sample.onLine Sample.toISODate Sample.toString36
              (Sample.world Sample.with_status) Sample.with_status 11 "Ada"
              nfc H1 H2)
    as (w1 & w2 & E1 & (_ & row1 & Hr1 & Hb1 & _) & E2 &
        (_ & row2 & Hr2 & Hb2 & _)).
  exists w1, w2, row1, row2.
  split; [exact E1|]. split; [exact Hr1|]. split; [exact Hb1|].
  split; [exact E2|]. split; [exact Hr2|exact Hb2].
Defined.

(** X13 on the sample store: "e1" is marked, "zz" is not stored. *)
Lemma markAsSynced_clears_queue_witness :
  db (Sample.world Sample.three_pending) = Some Sample.three_pending /\
  exists w' queue,
    markAsSynced Sample.clock ["e1"; "zz"] (Sample.world Sample.three_pending) =
      Return tt w' /\
    getPendingCheckins w' = Return queue w' /\
    (forall c, In c queue -> ~ In (localId c) ["e1"; "zz"]).
Proof.
  assert (H1 : db (Sample.world Sample.three_pending) = Some Sample.three_pending)
    by reflexivity.
  split; [exact H1|].
  destruct (markAsSynced_clears_queue Sample.clock
              (Sample.world Sample.three_pending) Sample.three_pending
              ["e1"; "zz"] H1)
    as (w' & E & _ & _ & _ & queue & Eq & Hq).
  exists w', queue. split; [exact E|]. split; [exact Eq|exact Hq].
Defined.

(** X14 on the sample store: "e1" is marked failed with an empty error
    text and waits for the next attempt. *)
Lemma markAsFailed_keeps_in_queue_witness :
  db (Sample.world Sample.three_pending) = Some Sample.three_pending /\
  exists w' queue,
    markAsFailed "e1" "" (Sample.world Sample.three_pending) = Return tt w' /\
    getPendingCheckins w' = Return queue w' /\
    forall r', In r' (checkinsOf w') -> local_id r' = "e1" ->
               sync_error r' = None /\ In (mapCheckinRow r') queue.
Proof.
  assert (H1 : db (Sample.world Sample.three_pending) = Some Sample.three_pending)
    by reflexivity.
  split; [exact H1|].
  destruct (markAsFailed_keeps_in_queue (Sample.world Sample.three_pending)
              Sample.three_pending "e1" "" H1)
    as (w' & E & _ & Hmark & _ & _ & queue & Eq & Hq).
  exists w', queue. split; [exact E|]. split; [exact Eq|].
  intros r' Hin Hid. split.
  - now destruct (Hmark r' Hin Hid) as (_ & _ & ->).
  - now destruct (Hq r' Hin Hid).
Defined.

(** X16 on two inputs: 135 minutes print as "2:15"; 90 minutes owed
    print as "-2:-30". *)
Lemma formatWorkTime_parts_witness :
  Js.isSafeInteger 135 /\
  (exists hours mins text,
     formatWorkTime 135 =
       String.append (Js.toStringRadix 10 hours) (String.append ":" text) /\
     hours * 60 + mins = 135 /\ 0 <= mins < 60 /\
     String.length text = 2%nat) /\
  formatWorkTime 135 = "2:15" /\
  Js.isSafeInteger (- 90) /\
  (exists hours mins text,
     formatWorkTime (- 90) =
       String.append (Js.toStringRadix 10 hours) (String.append ":" text) /\
     hours * 60 + mins = - 90 - 60 /\
     exists rest, text = String "-"%char rest) /\
  formatWorkTime (- 90) = "-2:-30".
Proof.
  assert (H1 : Js.isSafeInteger 135) by (unfold Js.isSafeInteger; lia).
  assert (H2 : Js.isSafeInteger (- 90)) by (unfold Js.isSafeInteger; lia).
  split; [exact H1|]. split.
  { destruct (formatWorkTime_parts 135 H1)
      as (hours & mins & text & E & _ & Hpos & _).
    destruct (Hpos ltac:(lia)) as (Hsum & Hmins & Hlen).
    exists hours, mins, text. split; [exact E|]. split; [exact Hsum|].
    split; [exact Hmins|exact Hlen]. }
  split; [vm_compute; reflexivity|]. split; [exact H2|]. split.
  { destruct (formatWorkTime_parts (- 90) H2)
      as (hours & mins & text & E & _ & _ & _ & Hneg).
    destruct (Hneg ltac:(lia) ltac:(vm_compute; discriminate))
      as (Hsum & _ & Hrest).
    exists hours, mins, text. split; [exact E|]. split; [exact Hsum|exact Hrest]. }
  vm_compute. reflexivity.
Defined.

(** X17 on the sample store: two events are pending, one is failed; all
    three are in the queue. *)
Lemma getStats_counts_witness :
  db (Sample.world Sample.three_pending) = Some Sample.three_pending /\
  exists stats queue,
    getStats Sample.clock Sample.midnight (Sample.world Sample.three_pending) =
      Return stats (set_steps 1 (Sample.world Sample.three_pending)) /\
    getPendingCheckins (Sample.world Sample.three_pending) =
      Return queue (Sample.world Sample.three_pending) /\
    st_pendingCheckins stats = 2 /\ length queue = 3%nat.
Proof.
  assert (H1 : db (Sample.world Sample.three_pending) = Some Sample.three_pending)
    by reflexivity.
  split; [exact H1|].
  destruct (getStats_counts Sample.clock Sample.midnight
              (Sample.world Sample.three_pending) Sample.three_pending H1)
    as (stats & queue & listed & today & E & Eq & Hlen & _).
  exists stats, queue. split; [exact E|]. split; [exact Eq|].
  pose proof E as E1. vm_compute in E1. injection E1 as <-.
  split; [reflexivity|].
  change (Z.of_nat (length queue) = 2 + 1) in Hlen. lia.
Defined.

(** X19 on the sample terminal: the timers are armed with 60 s and 30 s
    and an attempt starts; stopping clears the timers and leaves the
    attempt in flight. *)
Lemma startAutoSync_arms_timers_witness :
  db (Sample.world Sample.three_pending) = Some Sample.three_pending /\
  exists w' w'',
    startAutoSync Sample.clock (Sample.world Sample.three_pending) =
      Return tt w' /\
    syncInterval (svc w') = Some 60000 /\
    stopAutoSync w' = Return tt w'' /\
    syncInterval (svc w'') = None /\ posted w'' = posted w'.
Proof.
  assert (H1 : db (Sample.world Sample.three_pending) = Some Sample.three_pending)
    by reflexivity.
  split; [exact H1|].
  destruct (startAutoSync_arms_timers Sample.clock
              (Sample.world Sample.three_pending) Sample.three_pending H1)
    as (w' & w'' & E & Hm & Estop & Hsi & _ & _ & Hp & _).
  exists w', w''. split; [exact E|].
  change (config (svc (Sample.world Sample.three_pending)))
    with (Some Sample.cfg) in Hm.
  destruct Hm as (Hsync & _).
  split; [exact Hsync|]. split; [exact Estop|]. split; [exact Hsi|exact Hp].
Defined.

(** X20 on the sample terminal: the timer is running and the engine is
    idle, so the new interval of 120 s re-arms it and an incremental
    attempt is in flight, with one sync_log row. *)
Lemma setSyncInterval_persists_witness :
  db (Sample.world Sample.three_pending) = Some Sample.three_pending /\
  exists w',
    setSyncInterval Sample.clock 120 (Sample.world Sample.three_pending) =
      Return tt w' /\
    syncInterval (svc w') = Some 120000 /\
    (exists c',
       getTerminalConfig w' = Return (Some c') w' /\
       syncIntervalSeconds c' = 120) /\
    exists a,
      InFlight w' a /\ at_syncType a = incremental /\
      length (syncLogOf w') = 1%nat.
Proof.
  assert (H1 : db (Sample.world Sample.three_pending) = Some Sample.three_pending)
    by reflexivity.
  split; [exact H1|].
  destruct (setSyncInterval_persists Sample.clock
              (Sample.world Sample.three_pending) Sample.three_pending 120 H1)
    as (w' & E & Hm).
  exists w'. split; [exact E|].
  change (config (svc (Sample.world Sample.three_pending)))
    with (Some Sample.cfg) in Hm.
  destruct Hm as (_ & (c' & Eget & Hint & _) & _ & _ & Ht).
  change (syncInterval (svc (Sample.world Sample.three_pending)))
    with (Some 60000) in Ht.
  destruct Ht as (Hsi & _ & _ & Hidle).
  destruct (Hidle ltac:(eexists; reflexivity) eq_refl)
    as (a & row & Ha & Hty & _ & _ & _ & Hlog & _).
  split; [exact Hsi|]. split; [exists c'; split; [exact Eget|exact Hint]|].
  exists a. split; [exact Ha|]. split; [exact Hty|].
  rewrite Hlog. reflexivity.
Defined.

(** X22 on the sample terminal: a forced sync on the idle engine posts
    the queue as a full sync. *)
Lemma forceSync_resets_retries_witness :
  db (Sample.world Sample.three_pending) = Some Sample.three_pending /\
  exists w' a,
    forceSync Sample.clock (Sample.world Sample.three_pending) =
      Return AwaitingGateway w' /\
    retryCount (svc w') = 0 /\ InFlight w' a /\ at_syncType a = full.
Proof.
  assert (H1 : db (Sample.world Sample.three_pending) = Some Sample.three_pending)
    by reflexivity.
  assert (H2 : Idle (Sample.world Sample.three_pending))
    by (repeat split; eexists; reflexivity).
  split; [exact H1|].
  destruct (forceSync_resets_retries Sample.clock
              (Sample.world Sample.three_pending) Sample.three_pending H1)
    as (started & w' & E & Hrc & _ & _ & Hidle).
  destruct (Hidle H2) as (-> & a & Ha & Hty & _).
  exists w', a. split; [exact E|]. split; [exact Hrc|].
  split; [exact Ha|exact Hty].
Defined.

(** X23 on the sample terminal: five timeouts in a row arm three
    retries. *)
Lemma rejections_arm_at_most_three_retries_witness :
  db (Sample.world Sample.three_pending) = Some Sample.three_pending /\
  Idle (Sample.world Sample.three_pending) /\
  exists w',
    attempts Sample.clock
      [Rejected "timeout" false; Rejected "timeout" false;
       Rejected "Request failed with status code 500" true;
       Rejected "timeout" false; Rejected "timeout" false]
      (Sample.world Sample.three_pending) = Return tt w' /\
    retryCount (svc w') = 3 /\ retryTimers w' = 3%nat /\
    length (syncLogOf w') = 5%nat.
Proof.
  assert (H1 : db (Sample.world Sample.three_pending) = Some Sample.three_pending)
    by reflexivity.
  assert (H2 : Idle (Sample.world Sample.three_pending))
    by (repeat split; eexists; reflexivity).
  assert (H3 : retryCount (svc (Sample.world Sample.three_pending)) <= 3)
    by (vm_compute; discriminate).
  split; [exact H1|]. split; [exact H2|].
  destruct (rejections_arm_at_most_three_retries Sample.clock
              [Rejected "timeout" false; Rejected "timeout" false;
               Rejected "Request failed with status code 500" true;
               Rejected "timeout" false; Rejected "timeout" false]
              (Sample.world Sample.three_pending) Sample.three_pending
              H1 H2 H3 eq_refl)
    as (w' & E & _ & Hrc & Ht & _ & _ & _ & _ & Hlog).
  exists w'. split; [exact E|].
  change (retryCount (svc (Sample.world Sample.three_pending))) with 0 in *.
  change (retryTimers (Sample.world Sample.three_pending)) with 0%nat in *.
  cbn [length] in Hrc, Hlog.
  change (Z.min 3 (0 + Z.of_nat 5)) with 3 in Hrc.
  rewrite Hrc in Ht. split; [exact Hrc|]. split; [lia|exact Hlog].
Defined.

(** X24 on the sample terminal: four refusals in a row arm four
    retries. *)
Lemma refusals_always_retry_witness :
  db (Sample.world Sample.three_pending) = Some Sample.three_pending /\
  Idle (Sample.world Sample.three_pending) /\
  exists w',
    attempts Sample.clock
      [Fulfilled Sample.refused; Fulfilled Sample.refused;
       Fulfilled Sample.refused; Fulfilled Sample.refused]
      (Sample.world Sample.three_pending) = Return tt w' /\
    retryCount (svc w') = 1 /\ retryTimers w' = 4%nat.
Proof.
  assert (H1 : db (Sample.world Sample.three_pending) = Some Sample.three_pending)
    by reflexivity.
  assert (H2 : Idle (Sample.world Sample.three_pending))
    by (repeat split; eexists; reflexivity).
  split; [exact H1|]. split; [exact H2|].
  destruct (refusals_always_retry Sample.clock
              [Fulfilled Sample.refused; Fulfilled Sample.refused;
               Fulfilled Sample.refused; Fulfilled Sample.refused]
              (Sample.world Sample.three_pending) Sample.three_pending
              H1 H2 ltac:(discriminate) eq_refl)
    as (w' & E & _ & Hrc & Ht & _).
  exists w'. split; [exact E|]. split; [exact Hrc|exact Ht].
Defined.

(** X25 on the attempt in flight: the server sends new settings. *)
Lemma updateSettings_keeps_identity_witness :
  db Sample.in_flight = Some Sample.sent_tables /\
  config (svc Sample.in_flight) = Some Sample.cfg /\
  isSyncing (svc Sample.in_flight) = true /\
  exists w' c',
    updateSettings Sample.clock Sample.new_settings Sample.in_flight =
      Return tt w' /\
    config (svc w') = Some c' /\
    syncIntervalSeconds c' = 120 /\
    terminalId c' = "a1b2-c3d4-e5f6-0789" /\
    lastSyncAt c' = Some 1699999000000 /\
    syncInterval (svc w') = Some 120000 /\
    posted w' = Some Sample.the_attempt.
Proof.
  assert (H1 : db Sample.in_flight = Some Sample.sent_tables) by reflexivity.
  assert (H2 : config (svc Sample.in_flight) = Some Sample.cfg) by reflexivity.
  assert (H3 : isSyncing (svc Sample.in_flight) = true) by reflexivity.
  split; [exact H1|]. split; [exact H2|]. split; [exact H3|].
  destruct (updateSettings_keeps_identity Sample.clock Sample.in_flight
              Sample.sent_tables Sample.cfg Sample.new_settings H1 H2 H3)
    as (w' & c' & stored & E & Hc & Hint & _ & _ & _ & _ & _ & Hid & _ & _ & _ &
        _ & _ & Hsync & _ & _ & _ & _ & _ & _ & _ & _ & Ht & Hp & _).
  exists w', c'. split; [exact E|]. split; [exact Hc|].
  split; [exact Hint|]. split; [exact Hid|]. split; [exact Hsync|].
  change (syncInterval (svc Sample.in_flight)) with (Some 60000) in Ht.
  destruct Ht as (Hsi & _). split; [exact Hsi|exact Hp].
Defined.

(** X26 on the attempt in flight, answered with the partial response. *)
Lemma stats_agree_after_success_witness :
  db Sample.in_flight = Some Sample.sent_tables /\
  InFlight Sample.in_flight Sample.the_attempt /\
  exists w' engine store,
    performSync_response Sample.clock (Fulfilled Sample.partial)
      Sample.in_flight = Return (Some Sample.partial) w' /\
    syncStats Sample.clock Sample.midnight w' =
      Return engine (set_steps (S (steps w')) w') /\
    getStats Sample.clock Sample.midnight w' =
      Return store (set_steps (S (steps w')) w') /\
    sy_lastSyncAt engine = Some 1700000005000 /\
    st_lastSyncAt store = Some 1700000005000.
Proof.
  assert (H1 : db Sample.in_flight = Some Sample.sent_tables) by reflexivity.
  assert (H2 : InFlight Sample.in_flight Sample.the_attempt)
    by (split; reflexivity).
  assert (H3 : config (svc Sample.in_flight) = Some Sample.cfg) by reflexivity.
  split; [exact H1|]. split; [exact H2|].
  destruct (stats_agree_after_success Sample.clock Sample.midnight
              Sample.in_flight Sample.sent_tables Sample.the_attempt
              Sample.cfg Sample.partial H1 H2 H3 eq_refl)
    as (w' & engine & store & E & E1 & E2 & Hs1 & Hs2 & _).
  exists w', engine, store. split; [exact E|]. split; [exact E1|].
  split; [exact E2|]. split; [exact Hs1|exact Hs2].
Defined.

(** X27 on the attempt in flight: the reset empties the store, the late
    answer writes the configuration row again. *)
Lemma reset_does_not_reset_engine_witness :
  db Sample.in_flight = Some Sample.sent_tables /\
  config (svc Sample.in_flight) = Some Sample.cfg /\
  exists w1 w2 stored,
    resetTerminal Sample.in_flight = Return tt w1 /\
    getTerminalConfig w1 = Return None w1 /\
    performSync_response Sample.clock (Fulfilled Sample.partial) w1 =
      Return (Some Sample.partial) w2 /\
    getTerminalConfig w2 = Return (Some stored) w2 /\
    lastSyncAt stored = Some 1700000005000.
Proof.
  assert (H1 : db Sample.in_flight = Some Sample.sent_tables) by reflexivity.
  assert (H2 : config (svc Sample.in_flight) = Some Sample.cfg) by reflexivity.
  assert (H3 : is_Some (api (svc Sample.in_flight)))
    by (eexists; reflexivity).
  assert (H4 : InFlight Sample.in_flight Sample.the_attempt)
    by (split; reflexivity).
  split; [exact H1|]. split; [exact H2|].
  destruct (reset_does_not_reset_engine Sample.clock Sample.in_flight
              Sample.sent_tables Sample.cfg H1 H2 H3)
    as (w1 & E & Eget & _ & _ & _ & _ & _ & _ & _ & _ & _ & _ & Hlate & _).
  destruct (Hlate Sample.the_attempt Sample.partial H4 eq_refl)
    as (w2 & c' & E2 & _ & _ & _ & stored & Eget2 & Hstored).
  exists w1, w2, stored. split; [exact E|]. split; [exact Eget|].
  split; [exact E2|]. split; [exact Eget2|exact Hstored].
Defined.

(** X28 on the sample terminal: registration leaves an incremental
    attempt in flight and no full one. *)
Lemma registerTerminal_skips_full_sync_witness :
  db (Sample.world Sample.three_pending) = Some Sample.three_pending /\
  exists w' a,
    registerTerminal Sample.clock Sample.cfg
      (Sample.world Sample.three_pending) = Return (Resolved None) w' /\
    posted w' = Some a /\ at_syncType a = incremental.
Proof.
  assert (H1 : db (Sample.world Sample.three_pending) = Some Sample.three_pending)
    by reflexivity.
  split; [exact H1|].
  destruct (registerTerminal_skips_full_sync Sample.clock
              (Sample.world Sample.three_pending) Sample.three_pending
              Sample.cfg H1)
    as (w' & held & E & _ & _ & _ & _ & _ & _ & _ & _ & _ & Hidle & _).
  destruct (Hidle eq_refl) as (a & row & Hp & Hty & _).
  exists w', a. split; [exact E|]. split; [exact Hp|exact Hty].
Defined.

(** X29 on the sample store: an event saved twice, a reset and a new log
    row. *)
Lemma keys_stay_unique_witness :
  db (Sample.world Sample.three_pending) = Some Sample.three_pending /\
  keys_unique Sample.three_pending /\
  exists t',
    db (run_calls Sample.clock Sample.toISODate
          [SaveCheckin Sample.imported; SaveCheckin Sample.imported;
           UpdateCheckinSyncStatus "e1" synced (Some 1700000000000) None;
           DeleteOldSyncedCheckins 0; LogSyncStart full]
          (Sample.world Sample.three_pending)) = Some t' /\
    keys_unique t'.
Proof.
  assert (H1 : db (Sample.world Sample.three_pending) = Some Sample.three_pending)
    by reflexivity.
  assert (H2 : keys_unique Sample.three_pending).
  { unfold keys_unique.
    split; [|split];
      repeat (constructor; [vm_compute; intuition discriminate|]);
      constructor. }
  split; [exact H1|]. split; [exact H2|].
  exact (keys_stay_unique Sample.clock Sample.toISODate
           [SaveCheckin Sample.imported; SaveCheckin Sample.imported;
            UpdateCheckinSyncStatus "e1" synced (Some 1700000000000) None;
            DeleteOldSyncedCheckins 0; LogSyncStart full]
           (Sample.world Sample.three_pending) Sample.three_pending H1 H2).
Defined.

(** X30 on the sample terminal: the settings screen switches NFC off; the
    next successful sync switches it on again in the database. *)
Lemma updateConfig_is_overwritten_by_sync_witness :
  db (Sample.world Sample.three_pending) = Some Sample.three_pending /\
  Idle (Sample.world Sample.three_pending) /\
  exists w1 w2 saved restored,
    updateConfig (Some Sample.cfg) Sample.nfc_off
      (Sample.world Sample.three_pending) =
      Return (Some (spread Sample.cfg Sample.nfc_off)) w1 /\
    getTerminalConfig w1 = Return (Some saved) w1 /\
    nfcEnabled saved = false /\
    attempt Sample.clock incremental (Fulfilled Sample.partial) w1 =
      Return (Some Sample.partial) w2 /\
    getTerminalConfig w2 = Return (Some restored) w2 /\
    nfcEnabled restored = true.
Proof.
  assert (H1 : db (Sample.world Sample.three_pending) = Some Sample.three_pending)
    by reflexivity.
  assert (H2 : Idle (Sample.world Sample.three_pending))
    by (repeat split; eexists; reflexivity).
  assert (H3 : config (svc (Sample.world Sample.three_pending)) =
               Some Sample.cfg) by reflexivity.
  split; [exact H1|]. split; [exact H2|].
  destruct (updateConfig_is_overwritten_by_sync Sample.clock
              (Sample.world Sample.three_pending) Sample.three_pending
              Sample.cfg Sample.cfg Sample.nfc_off incremental Sample.partial
              H1 H2 H3 eq_refl eq_refl)
    as (w1 & w2 & saved & restored & E1 & G1 & Hnfc & _ & _ & _ & _ & E2 & G2 &
        Hback & _).
  exists w1, w2, saved, restored.
  split; [exact E1|]. split; [exact G1|]. split; [exact Hnfc|].
  split; [exact E2|]. split; [exact G2|exact Hback].
Defined.
